(** * Authority arbitration for a remotely operated vehicle

    A shallow embedding of [authority_rules.py] (risk classifier and
    authority rule engine) and of the node of [mode_arbitrator.py] (its
    callbacks, the arbitration loop and the execution of decisions),
    followed by the properties of the arbitration hierarchy.

    Python floats are IEEE binary64 values, so they are embedded as Rocq's
    primitive floats; comparisons are the IEEE ones ([<?], [<=?]), with their
    NaN behaviour.  Python objects whose methods may assign attributes are
    embedded in a state-and-exception monad over the object's record. *)

From Stdlib Require Import ZArith String Ascii Decimal DecimalString.
From Stdlib Require Import PrimFloat FloatOps FloatAxioms SpecFloat.
From stdpp Require Import gmap strings.

Set Warnings "-inexact-float".

Local Open Scope Z_scope.

(** ** Exceptions and the state-and-exception monad *)

Inductive exn : Type :=
| ValueError (msg : string)
| OverflowError (msg : string)
| KeyError (msg : string).

Inductive result (A : Type) : Type :=
| Ok (a : A)
| Raise (e : exn).
Arguments Ok {A} a.
Arguments Raise {A} e.

(** A computation on an object of type [St]: it returns the object as the
    computation leaves it, and either a value or the exception raised. *)
Definition SE (St A : Type) : Type := St -> St * result A.

Definition ret {St A} (a : A) : SE St A := fun s => (s, Ok a).

Definition raise {St A} (e : exn) : SE St A := fun s => (s, Raise e).

Definition bind {St A B} (m : SE St A) (k : A -> SE St B) : SE St B :=
  fun s => match m s with
           | (s', Ok a) => k a s'
           | (s', Raise e) => (s', Raise e)
           end.

(** Attribute read [self.f]. *)
Definition gets {St A} (f : St -> A) : SE St A := fun s => (s, Ok (f s)).

(** Attribute update through a function on the object. *)
Definition modify {St} (f : St -> St) : SE St unit := fun s => (f s, Ok tt).

(** A call that touches no object state. *)
Definition lift {St A} (r : result A) : SE St A := fun s => (s, r).

Definition run {St A} (m : SE St A) (s : St) : result A := snd (m s).

Definition exec {St A} (m : SE St A) (s : St) : St := fst (m s).

Notation "x <- m ;; k" := (bind m (fun x => k))
  (at level 100, m at next level, right associativity).

Definition rbind {A B} (r : result A) (k : A -> result B) : result B :=
  match r with
  | Ok a => k a
  | Raise e => Raise e
  end.

(** ** Python built-ins used by the source *)

Notation "x >? y" := (PrimFloat.ltb y x) (only parsing) : float_scope.
Notation "x >=? y" := (PrimFloat.leb y x) (only parsing) : float_scope.

Definition nl : string := String (ascii_of_nat 10) EmptyString.

(** [str(n)] for an integer. *)
Definition digits_of_N (n : N) : string := NilZero.string_of_uint (N.to_uint n).

Definition str_of_Z (z : Z) : string :=
  if z <? 0 then "-" +:+ digits_of_N (Z.to_N (- z)) else digits_of_N (Z.to_N z).

(** [int(x)] for a float: truncation toward zero; NaN and the infinities
    raise. *)
Definition py_int (x : float) : result Z :=
  match Prim2SF x with
  | S754_nan => Raise (ValueError "cannot convert float NaN to integer")
  | S754_infinity _ => Raise (OverflowError "cannot convert float infinity to integer")
  | S754_zero _ => Ok 0
  | S754_finite s m e =>
      let a := if 0 <=? e then Z.pos m * 2 ^ e else Z.pos m / 2 ^ (- e) in
      Ok (if s then - a else a)
  end.

(** Rounding of the non-negative rational [num / den] to the nearest
    integer, ties to even: the rounding of Python's float formatting. *)
Definition round_half_even (num den : Z) : Z :=
  let q := num / den in
  let r := num mod den in
  match 2 * r ?= den with
  | Lt => q
  | Gt => q + 1
  | Eq => if Z.even q then q else q + 1
  end.

Fixpoint zeros (n : nat) : string :=
  match n with
  | O => ""
  | S n' => "0" +:+ zeros n'
  end.

(** The decimal numeral of [n / 10^prec] with exactly [prec] fractional
    digits and at least one integer digit. *)
Definition fixed_numeral (prec : nat) (n : N) : string :=
  let ds := digits_of_N n in
  let ds := zeros (S prec - String.length ds) +:+ ds in
  let k := (String.length ds - prec)%nat in
  match prec with
  | O => ds
  | _ => String.substring 0 k ds +:+ "." +:+ String.substring k prec ds
  end.

(** [format(x, '.<prec>f')]: the exact binary value of [x], correctly
    rounded to [prec] decimals. *)
Definition format_f (prec : nat) (x : float) : string :=
  match Prim2SF x with
  | S754_nan => "nan"
  | S754_infinity s => if s then "-inf" else "inf"
  | S754_zero s => (if s then "-" else "") +:+ fixed_numeral prec 0
  | S754_finite s m e =>
      let num := Z.pos m * 10 ^ Z.of_nat prec in
      let n := if 0 <=? e then num * 2 ^ e else round_half_even num (2 ^ (- e)) in
      (if s then "-" else "") +:+ fixed_numeral prec (Z.to_N n)
  end.

(** [f"{x:.2f}"]. *)
Definition fmt_2f (x : float) : string := format_f 2 x.

(** [f"{x:.0%}"]: the float is multiplied by 100 (a float product), shown
    with no decimals and followed by a percent sign. *)
Definition fmt_pct0 (x : float) : string := format_f 0 (x * 100)%float +:+ "%".

(** [needle in hay] on strings. *)
Definition str_in (needle hay : string) : bool :=
  match String.index 0 needle hay with
  | Some _ => true
  | None => false
  end.

(** [str(l)] for a list of strings none of which holds a quote, a backslash
    or an unprintable character: each element is shown in single quotes. *)
Definition str_of_list (l : list string) : string :=
  "[" +:+ String.concat ", " (map (fun s => "'" +:+ s +:+ "'") l) +:+ "]".

(** [s.lower()].  Strings are byte strings here, and the ASCII capitals
    are mapped to their small letters.  Python also maps capitals beyond
    ASCII; the only one whose image is an ASCII letter is the Kelvin sign
    (to [k]), so the two agree on whether the result is a given word
    without a [k]. *)
Definition lower_ascii (c : ascii) : ascii :=
  let n := nat_of_ascii c in
  if (65 <=? n)%nat && (n <=? 90)%nat then ascii_of_nat (n + 32) else c.

Fixpoint lower (s : string) : string :=
  match s with
  | EmptyString => EmptyString
  | String c s' => String (lower_ascii c) (lower s')
  end.

(** [float(n)] for an integer: the nearest binary64 value, ties to even. *)
Definition float_of_Z (n : Z) : float := SF2Prim (binary_normalize prec emax n 0 false).

(** [x > n] for a float [x] and an integer [n]: Python compares the two
    exact values; a NaN is greater than nothing. *)
Definition float_gt_Z (x : float) (n : Z) : bool :=
  match Prim2SF x with
  | S754_nan => false
  | S754_infinity s => negb s
  | S754_zero _ => n <? 0
  | S754_finite s m e =>
      let v := if s then Z.neg m else Z.pos m in
      if 0 <=? e then n <? v * 2 ^ e else n * 2 ^ (- e) <? v
  end.

Module AuthorityRules.

(** ** Data model *)

(** Risk categorization for mission phases. *)
Inductive PhaseRiskLevel : Type := SAFE | LOW | MEDIUM | HIGH | CRITICAL.

(** Available control modes. *)
Inductive ControlMode : Type := AUTONOMOUS | HUMAN | SHARED.

(** Types of actions the system can take. *)
Inductive ActionType : Type :=
| AUTO_SWITCH | ASK | SUGGEST | NOTIFY | BLOCK | NONE.

Module PhaseRiskLevel_.
Definition value (r : PhaseRiskLevel) : Z :=
  match r with
  | SAFE => 0 | LOW => 1 | MEDIUM => 2 | HIGH => 3 | CRITICAL => 4
  end.

Definition name (r : PhaseRiskLevel) : string :=
  match r with
  | SAFE => "SAFE" | LOW => "LOW" | MEDIUM => "MEDIUM"
  | HIGH => "HIGH" | CRITICAL => "CRITICAL"
  end.

(** The enumeration's constructor call [PhaseRiskLevel(v)]: look-up by
    value, [ValueError] when no member has it. *)
Definition of_value (v : Z) : result PhaseRiskLevel :=
  match v with
  | 0 => Ok SAFE | 1 => Ok LOW | 2 => Ok MEDIUM | 3 => Ok HIGH | 4 => Ok CRITICAL
  | _ => Raise (ValueError (str_of_Z v +:+ " is not a valid PhaseRiskLevel"))
  end.
End PhaseRiskLevel_.

Module ControlMode_.
Definition value (m : ControlMode) : Z :=
  match m with
  | AUTONOMOUS => 0 | HUMAN => 1 | SHARED => 2
  end.

Definition name (m : ControlMode) : string :=
  match m with
  | AUTONOMOUS => "AUTONOMOUS" | HUMAN => "HUMAN" | SHARED => "SHARED"
  end.
End ControlMode_.

Module ActionType_.
Definition value (a : ActionType) : string :=
  match a with
  | AUTO_SWITCH => "auto_switch" | ASK => "ask" | SUGGEST => "suggest"
  | NOTIFY => "notify" | BLOCK => "block" | NONE => "none"
  end.
End ActionType_.

#[global] Instance PhaseRiskLevel_eq_dec : EqDecision PhaseRiskLevel.
Proof. solve_decision. Defined.

#[global] Instance ControlMode_eq_dec : EqDecision ControlMode.
Proof. solve_decision. Defined.

#[global] Instance ActionType_eq_dec : EqDecision ActionType.
Proof. solve_decision. Defined.

#[global] Instance PhaseRiskLevel_countable : Countable PhaseRiskLevel.
Proof.
  refine (inj_countable' PhaseRiskLevel_.value
            (fun v => match PhaseRiskLevel_.of_value v with
                      | Ok r => r
                      | Raise _ => SAFE
                      end) _).
  intros []; reflexivity.
Defined.

(** System recommendation for control mode. *)
Record ModeRecommendation : Type := {
  recommended_mode : ControlMode;
  confidence : float;
  human_reliability : float;
  autonomous_reliability : float;
  docking_reliability : option float
}.

(** The values the [reasons] mapping of a decision holds. *)
Inductive PyVal : Type :=
| VBool (b : bool)
| VStr (s : string)
| VFloat (f : float)
| VList (l : list string).

(** A dictionary display [{k1: v1, k2: v2, ...}]: keys are inserted from
    left to right. *)
Definition py_dict (items : list (string * PyVal)) : gmap string PyVal :=
  fold_left (fun d kv => <[kv.1 := kv.2]> d) items ∅.

(** Decision output from the authority rule engine. *)
Record AuthorityDecision : Type := {
  action_type : ActionType;
  target_mode : ControlMode;
  message : string;
  explanation : string;
  urgency : string;
  allow_decline : bool;
  timeout_seconds : option Z;
  reasons : gmap string PyVal
}.

(** ** PhaseRiskClassifier *)

Module PhaseRiskClassifier.

Definition PHASE_RISK_MAP : gmap string PhaseRiskLevel :=
  <["Charging" := SAFE]> (
  <["Transit" := LOW]> (
  <["Inspection" := MEDIUM]> (
  <["Undocking" := HIGH]> (
  <["DockingApproach" := CRITICAL]> (
  <["Docking" := CRITICAL]> ∅))))).

Definition CRITICALITY_MODIFIER : gmap string Z :=
  <["Critical" := 2]> (<["Important" := 1]> (<["Routine" := 0]> ∅)).

(** Effective risk level considering both phase and task criticality. *)
Definition get_risk_level (phase task_criticality : string) : result PhaseRiskLevel :=
  let base_risk := default MEDIUM (PHASE_RISK_MAP !! phase) in
  let modifier := default 0 (CRITICALITY_MODIFIER !! task_criticality) in
  let effective_risk_value :=
    Z.min (PhaseRiskLevel_.value base_risk + modifier) (PhaseRiskLevel_.value CRITICAL) in
  PhaseRiskLevel_.of_value effective_risk_value.

(** Whether autonomous mode is allowed in this phase. *)
Definition is_autonomous_allowed (phase task_criticality : string) : result bool :=
  rbind (get_risk_level phase task_criticality) (fun risk_level =>
  Ok (negb (bool_decide (risk_level = CRITICAL)))).

End PhaseRiskClassifier.

(** ** AuthorityRuleEngine *)

(** The engine object: the attributes [__init__] assigns. *)
Record AuthorityRuleEngine : Type := {
  mode_change_history : list PyVal;
  last_mode_change_time : option float;
  minimum_mode_duration : float;
  CRITICAL_LOW_THRESHOLD : float;
  LOW_THRESHOLD : float;
  HIGH_THRESHOLD : float
}.

Definition __init__ : AuthorityRuleEngine := {|
  mode_change_history := [];
  last_mode_change_time := None;
  minimum_mode_duration := 120.0;
  CRITICAL_LOW_THRESHOLD := 0.5;
  LOW_THRESHOLD := 0.6;
  HIGH_THRESHOLD := 0.8
|}.

(** Methods of the engine run on the engine object. *)
Abbreviation M := (SE AuthorityRuleEngine).

(** Diagnose reasons for autonomous performance degradation. *)
Definition _diagnose_autonomous_degradation (bn_rec : ModeRecommendation)
  : M (list string) :=
  let factors : list string := [] in
  let factors :=
    if (autonomous_reliability bn_rec <? 0.6)%float
    then factors ++ ["Navigation accuracy reduced (possible USBL degradation)";
                     "Environmental conditions affecting stability"]
    else factors in
  let factors :=
    match docking_reliability bn_rec with
    | Some d =>
        if (d <? 0.7)%float
        then factors ++ ["Docking conditions suboptimal (reliability: "
                         +:+ fmt_pct0 d +:+ ")"]
        else factors
    | None => factors
    end in
  let factors :=
    match factors with
    | [] => factors ++ ["Minor performance degradation detected"]
    | _ => factors
    end in
  ret factors.

(** Convert reliability score to human-readable label. *)
Definition _reliability_label (reliability : float) : M string :=
  high <- gets HIGH_THRESHOLD ;;
  if (reliability >=? high)%float then ret "Excellent"
  else if (reliability >=? 0.7)%float then ret "Good"
  else
    low <- gets LOW_THRESHOLD ;;
    if (reliability >=? low)%float then ret "Fair"
    else
      critical_low <- gets CRITICAL_LOW_THRESHOLD ;;
      if (reliability >=? critical_low)%float then ret "Low"
      else ret "Critical".

(** Generate the detailed human-readable explanation for a mode
    recommendation. *)
Definition _generate_explanation (scenario mission_phase : string)
    (bn_rec : ModeRecommendation) (summary : string) : M string :=
  let explanation_parts := [summary +:+ "."] in
  let explanation_parts :=
    explanation_parts ++ [nl +:+ nl +:+ "üìä Performance Assessment:"] in
  human_label <- _reliability_label (human_reliability bn_rec) ;;
  let explanation_parts :=
    explanation_parts ++
      [nl +:+ "  ‚Ä¢ Your reliability: " +:+ fmt_pct0 (human_reliability bn_rec)
       +:+ " " +:+ "(" +:+ human_label +:+ ")"] in
  system_label <- _reliability_label (autonomous_reliability bn_rec) ;;
  let explanation_parts :=
    explanation_parts ++
      [nl +:+ "  ‚Ä¢ System reliability: " +:+ fmt_pct0 (autonomous_reliability bn_rec)
       +:+ " " +:+ "(" +:+ system_label +:+ ")"] in
  let explanation_parts :=
    match docking_reliability bn_rec with
    | Some d =>
        explanation_parts ++ [nl +:+ "  ‚Ä¢ Docking reliability: " +:+ fmt_pct0 d]
    | None => explanation_parts
    end in
  explanation_parts <-
    (if str_in "auto_to_human" scenario then
       factors <- _diagnose_autonomous_degradation bn_rec ;;
       match factors with
       | [] => ret explanation_parts
       | _ =>
           ret ((explanation_parts ++ [nl +:+ nl +:+ "üîç Autonomous System Status:"])
                ++ map (fun factor => nl +:+ "  ‚Ä¢ " +:+ factor) factors)
       end
     else
       low <- gets LOW_THRESHOLD ;;
       if str_in "human" scenario && (human_reliability bn_rec <? low)%float then
         let explanation_parts :=
           explanation_parts ++ [nl +:+ nl +:+ "‚ö†Ô∏è Your Current State:"] in
         critical_low <- gets CRITICAL_LOW_THRESHOLD ;;
         if (human_reliability bn_rec <? critical_low)%float then
           ret (explanation_parts ++
                  [nl +:+ "  ‚Ä¢ Fatigue level is critically high";
                   nl +:+ "  ‚Ä¢ Attention capacity is significantly reduced";
                   nl +:+ "  ‚Ä¢ Cognitive workload may be elevated"])
         else
           ret (explanation_parts ++
                  [nl +:+ "  ‚Ä¢ Fatigue is accumulating";
                   nl +:+ "  ‚Ä¢ Consider using automation to reduce workload"])
       else ret explanation_parts) ;;
  let explanation_parts :=
    explanation_parts ++
      [nl +:+ nl +:+ "üìç Mission Context: " +:+ mission_phase +:+ " phase"] in
  let confidence_desc :=
    if (confidence bn_rec >? 0.8)%float then "very confident"
    else if (confidence bn_rec >? 0.6)%float then "confident"
    else "moderately confident" in
  let explanation_parts :=
    explanation_parts ++
      [nl +:+ nl +:+ "System is " +:+ confidence_desc
       +:+ " in this recommendation (" +:+ fmt_pct0 (confidence bn_rec) +:+ ")."] in
  ret (String.concat "" explanation_parts).

(** Handle CRITICAL phase (Docking, DockingApproach). *)
Definition _handle_critical_phase (current_mode recommended_mode : ControlMode)
    (mission_phase : string) (bn_rec : ModeRecommendation) : M AuthorityDecision :=
  if bool_decide (current_mode = AUTONOMOUS) && bool_decide (recommended_mode = HUMAN) then
    explanation <- _generate_explanation "auto_to_human_critical" mission_phase bn_rec
                     "Autonomous system detected conditions requiring human judgment" ;;
    ret {| action_type := AUTO_SWITCH;
           target_mode := HUMAN;
           message := "üö® Critical Phase - Switching to Human Control";
           explanation := explanation;
           urgency := "critical";
           allow_decline := false;
           timeout_seconds := None;
           reasons := py_dict
             [("phase", VStr mission_phase);
              ("transition", VStr "auto_to_human");
              ("auto_reliability", VFloat (autonomous_reliability bn_rec));
              ("human_reliability", VFloat (human_reliability bn_rec))] |}
  else if bool_decide (current_mode = HUMAN) && bool_decide (recommended_mode = AUTONOMOUS) then
    ret {| action_type := BLOCK;
           target_mode := current_mode;
           message := "‚ùå Autonomous mode blocked during " +:+ mission_phase;
           explanation :=
             "Autonomous operation is not permitted during " +:+ mission_phase +:+ ". "
             +:+ "This critical phase requires human judgment and decision-making. "
             +:+ "Shared control is available if you need assistance with positioning or stabilization.";
           urgency := "high";
           allow_decline := false;
           timeout_seconds := None;
           reasons := py_dict
             [("blocked", VBool true);
              ("reason", VStr "critical_phase_safety");
              ("phase", VStr mission_phase)] |}
  else if bool_decide (recommended_mode = SHARED) then
    explanation <- _generate_explanation "suggest_shared_critical" mission_phase bn_rec
                     "Shared control can assist during this critical phase" ;;
    ret {| action_type := ASK;
           target_mode := SHARED;
           message := "ü§ù Shared control recommended for " +:+ mission_phase;
           explanation := explanation;
           urgency := "medium";
           allow_decline := true;
           timeout_seconds := Some 30;
           reasons := py_dict
             [("phase", VStr mission_phase);
              ("transition", VStr (ControlMode_.name current_mode +:+ "_to_shared"));
              ("benefits", VStr "System can assist with stabilization while you focus on critical decisions")] |}
  else
    ret {| action_type := NONE;
           target_mode := current_mode;
           message := "Maintaining " +:+ ControlMode_.name current_mode +:+ " mode";
           explanation := "Current mode is appropriate for " +:+ mission_phase +:+ ".";
           urgency := "low";
           allow_decline := false;
           timeout_seconds := None;
           reasons := py_dict [] |}.

(** Handle HIGH RISK phase (Undocking). *)
Definition _handle_high_risk_phase (current_mode recommended_mode : ControlMode)
    (mission_phase : string) (bn_rec : ModeRecommendation) : M AuthorityDecision :=
  if bool_decide (current_mode = AUTONOMOUS) && bool_decide (recommended_mode = HUMAN) then
    explanation <- _generate_explanation "auto_to_human_high" mission_phase bn_rec
                     "Autonomous reliability has decreased" ;;
    ret {| action_type := AUTO_SWITCH;
           target_mode := HUMAN;
           message := "‚ö†Ô∏è High Risk Phase - Switching to Human Control";
           explanation := explanation;
           urgency := "high";
           allow_decline := false;
           timeout_seconds := None;
           reasons := py_dict
             [("phase", VStr mission_phase);
              ("auto_reliability", VFloat (autonomous_reliability bn_rec));
              ("human_reliability", VFloat (human_reliability bn_rec))] |}
  else if bool_decide (current_mode = HUMAN) && bool_decide (recommended_mode = AUTONOMOUS) then
    low <- gets LOW_THRESHOLD ;;
    let '(urgency, message_prefix) :=
      if (human_reliability bn_rec <? low)%float
      then ("high", "‚ö†Ô∏è Your fatigue is high.")
      else ("medium", "") in
    explanation <- _generate_explanation "human_to_auto_high" mission_phase bn_rec
                     (message_prefix +:+ " Autonomous system can handle " +:+ mission_phase) ;;
    low' <- gets LOW_THRESHOLD ;;
    ret {| action_type := ASK;
           target_mode := AUTONOMOUS;
           message := message_prefix +:+ " Switch to Autonomous for " +:+ mission_phase +:+ "?";
           explanation := explanation;
           urgency := urgency;
           allow_decline := true;
           timeout_seconds := Some 45;
           reasons := py_dict
             [("phase", VStr mission_phase);
              ("human_reliability", VFloat (human_reliability bn_rec));
              ("auto_reliability", VFloat (autonomous_reliability bn_rec));
              ("fatigue_warning", VBool (human_reliability bn_rec <? low')%float)] |}
  else if bool_decide (recommended_mode = SHARED) then
    explanation <- _generate_explanation "suggest_shared" mission_phase bn_rec
                     "Shared control balances human oversight with system assistance" ;;
    ret {| action_type := SUGGEST;
           target_mode := SHARED;
           message := "ü§ù Shared control available for " +:+ mission_phase;
           explanation := explanation;
           urgency := "medium";
           allow_decline := true;
           timeout_seconds := Some 30;
           reasons := py_dict [("phase", VStr mission_phase)] |}
  else
    ret {| action_type := NONE;
           target_mode := current_mode;
           message := "Mode stable";
           explanation := "";
           urgency := "low";
           allow_decline := false;
           timeout_seconds := None;
           reasons := py_dict [] |}.

(** Handle MEDIUM RISK phase (Inspection). *)
Definition _handle_medium_risk_phase (current_mode recommended_mode : ControlMode)
    (mission_phase : string) (bn_rec : ModeRecommendation) : M AuthorityDecision :=
  if bool_decide (current_mode = AUTONOMOUS) && bool_decide (recommended_mode = HUMAN) then
    explanation <- _generate_explanation "auto_degraded_medium" mission_phase bn_rec
                     "Autonomous performance has decreased but can continue" ;;
    ret {| action_type := ASK;
           target_mode := HUMAN;
           message := "‚ÑπÔ∏è Autonomous performance degraded - Switch to manual?";
           explanation := explanation +:+ " Autonomous mode can continue if you prefer.";
           urgency := "medium";
           allow_decline := true;
           timeout_seconds := Some 60;
           reasons := py_dict
             [("phase", VStr mission_phase);
              ("auto_reliability", VFloat (autonomous_reliability bn_rec));
              ("can_continue_auto", VBool true)] |}
  else if bool_decide (current_mode = HUMAN) && bool_decide (recommended_mode = AUTONOMOUS) then
    explanation <- _generate_explanation "offer_auto_assist" mission_phase bn_rec
                     "Autopilot can handle routine inspection tasks" ;;
    ret {| action_type := SUGGEST;
           target_mode := AUTONOMOUS;
           message := "ü§ñ Autopilot available - Enable to conserve attention?";
           explanation := explanation +:+ " You can monitor without active control.";
           urgency := "low";
           allow_decline := true;
           timeout_seconds := None;
           reasons := py_dict
             [("phase", VStr mission_phase);
              ("benefit", VStr "reduce_operator_workload");
              ("auto_reliability", VFloat (autonomous_reliability bn_rec))] |}
  else if bool_decide (recommended_mode = SHARED) then
    explanation <- _generate_explanation "suggest_shared" mission_phase bn_rec
                     "Shared control optimizes human-system performance" ;;
    ret {| action_type := SUGGEST;
           target_mode := SHARED;
           message := "ü§ù Shared control recommended";
           explanation := explanation;
           urgency := "low";
           allow_decline := true;
           timeout_seconds := None;
           reasons := py_dict [("phase", VStr mission_phase)] |}
  else
    ret {| action_type := NONE;
           target_mode := current_mode;
           message := "";
           explanation := "";
           urgency := "low";
           allow_decline := false;
           timeout_seconds := None;
           reasons := py_dict [] |}.

(** Handle LOW RISK phase (Transit). *)
Definition _handle_low_risk_phase (current_mode recommended_mode : ControlMode)
    (mission_phase : string) (bn_rec : ModeRecommendation) : M AuthorityDecision :=
  if bool_decide (current_mode = AUTONOMOUS) && bool_decide (recommended_mode = HUMAN) then
    explanation <- _generate_explanation "auto_degraded_low" mission_phase bn_rec
                     "Autonomous performance decreased" ;;
    ret {| action_type := NOTIFY;
           target_mode := current_mode;
           message := "‚ÑπÔ∏è Autonomous performance note - Available to take control";
           explanation := explanation +:+ " No immediate action required during transit.";
           urgency := "low";
           allow_decline := false;
           timeout_seconds := None;
           reasons := py_dict
             [("phase", VStr mission_phase);
              ("auto_reliability", VFloat (autonomous_reliability bn_rec));
              ("info_only", VBool true)] |}
  else if bool_decide (current_mode = HUMAN) && bool_decide (recommended_mode = AUTONOMOUS) then
    explanation <- _generate_explanation "offer_auto_rest" mission_phase bn_rec
                     "Autopilot can handle transit to conserve your attention" ;;
    ret {| action_type := SUGGEST;
           target_mode := AUTONOMOUS;
           message := "ü§ñ Autopilot available for transit - Rest and monitor?";
           explanation := explanation
             +:+ " This allows you to conserve attention for more demanding phases ahead.";
           urgency := "low";
           allow_decline := true;
           timeout_seconds := None;
           reasons := py_dict
             [("phase", VStr mission_phase);
              ("benefit", VStr "operator_rest");
              ("human_reliability", VFloat (human_reliability bn_rec))] |}
  else
    ret {| action_type :=
             if negb (bool_decide (recommended_mode = current_mode)) then SUGGEST else NONE;
           target_mode := recommended_mode;
           message := "Consider " +:+ ControlMode_.name recommended_mode +:+ " mode?";
           explanation := ControlMode_.name recommended_mode
             +:+ " mode is available during low-risk " +:+ mission_phase +:+ ".";
           urgency := "low";
           allow_decline := true;
           timeout_seconds := None;
           reasons := py_dict [("phase", VStr mission_phase)] |}.

(** Handle SAFE phase (Charging). *)
Definition _handle_safe_phase (current_mode recommended_mode : ControlMode)
    (mission_phase : string) (bn_rec : ModeRecommendation) : M AuthorityDecision :=
  if bool_decide (recommended_mode = AUTONOMOUS)
     && negb (bool_decide (current_mode = AUTONOMOUS)) then
    ret {| action_type := AUTO_SWITCH;
           target_mode := AUTONOMOUS;
           message := "‚úì Switching to Autonomous mode during " +:+ mission_phase;
           explanation :=
             "ROV is safely docked and charging. Autonomous mode will monitor systems. "
             +:+ "You can take control at any time if needed.";
           urgency := "low";
           allow_decline := false;
           timeout_seconds := None;
           reasons := py_dict
             [("phase", VStr mission_phase);
              ("safe_phase_auto", VBool true)] |}
  else
    ret {| action_type := NONE;
           target_mode := current_mode;
           message := "System monitoring during charging";
           explanation := "";
           urgency := "low";
           allow_decline := false;
           timeout_seconds := None;
           reasons := py_dict [("phase", VStr mission_phase)] |}.

(** Apply phase-dependent authority rules. *)
Definition _apply_phase_rules (current_mode recommended_mode : ControlMode)
    (risk_level : PhaseRiskLevel) (mission_phase : string)
    (bn_rec : ModeRecommendation) : M AuthorityDecision :=
  if bool_decide (current_mode = recommended_mode) then
    ret {| action_type := NONE;
           target_mode := current_mode;
           message := "Mode stable: " +:+ ControlMode_.name current_mode;
           explanation := "Current mode is optimal for " +:+ mission_phase +:+ " phase.";
           urgency := "low";
           allow_decline := false;
           timeout_seconds := None;
           reasons := py_dict [("no_change_needed", VBool true)] |}
  else if bool_decide (risk_level = CRITICAL) then
    _handle_critical_phase current_mode recommended_mode mission_phase bn_rec
  else if bool_decide (risk_level = HIGH) then
    _handle_high_risk_phase current_mode recommended_mode mission_phase bn_rec
  else if bool_decide (risk_level = MEDIUM) then
    _handle_medium_risk_phase current_mode recommended_mode mission_phase bn_rec
  else if bool_decide (risk_level = LOW) then
    _handle_low_risk_phase current_mode recommended_mode mission_phase bn_rec
  else
    _handle_safe_phase current_mode recommended_mode mission_phase bn_rec.

(** Apply hard safety rules: a decision if a rule triggers, [None]
    otherwise. *)
Definition _apply_safety_rules (current_mode recommended_mode : ControlMode)
    (risk_level : PhaseRiskLevel) (mission_phase : string)
    (bn_rec : ModeRecommendation) : M (option AuthorityDecision) :=
  critical_low <- gets CRITICAL_LOW_THRESHOLD ;;
  if bool_decide (risk_level = CRITICAL)
     && bool_decide (current_mode = HUMAN)
     && (human_reliability bn_rec <? critical_low)%float then
    threshold <- gets CRITICAL_LOW_THRESHOLD ;;
    ret (Some
      {| action_type := NOTIFY;
         target_mode := current_mode;
         message := "üö® SAFETY ALERT: Critical fatigue during " +:+ mission_phase;
         explanation :=
           "Your reliability is critically low (" +:+ fmt_2f (human_reliability bn_rec)
           +:+ ") during " +:+ mission_phase +:+ " phase. "
           +:+ "Consider aborting operation and returning to safe zone. "
           +:+ "Autonomous mode is not allowed during this critical phase. "
           +:+ "Shared control can provide assistance.";
         urgency := "critical";
         allow_decline := false;
         timeout_seconds := None;
         reasons := py_dict
           [("safety_alert", VBool true);
            ("human_reliability", VFloat (human_reliability bn_rec));
            ("threshold", VFloat threshold);
            ("phase", VStr mission_phase);
            ("recommendation", VStr "abort_and_rest")] |})
  else
    low <- gets LOW_THRESHOLD ;;
    if bool_decide (current_mode = AUTONOMOUS)
       && bool_decide (recommended_mode = HUMAN)
       && (autonomous_reliability bn_rec <? low)%float then
      diagnosis <- _diagnose_autonomous_degradation bn_rec ;;
      threshold <- gets LOW_THRESHOLD ;;
      diagnosis' <- _diagnose_autonomous_degradation bn_rec ;;
      ret (Some
        {| action_type := AUTO_SWITCH;
           target_mode := HUMAN;
           message := "‚ö†Ô∏è Autonomous performance degraded - Switching to Human";
           explanation :=
             "Autonomous control reliability has dropped to "
             +:+ fmt_2f (autonomous_reliability bn_rec) +:+ ". "
             +:+ "Reasons: " +:+ str_of_list diagnosis +:+ ". "
             +:+ "Human control required for safety.";
           urgency := "high";
           allow_decline := false;
           timeout_seconds := None;
           reasons := py_dict
             [("auto_switch_to_human", VBool true);
              ("auto_reliability", VFloat (autonomous_reliability bn_rec));
              ("threshold", VFloat threshold);
              ("diagnosis", VList diagnosis')] |})
    else ret None.

(** Handle operator manual override requests.  The phase check calls
    [is_autonomous_allowed] with the phase only, so its second parameter
    takes its default, ["Routine"]. *)
Definition _handle_operator_override (requested_mode current_mode : ControlMode)
    (risk_level : PhaseRiskLevel) (mission_phase : string) : M AuthorityDecision :=
  let allow_override : M AuthorityDecision :=
    let urgency_map : gmap PhaseRiskLevel string :=
      <[CRITICAL := "critical"]> (
      <[HIGH := "high"]> (
      <[MEDIUM := "medium"]> (
      <[LOW := "low"]> (
      <[SAFE := "low"]> ∅)))) in
    let warning :=
      if PhaseRiskLevel_.value risk_level >=? PhaseRiskLevel_.value HIGH
      then " ‚ö†Ô∏è Warning: " +:+ mission_phase +:+ " is a high-risk phase."
      else "" in
    urgency <-
      match urgency_map !! risk_level with
      | Some u => ret u
      | None => raise (KeyError (PhaseRiskLevel_.name risk_level))
      end ;;
    ret {| action_type := AUTO_SWITCH;
           target_mode := requested_mode;
           message := "‚úì Operator override accepted: "
                      +:+ ControlMode_.name requested_mode +:+ warning;
           explanation :=
             "You have manually selected " +:+ ControlMode_.name requested_mode
             +:+ " mode. " +:+ "The system will respect your decision." +:+ warning;
           urgency := urgency;
           allow_decline := false;
           timeout_seconds := None;
           reasons := py_dict
             [("operator_override", VBool true);
              ("risk_level", VStr (PhaseRiskLevel_.name risk_level));
              ("phase", VStr mission_phase)] |} in
  if bool_decide (requested_mode = AUTONOMOUS) then
    allowed <- lift (PhaseRiskClassifier.is_autonomous_allowed mission_phase "Routine") ;;
    if negb allowed then
      ret {| action_type := BLOCK;
             target_mode := current_mode;
             message := "‚ùå Autonomous mode not allowed during " +:+ mission_phase;
             explanation :=
               "Safety rules prohibit autonomous operation during " +:+ mission_phase
               +:+ " phase. "
               +:+ "This is a critical phase requiring human judgment. "
               +:+ "Shared control is available if you need assistance.";
             urgency := "high";
             allow_decline := false;
             timeout_seconds := None;
             reasons := py_dict
               [("blocked", VBool true);
                ("reason", VStr "phase_safety_rule");
                ("phase", VStr mission_phase);
                ("risk_level", VStr (PhaseRiskLevel_.name risk_level));
                ("alternative", VStr "Shared control available")] |}
    else allow_override
  else allow_override.

(** Evaluate whether a mode change should occur and how. *)
Definition evaluate_mode_change (current_mode : ControlMode)
    (bn_recommendation : ModeRecommendation)
    (mission_phase task_criticality : string)
    (time_since_last_change : float)
    (operator_override : option ControlMode) : M AuthorityDecision :=
  let recommended_mode := recommended_mode bn_recommendation in
  risk_level <- lift (PhaseRiskClassifier.get_risk_level mission_phase task_criticality) ;;
  match operator_override with
  | Some requested_mode =>
      _handle_operator_override requested_mode current_mode risk_level mission_phase
  | None =>
      safety_decision <- _apply_safety_rules current_mode recommended_mode risk_level
                           mission_phase bn_recommendation ;;
      match safety_decision with
      | Some decision => ret decision
      | None =>
          let phase_rules :=
            _apply_phase_rules current_mode recommended_mode risk_level
              mission_phase bn_recommendation in
          minimum <- gets minimum_mode_duration ;;
          if (time_since_last_change <? minimum)%float then
            if negb (bool_decide (recommended_mode = current_mode)) then
              seconds <- lift (py_int time_since_last_change) ;;
              minimum' <- gets minimum_mode_duration ;;
              ret {| action_type := NONE;
                     target_mode := current_mode;
                     message := "Mode stable for " +:+ str_of_Z seconds +:+ "s";
                     explanation :=
                       "Minimum mode duration not reached to prevent rapid switching";
                     urgency := "low";
                     allow_decline := false;
                     timeout_seconds := None;
                     reasons := py_dict
                       [("hysteresis", VBool true);
                        ("time_remaining",
                         VFloat (minimum' - time_since_last_change)%float)] |}
            else phase_rules
          else phase_rules
      end
  end.

End AuthorityRules.

Module ModeArbitrator.

Import AuthorityRules.

(** ** ModeArbitratorNode

    The node is embedded with the attributes its callbacks read and write.
    Readings of the ROS clock are an argument [now] (nanoseconds) of the
    callbacks that take one; what the node publishes or logs is appended to
    [outbox].  Published payloads are kept as their fields rather than as
    JSON text, and the wall-clock time stamps of payloads and log entries
    are left out. *)

Record ModeChange : Type := {
  mc_old_mode : string;
  mc_new_mode : string;
  mc_phase : string;
  mc_reason : string;
  mc_human_reliability : float;
  mc_autonomous_reliability : float
}.

Record DecisionEntry : Type := {
  de_decision_type : string;
  de_action_type : string;
  de_current_mode : string;
  de_target_mode : string;
  de_phase : string;
  de_task_criticality : string;
  de_human_reliability : float;
  de_autonomous_reliability : float;
  de_bn_confidence : float;
  de_urgency : string;
  de_reasons : gmap string PyVal
}.

Inductive Event : Type :=
| LogInfo (text : string)
| PublishControlMode (data : string)
| PublishInfoMessage (message urgency : string)
| PublishModeChangeRequest (current_mode requested_mode message explanation urgency : string)
    (allow_decline : bool) (timeout : option Z)
    (phase human_reliability autonomous_reliability confidence : string)
| PublishModeSuggestion (current_mode suggested_mode message explanation urgency : string)
| SaveLogs (mode_changes : list ModeChange) (decisions : list DecisionEntry).

Record ModeArbitratorNode : Type := {
  rule_engine : AuthorityRuleEngine;
  current_mode : ControlMode;
  current_phase : string;
  current_task_criticality : string;
  last_mode_change_time : Z;
  latest_bn_recommendation : option ControlMode;
  human_reliability : float;
  autonomous_reliability : float;
  docking_reliability : option float;
  bn_confidence : float;
  pending_decision : option AuthorityDecision;
  decision_request_time : option Z;
  mode_change_log : list ModeChange;
  decision_log : list DecisionEntry;
  outbox : list Event
}.

(** The attributes [__init__] assigns, the clock reading [now] at
    construction, and the lines it logs. *)
Definition __init__ (now : Z) : ModeArbitratorNode := {|
  rule_engine := AuthorityRules.__init__;
  current_mode := HUMAN;
  current_phase := "Transit";
  current_task_criticality := "Routine";
  last_mode_change_time := now;
  latest_bn_recommendation := None;
  human_reliability := 0.85;
  autonomous_reliability := 0.80;
  docking_reliability := None;
  bn_confidence := 0.70;
  pending_decision := None;
  decision_request_time := None;
  mode_change_log := [];
  decision_log := [];
  outbox :=
    [LogInfo (String.concat "" (replicate 70 "="));
     LogInfo "MODE ARBITRATOR NODE INITIALIZED";
     LogInfo (String.concat "" (replicate 70 "="));
     LogInfo ("Initial mode: " +:+ ControlMode_.name HUMAN);
     LogInfo "Ready to receive BN recommendations and operator input";
     LogInfo (String.concat "" (replicate 70 "="))]
|}.

(** Methods of the node run on the node object. *)
Abbreviation NodeM := (SE ModeArbitratorNode).

Definition set_rule_engine (v : AuthorityRuleEngine) (self : ModeArbitratorNode) :=
  {| rule_engine := v; current_mode := current_mode self;
     current_phase := current_phase self;
     current_task_criticality := current_task_criticality self;
     last_mode_change_time := last_mode_change_time self;
     latest_bn_recommendation := latest_bn_recommendation self;
     human_reliability := human_reliability self;
     autonomous_reliability := autonomous_reliability self;
     docking_reliability := docking_reliability self;
     bn_confidence := bn_confidence self;
     pending_decision := pending_decision self;
     decision_request_time := decision_request_time self;
     mode_change_log := mode_change_log self;
     decision_log := decision_log self; outbox := outbox self |}.

Definition set_current_mode (v : ControlMode) (self : ModeArbitratorNode) :=
  {| rule_engine := rule_engine self; current_mode := v;
     current_phase := current_phase self;
     current_task_criticality := current_task_criticality self;
     last_mode_change_time := last_mode_change_time self;
     latest_bn_recommendation := latest_bn_recommendation self;
     human_reliability := human_reliability self;
     autonomous_reliability := autonomous_reliability self;
     docking_reliability := docking_reliability self;
     bn_confidence := bn_confidence self;
     pending_decision := pending_decision self;
     decision_request_time := decision_request_time self;
     mode_change_log := mode_change_log self;
     decision_log := decision_log self; outbox := outbox self |}.

Definition set_last_mode_change_time (v : Z) (self : ModeArbitratorNode) :=
  {| rule_engine := rule_engine self; current_mode := current_mode self;
     current_phase := current_phase self;
     current_task_criticality := current_task_criticality self;
     last_mode_change_time := v;
     latest_bn_recommendation := latest_bn_recommendation self;
     human_reliability := human_reliability self;
     autonomous_reliability := autonomous_reliability self;
     docking_reliability := docking_reliability self;
     bn_confidence := bn_confidence self;
     pending_decision := pending_decision self;
     decision_request_time := decision_request_time self;
     mode_change_log := mode_change_log self;
     decision_log := decision_log self; outbox := outbox self |}.

Definition set_latest_bn_recommendation (v : option ControlMode)
    (self : ModeArbitratorNode) :=
  {| rule_engine := rule_engine self; current_mode := current_mode self;
     current_phase := current_phase self;
     current_task_criticality := current_task_criticality self;
     last_mode_change_time := last_mode_change_time self;
     latest_bn_recommendation := v;
     human_reliability := human_reliability self;
     autonomous_reliability := autonomous_reliability self;
     docking_reliability := docking_reliability self;
     bn_confidence := bn_confidence self;
     pending_decision := pending_decision self;
     decision_request_time := decision_request_time self;
     mode_change_log := mode_change_log self;
     decision_log := decision_log self; outbox := outbox self |}.

Definition set_pending (d : option AuthorityDecision) (t : option Z)
    (self : ModeArbitratorNode) :=
  {| rule_engine := rule_engine self; current_mode := current_mode self;
     current_phase := current_phase self;
     current_task_criticality := current_task_criticality self;
     last_mode_change_time := last_mode_change_time self;
     latest_bn_recommendation := latest_bn_recommendation self;
     human_reliability := human_reliability self;
     autonomous_reliability := autonomous_reliability self;
     docking_reliability := docking_reliability self;
     bn_confidence := bn_confidence self;
     pending_decision := d;
     decision_request_time := t;
     mode_change_log := mode_change_log self;
     decision_log := decision_log self; outbox := outbox self |}.

Definition set_mode_change_log (v : list ModeChange) (self : ModeArbitratorNode) :=
  {| rule_engine := rule_engine self; current_mode := current_mode self;
     current_phase := current_phase self;
     current_task_criticality := current_task_criticality self;
     last_mode_change_time := last_mode_change_time self;
     latest_bn_recommendation := latest_bn_recommendation self;
     human_reliability := human_reliability self;
     autonomous_reliability := autonomous_reliability self;
     docking_reliability := docking_reliability self;
     bn_confidence := bn_confidence self;
     pending_decision := pending_decision self;
     decision_request_time := decision_request_time self;
     mode_change_log := v;
     decision_log := decision_log self; outbox := outbox self |}.

Definition set_decision_log (v : list DecisionEntry) (self : ModeArbitratorNode) :=
  {| rule_engine := rule_engine self; current_mode := current_mode self;
     current_phase := current_phase self;
     current_task_criticality := current_task_criticality self;
     last_mode_change_time := last_mode_change_time self;
     latest_bn_recommendation := latest_bn_recommendation self;
     human_reliability := human_reliability self;
     autonomous_reliability := autonomous_reliability self;
     docking_reliability := docking_reliability self;
     bn_confidence := bn_confidence self;
     pending_decision := pending_decision self;
     decision_request_time := decision_request_time self;
     mode_change_log := mode_change_log self;
     decision_log := v; outbox := outbox self |}.

Definition set_outbox (v : list Event) (self : ModeArbitratorNode) :=
  {| rule_engine := rule_engine self; current_mode := current_mode self;
     current_phase := current_phase self;
     current_task_criticality := current_task_criticality self;
     last_mode_change_time := last_mode_change_time self;
     latest_bn_recommendation := latest_bn_recommendation self;
     human_reliability := human_reliability self;
     autonomous_reliability := autonomous_reliability self;
     docking_reliability := docking_reliability self;
     bn_confidence := bn_confidence self;
     pending_decision := pending_decision self;
     decision_request_time := decision_request_time self;
     mode_change_log := mode_change_log self;
     decision_log := decision_log self; outbox := v |}.

(** One publication or log line. *)
Definition emit (e : Event) : NodeM unit :=
  modify (fun self => set_outbox (outbox self ++ [e]) self).

(** A method call on [self.rule_engine]. *)
Definition call_engine {A} (m : SE AuthorityRuleEngine A) : NodeM A :=
  fun self =>
    let '(engine, r) := m (rule_engine self) in
    (set_rule_engine engine self, r).

(** The token table of the two string callbacks. *)
Definition mode_map : gmap string ControlMode :=
  <["shared" := SHARED]> (<["human" := HUMAN]> (<["autonomous" := AUTONOMOUS]> ∅)).

(** The line of 70 equal signs the node logs around a mode change. *)
Definition banner : string := String.concat "" (replicate 70 "=").

(** Receive BN mode recommendation. *)
Definition bn_recommendation_callback (msg : string) : NodeM unit :=
  let mode_str := lower msg in
  modify (set_latest_bn_recommendation (Some (default SHARED (mode_map !! mode_str)))).

(** Send informational message to operator. *)
Definition _send_ui_message (message urgency : string) : NodeM unit :=
  emit (PublishInfoMessage message urgency).

(** Send suggestion to operator (less intrusive than request). *)
Definition _send_ui_request (decision : AuthorityDecision) : NodeM unit :=
  current <- gets current_mode ;;
  emit (PublishModeSuggestion (ControlMode_.name current)
          (ControlMode_.name (target_mode decision))
          (message decision) (explanation decision) (urgency decision)).

(** Request operator decision on mode change. *)
Definition _request_operator_decision (now : Z) (decision : AuthorityDecision) : NodeM unit :=
  _ <- modify (set_pending (Some decision) (Some now)) ;;
  current <- gets current_mode ;;
  phase <- gets current_phase ;;
  hr <- gets human_reliability ;;
  ar <- gets autonomous_reliability ;;
  conf <- gets bn_confidence ;;
  _ <- emit (PublishModeChangeRequest (ControlMode_.name current)
               (ControlMode_.name (target_mode decision))
               (message decision) (explanation decision) (urgency decision)
               (allow_decline decision) (timeout_seconds decision)
               phase (fmt_pct0 hr) (fmt_pct0 ar) (fmt_pct0 conf)) ;;
  emit (LogInfo ("Requested operator decision: " +:+ message decision)).

(** Save logs to file.  The write is taken to succeed; when it fails the
    source logs an error line in place of the info line and raises
    nothing. *)
Definition _save_logs : NodeM unit :=
  changes <- gets mode_change_log ;;
  decisions <- gets decision_log ;;
  _ <- emit (SaveLogs changes decisions) ;;
  emit (LogInfo ("Saved " +:+ str_of_Z (Z.of_nat (length decisions))
                 +:+ " decisions to log file")).

(** Log decision for analysis. *)
Definition _log_decision (decision_type : string) (decision : AuthorityDecision) : NodeM unit :=
  current <- gets current_mode ;;
  phase <- gets current_phase ;;
  criticality <- gets current_task_criticality ;;
  hr <- gets human_reliability ;;
  ar <- gets autonomous_reliability ;;
  conf <- gets bn_confidence ;;
  let log_entry :=
    {| de_decision_type := decision_type;
       de_action_type := ActionType_.value (action_type decision);
       de_current_mode := ControlMode_.name current;
       de_target_mode := ControlMode_.name (target_mode decision);
       de_phase := phase;
       de_task_criticality := criticality;
       de_human_reliability := hr;
       de_autonomous_reliability := ar;
       de_bn_confidence := conf;
       de_urgency := urgency decision;
       de_reasons := reasons decision |} in
  _ <- modify (fun self => set_decision_log (decision_log self ++ [log_entry]) self) ;;
  entries <- gets decision_log ;;
  if (Z.of_nat (length entries) mod 50 =? 0)%Z then _save_logs else ret tt.

(** Execute actual mode change. *)
Definition _execute_mode_change (now : Z) (new_mode : ControlMode) (reason : string)
  : NodeM unit :=
  old_mode <- gets current_mode ;;
  _ <- modify (set_current_mode new_mode) ;;
  _ <- modify (set_last_mode_change_time now) ;;
  _ <- emit (PublishControlMode (ControlMode_.name new_mode)) ;;
  phase <- gets current_phase ;;
  _ <- emit (LogInfo banner) ;;
  _ <- emit (LogInfo ("MODE CHANGE: " +:+ ControlMode_.name old_mode +:+ " → "
                      +:+ ControlMode_.name new_mode)) ;;
  _ <- emit (LogInfo ("Reason: " +:+ reason)) ;;
  _ <- emit (LogInfo ("Phase: " +:+ phase)) ;;
  _ <- emit (LogInfo banner) ;;
  hr <- gets human_reliability ;;
  ar <- gets autonomous_reliability ;;
  modify (fun self =>
    set_mode_change_log
      (mode_change_log self ++
         [{| mc_old_mode := ControlMode_.name old_mode;
             mc_new_mode := ControlMode_.name new_mode;
             mc_phase := phase;
             mc_reason := reason;
             mc_human_reliability := hr;
             mc_autonomous_reliability := ar |}]) self).

(** Execute authority decision. *)
Definition _execute_decision (now : Z) (decision : AuthorityDecision) : NodeM unit :=
  match action_type decision with
  | NONE => ret tt
  | AUTO_SWITCH =>
      _ <- _execute_mode_change now (target_mode decision) (message decision) ;;
      _ <- _send_ui_message (explanation decision) (urgency decision) ;;
      _log_decision "auto_switch" decision
  | ASK =>
      _ <- _request_operator_decision now decision ;;
      _log_decision "asked_operator" decision
  | SUGGEST =>
      _ <- _send_ui_request decision ;;
      _log_decision "suggested" decision
  | NOTIFY =>
      _ <- _send_ui_message (explanation decision) (urgency decision) ;;
      _log_decision "notified" decision
  | BLOCK =>
      _ <- _send_ui_message (explanation decision) "high" ;;
      _log_decision "blocked" decision
  end.

(** Process operator manual override request. *)
Definition _process_operator_override (now : Z) (requested_mode : ControlMode) : NodeM unit :=
  latest <- gets latest_bn_recommendation ;;
  conf <- gets bn_confidence ;;
  hr <- gets human_reliability ;;
  ar <- gets autonomous_reliability ;;
  dr <- gets docking_reliability ;;
  let bn_rec :=
    {| recommended_mode := default requested_mode latest;
       confidence := conf;
       AuthorityRules.human_reliability := hr;
       AuthorityRules.autonomous_reliability := ar;
       AuthorityRules.docking_reliability := dr |} in
  phase <- gets current_phase ;;
  criticality <- gets current_task_criticality ;;
  risk_level <- lift (PhaseRiskClassifier.get_risk_level phase criticality) ;;
  current <- gets current_mode ;;
  phase' <- gets current_phase ;;
  decision <- call_engine
                (_handle_operator_override requested_mode current risk_level phase') ;;
  _execute_decision now decision.

(** Handle operator manual override request. *)
Definition operator_override_callback (now : Z) (msg : string) : NodeM unit :=
  let requested_mode_str := lower msg in
  let requested_mode := mode_map !! requested_mode_str in
  match requested_mode with
  | Some requested_mode =>
      _ <- emit (LogInfo ("Operator override request: " +:+ ControlMode_.name requested_mode)) ;;
      _process_operator_override now requested_mode
  | None => ret tt
  end.

(** Main arbitration logic loop. *)
Definition arbitration_loop (now : Z) : NodeM unit :=
  latest <- gets latest_bn_recommendation ;;
  match latest with
  | None => ret tt
  | Some recommended =>
      conf <- gets bn_confidence ;;
      hr <- gets human_reliability ;;
      ar <- gets autonomous_reliability ;;
      dr <- gets docking_reliability ;;
      let bn_rec :=
        {| recommended_mode := recommended;
           confidence := conf;
           AuthorityRules.human_reliability := hr;
           AuthorityRules.autonomous_reliability := ar;
           AuthorityRules.docking_reliability := dr |} in
      last <- gets last_mode_change_time ;;
      let time_since_change := (float_of_Z (now - last) / 1e9)%float in
      current <- gets current_mode ;;
      phase <- gets current_phase ;;
      criticality <- gets current_task_criticality ;;
      decision <- call_engine
                    (evaluate_mode_change current bn_rec phase criticality
                       time_since_change None) ;;
      _execute_decision now decision
  end.

Definition set_human_reliability (v : float) (self : ModeArbitratorNode) :=
  {| rule_engine := rule_engine self;
     current_mode := current_mode self;
     current_phase := current_phase self;
     current_task_criticality := current_task_criticality self;
     last_mode_change_time := last_mode_change_time self;
     latest_bn_recommendation := latest_bn_recommendation self;
     human_reliability := v;
     autonomous_reliability := autonomous_reliability self;
     docking_reliability := docking_reliability self;
     bn_confidence := bn_confidence self;
     pending_decision := pending_decision self;
     decision_request_time := decision_request_time self;
     mode_change_log := mode_change_log self;
     decision_log := decision_log self;
     outbox := outbox self |}.

Definition set_autonomous_reliability (v : float) (self : ModeArbitratorNode) :=
  {| rule_engine := rule_engine self;
     current_mode := current_mode self;
     current_phase := current_phase self;
     current_task_criticality := current_task_criticality self;
     last_mode_change_time := last_mode_change_time self;
     latest_bn_recommendation := latest_bn_recommendation self;
     human_reliability := human_reliability self;
     autonomous_reliability := v;
     docking_reliability := docking_reliability self;
     bn_confidence := bn_confidence self;
     pending_decision := pending_decision self;
     decision_request_time := decision_request_time self;
     mode_change_log := mode_change_log self;
     decision_log := decision_log self;
     outbox := outbox self |}.

Definition set_docking_reliability (v : option float) (self : ModeArbitratorNode) :=
  {| rule_engine := rule_engine self;
     current_mode := current_mode self;
     current_phase := current_phase self;
     current_task_criticality := current_task_criticality self;
     last_mode_change_time := last_mode_change_time self;
     latest_bn_recommendation := latest_bn_recommendation self;
     human_reliability := human_reliability self;
     autonomous_reliability := autonomous_reliability self;
     docking_reliability := v;
     bn_confidence := bn_confidence self;
     pending_decision := pending_decision self;
     decision_request_time := decision_request_time self;
     mode_change_log := mode_change_log self;
     decision_log := decision_log self;
     outbox := outbox self |}.

Definition set_bn_confidence (v : float) (self : ModeArbitratorNode) :=
  {| rule_engine := rule_engine self;
     current_mode := current_mode self;
     current_phase := current_phase self;
     current_task_criticality := current_task_criticality self;
     last_mode_change_time := last_mode_change_time self;
     latest_bn_recommendation := latest_bn_recommendation self;
     human_reliability := human_reliability self;
     autonomous_reliability := autonomous_reliability self;
     docking_reliability := docking_reliability self;
     bn_confidence := v;
     pending_decision := pending_decision self;
     decision_request_time := decision_request_time self;
     mode_change_log := mode_change_log self;
     decision_log := decision_log self;
     outbox := outbox self |}.

Definition set_current_phase (v : string) (self : ModeArbitratorNode) :=
  {| rule_engine := rule_engine self;
     current_mode := current_mode self;
     current_phase := v;
     current_task_criticality := current_task_criticality self;
     last_mode_change_time := last_mode_change_time self;
     latest_bn_recommendation := latest_bn_recommendation self;
     human_reliability := human_reliability self;
     autonomous_reliability := autonomous_reliability self;
     docking_reliability := docking_reliability self;
     bn_confidence := bn_confidence self;
     pending_decision := pending_decision self;
     decision_request_time := decision_request_time self;
     mode_change_log := mode_change_log self;
     decision_log := decision_log self;
     outbox := outbox self |}.

Definition set_current_task_criticality (v : string) (self : ModeArbitratorNode) :=
  {| rule_engine := rule_engine self;
     current_mode := current_mode self;
     current_phase := current_phase self;
     current_task_criticality := v;
     last_mode_change_time := last_mode_change_time self;
     latest_bn_recommendation := latest_bn_recommendation self;
     human_reliability := human_reliability self;
     autonomous_reliability := autonomous_reliability self;
     docking_reliability := docking_reliability self;
     bn_confidence := bn_confidence self;
     pending_decision := pending_decision self;
     decision_request_time := decision_request_time self;
     mode_change_log := mode_change_log self;
     decision_log := decision_log self;
     outbox := outbox self |}.

(** Receive human operator reliability. *)
Definition human_reliability_callback (data : float) : NodeM unit :=
  modify (set_human_reliability data).

(** Receive autonomous system reliability. *)
Definition autonomous_reliability_callback (data : float) : NodeM unit :=
  modify (set_autonomous_reliability data).

(** Receive docking reliability. *)
Definition docking_reliability_callback (data : float) : NodeM unit :=
  modify (set_docking_reliability (Some data)).

(** Receive BN confidence in recommendation. *)
Definition bn_confidence_callback (data : float) : NodeM unit :=
  modify (set_bn_confidence data).

(** Receive mission phase updates. *)
Definition mission_phase_callback (data : string) : NodeM unit :=
  _ <- modify (set_current_phase data) ;;
  phase <- gets current_phase ;;
  emit (LogInfo ("Mission phase changed to: " +:+ phase)).

(** Receive task criticality updates. *)
Definition task_criticality_callback (data : string) : NodeM unit :=
  modify (set_current_task_criticality data).

(** Handle operator response to pending decision request. *)
Definition operator_decision_response_callback (now : Z) (accepted : bool) : NodeM unit :=
  pending <- gets pending_decision ;;
  match pending with
  | None => ret tt
  | Some decision =>
      _ <- emit (LogInfo ("Operator " +:+ (if accepted then "ACCEPTED" else "DECLINED")
                          +:+ " mode change to "
                          +:+ ControlMode_.name (target_mode decision))) ;;
      _ <- (if accepted then
              _execute_mode_change now (target_mode decision)
                ("Operator accepted: " +:+ message decision)
            else
              current <- gets current_mode ;;
              _ <- _send_ui_message
                     ("Mode change declined. Maintaining " +:+ ControlMode_.name current
                      +:+ " mode.") "info" ;;
              _log_decision "operator_declined" decision) ;;
      modify (set_pending None None)
  end.

(** Check if pending decisions have timed out.  The warning line the
    logger gets is not recorded: [outbox] holds info lines only. *)
Definition check_pending_decisions (now : Z) : NodeM unit :=
  pending <- gets pending_decision ;;
  match pending with
  | None => ret tt
  | Some decision =>
      request_time <- gets decision_request_time ;;
      match request_time with
      | None => ret tt
      | Some requested =>
          match timeout_seconds decision with
          | None => ret tt
          | Some timeout =>
              let elapsed := (float_of_Z (now - requested) / 1e9)%float in
              if float_gt_Z elapsed timeout then
                current <- gets current_mode ;;
                _ <- _send_ui_message
                       ("Decision timeout. Maintaining " +:+ ControlMode_.name current
                        +:+ " mode.") "medium" ;;
                _ <- _log_decision "timeout" decision ;;
                modify (set_pending None None)
              else ret tt
          end
      end
  end.

End ModeArbitrator.

(** * Vocabulary of the properties *)

(** [m], run on the object [s], returns a value satisfying [P] and leaves
    the object as it was: it raises nothing. *)
Definition returns {St A} (s : St) (m : SE St A) (P : A -> Prop) : Prop :=
  exists a, m s = (s, Ok a) /\ P a.

(** [m], run on [s], leaves the object as it was, and whatever value it
    returns satisfies [P]; it may raise. *)
Definition ensures {St A} (s : St) (m : SE St A) (P : A -> Prop) : Prop :=
  exists r, m s = (s, r) /\ forall a, r = Ok a -> P a.

(** A float that is neither NaN nor an infinity. *)
Definition is_finite (x : float) : bool :=
  match Prim2SF x with
  | S754_zero _ | S754_finite _ _ _ => true
  | _ => false
  end.

(** [lo <= x <= hi] on floats; no NaN satisfies it. *)
Definition in_range (lo hi x : float) : Prop :=
  (lo <=? x)%float = true /\ (x <=? hi)%float = true.

(** The risk tables in the words of the specification. *)
Module Spec.
Import AuthorityRules.

Definition base (phase : string) : PhaseRiskLevel :=
  if decide (phase = "Docking") then CRITICAL
  else if decide (phase = "DockingApproach") then CRITICAL
  else if decide (phase = "Undocking") then HIGH
  else if decide (phase = "Inspection") then MEDIUM
  else if decide (phase = "Transit") then LOW
  else if decide (phase = "Charging") then SAFE
  else MEDIUM.

Definition modifier (criticality : string) : Z :=
  if decide (criticality = "Routine") then 0
  else if decide (criticality = "Important") then 1
  else if decide (criticality = "Critical") then 2
  else 0.
End Spec.

Section EngineVocabulary.
Import AuthorityRules.

(** Two engines with the same configuration: the three reliability
    thresholds and the minimum mode duration.  Their other attributes
    may differ. *)
Definition same_config (s1 s2 : AuthorityRuleEngine) : Prop :=
  CRITICAL_LOW_THRESHOLD s1 = CRITICAL_LOW_THRESHOLD s2
  /\ LOW_THRESHOLD s1 = LOW_THRESHOLD s2
  /\ HIGH_THRESHOLD s1 = HIGH_THRESHOLD s2
  /\ minimum_mode_duration s1 = minimum_mode_duration s2.

(** A method whose outcome is fixed by the configuration and which
    leaves the engine as it found it. *)
Definition config_pure {A} (m : SE AuthorityRuleEngine A) : Prop :=
  forall s1 s2, same_config s1 s2 ->
    exists r, m s1 = (s1, r) /\ m s2 = (s2, r).

(** The actions after which the caller makes no transition. *)
Definition no_transition (a : ActionType) : Prop :=
  a = NONE \/ a = NOTIFY \/ a = BLOCK.

(** Neither hard safety rule fires on these inputs. *)
Definition no_safety_rule_fires (self : AuthorityRuleEngine)
    (current_mode : ControlMode) (bn_rec : ModeRecommendation)
    (phase criticality : string) : Prop :=
  exists risk_level,
    PhaseRiskClassifier.get_risk_level phase criticality = Ok risk_level
    /\ run (_apply_safety_rules current_mode (recommended_mode bn_rec)
              risk_level phase bn_rec) self = Ok None.
End EngineVocabulary.



Section Samples.
Import AuthorityRules.

(** A decision that names another mode only when it asks for a
    transition. *)
Definition keeps_mode (c : ControlMode) (d : AuthorityDecision) : Prop :=
  no_transition (action_type d) -> target_mode d = c.

(** The recommendation of the transit scenario: HUMAN recommended with
    human reliability 0.9. *)
Definition transit_rec (conf ar : float) (dr : option float) : ModeRecommendation :=
  {| recommended_mode := HUMAN; confidence := conf; human_reliability := 0.9;
     autonomous_reliability := ar; docking_reliability := dr |}.

(** The recommendation of the docking scenario: AUTONOMOUS recommended. *)
Definition docking_rec (conf hr ar : float) (dr : option float) : ModeRecommendation :=
  {| recommended_mode := AUTONOMOUS; confidence := conf; human_reliability := hr;
     autonomous_reliability := ar; docking_reliability := dr |}.

(** An engine whose history attributes have been assigned; its
    configuration is that of [__init__]. *)
Definition used_engine : AuthorityRuleEngine :=
  {| mode_change_history := [VStr "HUMAN"; VStr "SHARED"];
     last_mode_change_time := Some 17.5%float;
     minimum_mode_duration := 120.0;
     CRITICAL_LOW_THRESHOLD := 0.5;
     LOW_THRESHOLD := 0.6;
     HIGH_THRESHOLD := 0.8 |}.
End Samples.

Section DecisionTable.
Import AuthorityRules.

(** The fields of a decision that its consumer acts on. *)
Definition core (d : AuthorityDecision)
  : ActionType * ControlMode * string * bool * option Z :=
  (action_type d, target_mode d, urgency d, allow_decline d, timeout_seconds d).

(** The actions that ask for a transition. *)
Definition requests_transition (a : ActionType) : Prop :=
  a = AUTO_SWITCH \/ a = ASK \/ a = SUGGEST.

(** The urgency an accepted override gets from the risk level. *)
Definition urgency_of_risk (risk : PhaseRiskLevel) : string :=
  match risk with
  | SAFE | LOW => "low"
  | MEDIUM => "medium"
  | HIGH => "high"
  | CRITICAL => "critical"
  end.

(** The phase-dependent rules, as a table of decision cores; [fatigued] is
    the comparison of the human reliability with the low threshold. *)
Definition phase_core (c r : ControlMode) (risk : PhaseRiskLevel) (fatigued : bool)
  : ActionType * ControlMode * string * bool * option Z :=
  if bool_decide (c = r) then (NONE, c, "low", false, None)
  else
    match risk, c, r with
    | CRITICAL, AUTONOMOUS, HUMAN => (AUTO_SWITCH, HUMAN, "critical", false, None)
    | CRITICAL, HUMAN, AUTONOMOUS => (BLOCK, c, "high", false, None)
    | CRITICAL, _, SHARED => (ASK, SHARED, "medium", true, Some 30)
    | CRITICAL, _, _ => (NONE, c, "low", false, None)
    | HIGH, AUTONOMOUS, HUMAN => (AUTO_SWITCH, HUMAN, "high", false, None)
    | HIGH, HUMAN, AUTONOMOUS =>
        (ASK, AUTONOMOUS, if fatigued then "high" else "medium", true, Some 45)
    | HIGH, _, SHARED => (SUGGEST, SHARED, "medium", true, Some 30)
    | HIGH, _, _ => (NONE, c, "low", false, None)
    | MEDIUM, AUTONOMOUS, HUMAN => (ASK, HUMAN, "medium", true, Some 60)
    | MEDIUM, HUMAN, AUTONOMOUS => (SUGGEST, AUTONOMOUS, "low", true, None)
    | MEDIUM, _, SHARED => (SUGGEST, SHARED, "low", true, None)
    | MEDIUM, _, _ => (NONE, c, "low", false, None)
    | LOW, AUTONOMOUS, HUMAN => (NOTIFY, c, "low", false, None)
    | LOW, HUMAN, AUTONOMOUS => (SUGGEST, AUTONOMOUS, "low", true, None)
    | LOW, _, _ => (SUGGEST, r, "low", true, None)
    | SAFE, _, AUTONOMOUS => (AUTO_SWITCH, AUTONOMOUS, "low", false, None)
    | SAFE, _, _ => (NONE, c, "low", false, None)
    end.

End DecisionTable.

Section NodeSamples.
Import AuthorityRules ModeArbitrator.

(** A recommendation of SHARED. *)
Definition shared_rec : ModeRecommendation :=
  {| recommended_mode := SHARED; confidence := 0.7;
     AuthorityRules.human_reliability := 0.9;
     AuthorityRules.autonomous_reliability := 0.9;
     AuthorityRules.docking_reliability := None |}.

(** A decision that asks the operator, as the HIGH-risk handler builds
    them. *)
Definition sample_ask : AuthorityDecision :=
  {| action_type := ASK; target_mode := AUTONOMOUS;
     message := " Switch to Autonomous for Undocking?";
     explanation := ""; urgency := "medium"; allow_decline := true;
     timeout_seconds := Some 45; reasons := py_dict [("phase", VStr "Undocking")] |}.

(** The node five nanoseconds after construction, with [sample_ask]
    pending. *)
Definition asked_node : ModeArbitratorNode :=
  exec (_request_operator_decision 5 sample_ask) (ModeArbitrator.__init__ 0).

(** The entry [_execute_mode_change] appends to the mode change log. *)
Definition mode_change_entry (self : ModeArbitratorNode) (new_mode : ControlMode)
    (reason : string) : ModeChange :=
  {| mc_old_mode := ControlMode_.name (current_mode self);
     mc_new_mode := ControlMode_.name new_mode;
     mc_phase := current_phase self;
     mc_reason := reason;
     mc_human_reliability := human_reliability self;
     mc_autonomous_reliability := autonomous_reliability self |}.

(** The seconds the arbitration loop passes to the engine at clock reading
    [now]. *)
Definition seconds_since_change (now : Z) (self : ModeArbitratorNode) : float :=
  (float_of_Z (now - last_mode_change_time self) / 1e9)%float.

(** The recommendation the arbitration loop passes to the engine. *)
Definition loop_recommendation (mode : ControlMode) (self : ModeArbitratorNode)
  : ModeRecommendation :=
  {| recommended_mode := mode;
     confidence := bn_confidence self;
     AuthorityRules.human_reliability := human_reliability self;
     AuthorityRules.autonomous_reliability := autonomous_reliability self;
     AuthorityRules.docking_reliability := docking_reliability self |}.

(** The entry [_log_decision] appends to the decision log: it reads the
    node as it is when the entry is written. *)
Definition decision_entry (decision_type : string) (d : AuthorityDecision)
    (self : ModeArbitratorNode) : DecisionEntry :=
  {| de_decision_type := decision_type;
     de_action_type := ActionType_.value (action_type d);
     de_current_mode := ControlMode_.name (current_mode self);
     de_target_mode := ControlMode_.name (target_mode d);
     de_phase := current_phase self;
     de_task_criticality := current_task_criticality self;
     de_human_reliability := human_reliability self;
     de_autonomous_reliability := autonomous_reliability self;
     de_bn_confidence := bn_confidence self;
     de_urgency := urgency d;
     de_reasons := reasons d |}.

(** The tag [_execute_decision] logs each action under. *)
Definition decision_type_of (a : ActionType) : string :=
  match a with
  | AUTO_SWITCH => "auto_switch"
  | ASK => "asked_operator"
  | SUGGEST => "suggested"
  | NOTIFY => "notified"
  | BLOCK => "blocked"
  | NONE => ""
  end.

(** [after] is the node [self] once the decision [d] has been executed at
    clock reading [now]: the mode, its time stamp and the mode change log
    move on AUTO_SWITCH only, the pending request on ASK only, the decision
    log on every action but NONE, and nothing that the engine reads moves.
    The outbox is left out. *)
Definition executed (now : Z) (d : AuthorityDecision)
    (self after : ModeArbitratorNode) : Prop :=
  current_mode after
  = (if bool_decide (action_type d = AUTO_SWITCH)
     then target_mode d else current_mode self)
  /\ last_mode_change_time after
     = (if bool_decide (action_type d = AUTO_SWITCH)
        then now else last_mode_change_time self)
  /\ mode_change_log after
     = (if bool_decide (action_type d = AUTO_SWITCH)
        then mode_change_log self
             ++ [mode_change_entry self (target_mode d) (message d)]
        else mode_change_log self)
  /\ pending_decision after
     = (if bool_decide (action_type d = ASK) then Some d else pending_decision self)
  /\ decision_request_time after
     = (if bool_decide (action_type d = ASK)
        then Some now else decision_request_time self)
  /\ decision_log after
     = (if bool_decide (action_type d = NONE) then decision_log self
        else decision_log self
             ++ [decision_entry (decision_type_of (action_type d)) d after])
  /\ rule_engine after = rule_engine self
  /\ current_phase after = current_phase self
  /\ current_task_criticality after = current_task_criticality self
  /\ latest_bn_recommendation after = latest_bn_recommendation self
  /\ human_reliability after = human_reliability self
  /\ autonomous_reliability after = autonomous_reliability self
  /\ docking_reliability after = docking_reliability self
  /\ bn_confidence after = bn_confidence self.

(** [after] holds the engine and every input of the engine as [self]
    does. *)
Definition same_inputs (self after : ModeArbitratorNode) : Prop :=
  rule_engine after = rule_engine self
  /\ current_phase after = current_phase self
  /\ current_task_criticality after = current_task_criticality self
  /\ latest_bn_recommendation after = latest_bn_recommendation self
  /\ human_reliability after = human_reliability self
  /\ autonomous_reliability after = autonomous_reliability self
  /\ docking_reliability after = docking_reliability self
  /\ bn_confidence after = bn_confidence self.

(** [after] holds the mode, the pending request and both logs as [self]
    does. *)
Definition same_authority (self after : ModeArbitratorNode) : Prop :=
  current_mode after = current_mode self
  /\ last_mode_change_time after = last_mode_change_time self
  /\ pending_decision after = pending_decision self
  /\ decision_request_time after = decision_request_time self
  /\ mode_change_log after = mode_change_log self
  /\ decision_log after = decision_log self.

(** The pending request of [self] has a timeout, and more seconds than
    that have passed at clock reading [now]. *)
Definition timed_out (now : Z) (self : ModeArbitratorNode) : bool :=
  match pending_decision self, decision_request_time self with
  | Some d, Some requested =>
      match timeout_seconds d with
      | Some timeout => float_gt_Z (float_of_Z (now - requested) / 1e9) timeout
      | None => false
      end
  | _, _ => false
  end.

(** One round of sensor deliveries: each callback once. *)
Definition sensor_updates (phase criticality : string) (hr ar dr conf : float)
    (token : string) : NodeM unit :=
  _ <- mission_phase_callback phase ;;
  _ <- task_criticality_callback criticality ;;
  _ <- human_reliability_callback hr ;;
  _ <- autonomous_reliability_callback ar ;;
  _ <- docking_reliability_callback dr ;;
  _ <- bn_confidence_callback conf ;;
  bn_recommendation_callback token.
End NodeSamples.

(** * Reasoning rules for the monad *)

Section Hoare.
Context {St : Type}.
Implicit Types s : St.

Lemma returns_ret {A} s (a : A) (P : A -> Prop) : P a -> returns s (ret a) P.
Proof. intros H. exists a. split; [reflexivity | exact H]. Qed.

Lemma returns_bind {A B} s (m : SE St A) (k : A -> SE St B)
    (Q : A -> Prop) (P : B -> Prop) :
  returns s m Q -> (forall a, Q a -> returns s (k a) P) ->
  returns s (x <- m ;; k x) P.
Proof.
  intros (a & Hm & Ha) Hk. destruct (Hk a Ha) as (b & Hb & HP).
  exists b. split; [| exact HP]. unfold bind. rewrite Hm. exact Hb.
Qed.

Lemma returns_bind_gets {A B} s (f : St -> A) (k : A -> SE St B) (P : B -> Prop) :
  returns s (k (f s)) P -> returns s (x <- gets f ;; k x) P.
Proof. intros (b & Hb & HP). exists b. split; [exact Hb | exact HP]. Qed.

Lemma returns_bind_ret {A B} s (a : A) (k : A -> SE St B) (P : B -> Prop) :
  returns s (k a) P -> returns s (x <- ret a ;; k x) P.
Proof. intros (b & Hb & HP). exists b. split; [exact Hb | exact HP]. Qed.

Lemma returns_bind_lift {A B} s (r : result A) (a : A) (k : A -> SE St B)
    (P : B -> Prop) :
  r = Ok a -> returns s (k a) P -> returns s (x <- lift r ;; k x) P.
Proof. intros -> (b & Hb & HP). exists b. split; [exact Hb | exact HP]. Qed.

Lemma returns_mono {A} s (m : SE St A) (P Q : A -> Prop) :
  returns s m P -> (forall a, P a -> Q a) -> returns s m Q.
Proof. intros (a & Hm & Ha) H. exists a. auto. Qed.

Lemma returns_value {A} s (m : SE St A) (a : A) :
  returns s m (fun _ => True) -> run m s = Ok a -> returns s m (fun x => x = a).
Proof.
  intros (x & Hm & _). unfold run. rewrite Hm. intros [= ->].
  exists a. split; [exact Hm | reflexivity].
Qed.

Lemma returns_ensures {A} s (m : SE St A) (P : A -> Prop) :
  returns s m P -> ensures s m P.
Proof.
  intros (a & Hm & Ha). exists (Ok a). split; [exact Hm |].
  intros a' [= <-]. exact Ha.
Qed.

Lemma ensures_ret {A} s (a : A) (P : A -> Prop) : P a -> ensures s (ret a) P.
Proof. intros H. apply returns_ensures, returns_ret, H. Qed.

Lemma ensures_bind {A B} s (m : SE St A) (k : A -> SE St B)
    (Q : A -> Prop) (P : B -> Prop) :
  ensures s m Q -> (forall a, Q a -> ensures s (k a) P) ->
  ensures s (x <- m ;; k x) P.
Proof.
  intros (r & Hm & Hr) Hk. unfold bind, ensures. rewrite Hm.
  destruct r as [a | e].
  - apply Hk, Hr. reflexivity.
  - exists (Raise e). split; [reflexivity | discriminate].
Qed.

Lemma ensures_bind_gets {A B} s (f : St -> A) (k : A -> SE St B) (P : B -> Prop) :
  ensures s (k (f s)) P -> ensures s (x <- gets f ;; k x) P.
Proof. intros H. exact H. Qed.

Lemma ensures_bind_lift {A B} s (r : result A) (k : A -> SE St B) (P : B -> Prop) :
  (forall a, r = Ok a -> ensures s (k a) P) -> ensures s (x <- lift r ;; k x) P.
Proof.
  intros H. destruct r as [a | e].
  - exact (H a eq_refl).
  - exists (Raise e). split; [reflexivity | discriminate].
Qed.

Lemma ensures_run {A} s (m : SE St A) (P : A -> Prop) a :
  ensures s m P -> run m s = Ok a -> P a.
Proof. intros (r & Hm & Hr). unfold run. rewrite Hm. exact (Hr a). Qed.
End Hoare.

Create HintDb returns.
Create HintDb config_pure.

(** Walks through a method body: attribute reads, calls whose result is not
    looked at (closed from the [returns] hints), branches and the final
    [ret], whose obligation is left when it is not [True]. *)
Ltac hoare :=
  lazymatch goal with
  | |- returns _ (bind (gets _) _) _ => apply returns_bind_gets; hoare
  | |- returns _ (bind (ret _) _) _ => apply returns_bind_ret; hoare
  | |- returns _ (bind (lift (Ok _)) _) _ =>
      eapply returns_bind_lift; [reflexivity | hoare]
  | |- returns _ (bind _ _) _ =>
      eapply returns_bind with (Q := fun _ => True);
      [ first [ solve [eauto with returns] | hoare ] | intros ? _; hoare ]
  | |- returns _ (ret _) _ => apply returns_ret; try exact I
  | |- returns _ (if ?b then _ else _) _ => destruct b; hoare
  | |- returns _ (match ?x with _ => _ end) _ => destruct x; hoare
  | |- _ => idtac
  end.

(** Replaces the comparisons of two given enumeration members by their
    value. *)
Ltac decide_eqs :=
  repeat match goal with
    | |- context [bool_decide (?a = ?b)] =>
        first [ rewrite (bool_decide_eq_true_2 (a = b)) by reflexivity
              | rewrite (bool_decide_eq_false_2 (a = b)) by discriminate ]
    end;
  rewrite ?andb_false_r, ?andb_true_r; cbn [andb negb].

(** * Facts on float comparisons *)

Lemma SFcompare_antisym a b c :
  SFcompare a b = Some c -> SFcompare b a = Some (CompOpp c).
Proof.
  destruct a as [sa | sa | | sa ma ea], b as [sb | sb | | sb mb eb]; simpl;
    try discriminate; try (destruct sa); try (destruct sb);
    intros [= <-]; try reflexivity.
  all: rewrite (Z.compare_antisym ea eb); destruct (ea ?= eb)%Z; simpl;
    try reflexivity; rewrite ?CompOpp_involutive; f_equal;
    first [ apply (Pos.compare_cont_antisym mb ma Eq)
          | symmetry; apply (Pos.compare_cont_antisym ma mb Eq) ].
Qed.

Lemma leb_not_ltb (a b : float) : (a <=? b)%float = true -> (b <? a)%float = false.
Proof.
  rewrite leb_spec, ltb_spec. unfold SFleb, SFltb.
  destruct (SFcompare (Prim2SF a) (Prim2SF b)) as [c |] eqn:E; [| discriminate].
  apply SFcompare_antisym in E. rewrite E. destruct c; simpl; congruence.
Qed.

Lemma nonneg_below_finite (x y : float) :
  (0 <=? x)%float = true -> (x <? y)%float = true -> is_finite x = true.
Proof.
  rewrite leb_spec, ltb_spec. unfold is_finite, SFleb, SFltb.
  change (Prim2SF 0) with (S754_zero false).
  destruct (Prim2SF x) as [s | [] | | s m e]; simpl; try discriminate; try reflexivity.
  destruct (Prim2SF y) as [sy | [] | | sy my ey]; simpl; discriminate.
Qed.

Lemma py_int_finite (x : float) : is_finite x = true -> exists z, py_int x = Ok z.
Proof.
  unfold is_finite, py_int.
  destruct (Prim2SF x); try discriminate; intros _; eexists; reflexivity.
Qed.

(** * The risk classifier *)

Section Classifier.
Import AuthorityRules.

Lemma PHASE_RISK_MAP_get phase :
  default MEDIUM (PhaseRiskClassifier.PHASE_RISK_MAP !! phase) = Spec.base phase.
Proof.
  unfold Spec.base, PhaseRiskClassifier.PHASE_RISK_MAP.
  repeat case_decide; subst; try reflexivity.
  rewrite !lookup_insert_ne by congruence. reflexivity.
Qed.

Lemma CRITICALITY_MODIFIER_get criticality :
  default 0 (PhaseRiskClassifier.CRITICALITY_MODIFIER !! criticality)
  = Spec.modifier criticality.
Proof.
  unfold Spec.modifier, PhaseRiskClassifier.CRITICALITY_MODIFIER.
  repeat case_decide; subst; try reflexivity.
  rewrite !lookup_insert_ne by congruence. reflexivity.
Qed.

Lemma modifier_cases criticality :
  Spec.modifier criticality = 0 \/ Spec.modifier criticality = 1
  \/ Spec.modifier criticality = 2.
Proof. unfold Spec.modifier. repeat case_decide; auto. Qed.

(** C6: for every phase and criticality string, [get_risk_level] returns
    the level whose value is [min (base phase + modifier criticality)
    CRITICAL], with [base] and [modifier] the tables of the specification
    (unrecognized phase: MEDIUM; unrecognized criticality: 0). *)
Theorem get_risk_level_clamped_sum phase criticality :
  exists r,
    PhaseRiskClassifier.get_risk_level phase criticality = Ok r
    /\ PhaseRiskLevel_.value r =
         Z.min (PhaseRiskLevel_.value (Spec.base phase) + Spec.modifier criticality)
               (PhaseRiskLevel_.value CRITICAL).
Proof.
  unfold PhaseRiskClassifier.get_risk_level.
  rewrite PHASE_RISK_MAP_get, CRITICALITY_MODIFIER_get.
  destruct (modifier_cases criticality) as [-> | [-> | ->]];
    destruct (Spec.base phase); eexists; split; reflexivity.
Qed.

Lemma get_risk_level_total phase criticality :
  exists risk, PhaseRiskClassifier.get_risk_level phase criticality = Ok risk.
Proof.
  unfold PhaseRiskClassifier.get_risk_level.
  rewrite PHASE_RISK_MAP_get, CRITICALITY_MODIFIER_get.
  destruct (modifier_cases criticality) as [-> | [-> | ->]];
    destruct (Spec.base phase); eexists; reflexivity.
Qed.

Lemma get_risk_level_routine phase :
  PhaseRiskClassifier.get_risk_level phase "Routine" = Ok (Spec.base phase).
Proof.
  unfold PhaseRiskClassifier.get_risk_level.
  rewrite PHASE_RISK_MAP_get. destruct (Spec.base phase); reflexivity.
Qed.

Lemma is_autonomous_allowed_total phase criticality :
  exists b, PhaseRiskClassifier.is_autonomous_allowed phase criticality = Ok b.
Proof.
  unfold PhaseRiskClassifier.is_autonomous_allowed.
  destruct (get_risk_level_total phase criticality) as [risk ->].
  eexists; reflexivity.
Qed.

(** The gate is the negation of "the effective risk is CRITICAL". *)
Lemma is_autonomous_allowed_spec phase criticality :
  exists risk,
    PhaseRiskClassifier.get_risk_level phase criticality = Ok risk
    /\ PhaseRiskClassifier.is_autonomous_allowed phase criticality
       = Ok (negb (bool_decide (risk = CRITICAL))).
Proof.
  unfold PhaseRiskClassifier.is_autonomous_allowed.
  destruct (get_risk_level_total phase criticality) as [risk ->].
  exists risk. split; reflexivity.
Qed.
End Classifier.

(** * The rule engine *)

Section Engine.
Import AuthorityRules.
Implicit Types (self : AuthorityRuleEngine) (bn_rec : ModeRecommendation).

(** ** Every method returns *)

Lemma _reliability_label_returns self x :
  returns self (_reliability_label x) (fun _ => True).
Proof. unfold _reliability_label. hoare. Qed.

Lemma _diagnose_autonomous_degradation_returns self bn_rec :
  returns self (_diagnose_autonomous_degradation bn_rec) (fun _ => True).
Proof. unfold _diagnose_autonomous_degradation. hoare. Qed.

Hint Resolve _reliability_label_returns _diagnose_autonomous_degradation_returns
  : returns.

Lemma _generate_explanation_returns self scenario phase bn_rec summary :
  returns self (_generate_explanation scenario phase bn_rec summary) (fun _ => True).
Proof. unfold _generate_explanation. cbv zeta. hoare. Qed.

Hint Resolve _generate_explanation_returns : returns.

Lemma _handle_critical_phase_returns self c r phase bn_rec :
  returns self (_handle_critical_phase c r phase bn_rec) (fun _ => True).
Proof. unfold _handle_critical_phase. hoare. Qed.

Lemma _handle_high_risk_phase_returns self c r phase bn_rec :
  returns self (_handle_high_risk_phase c r phase bn_rec) (fun _ => True).
Proof. unfold _handle_high_risk_phase. hoare. Qed.

Lemma _handle_medium_risk_phase_returns self c r phase bn_rec :
  returns self (_handle_medium_risk_phase c r phase bn_rec) (fun _ => True).
Proof. unfold _handle_medium_risk_phase. hoare. Qed.

Lemma _handle_low_risk_phase_returns self c r phase bn_rec :
  returns self (_handle_low_risk_phase c r phase bn_rec) (fun _ => True).
Proof. unfold _handle_low_risk_phase. hoare. Qed.

Lemma _handle_safe_phase_returns self c r phase bn_rec :
  returns self (_handle_safe_phase c r phase bn_rec) (fun _ => True).
Proof. unfold _handle_safe_phase. hoare. Qed.

Hint Resolve _handle_critical_phase_returns _handle_high_risk_phase_returns
  _handle_medium_risk_phase_returns _handle_low_risk_phase_returns
  _handle_safe_phase_returns : returns.

Lemma _apply_phase_rules_returns self c r risk phase bn_rec :
  returns self (_apply_phase_rules c r risk phase bn_rec) (fun _ => True).
Proof. unfold _apply_phase_rules. hoare; eauto with returns. Qed.

Lemma _apply_safety_rules_returns self c r risk phase bn_rec :
  returns self (_apply_safety_rules c r risk phase bn_rec) (fun _ => True).
Proof. unfold _apply_safety_rules. hoare. Qed.

Lemma urgency_map_get risk :
  (<[CRITICAL := "critical"]> (<[HIGH := "high"]> (<[MEDIUM := "medium"]>
     (<[LOW := "low"]> (<[SAFE := "low"]> (∅ : gmap PhaseRiskLevel string))))))
    !! risk
  = Some match risk with
         | SAFE | LOW => "low"
         | MEDIUM => "medium"
         | HIGH => "high"
         | CRITICAL => "critical"
         end.
Proof. destruct risk; reflexivity. Qed.

(** What the override handler returns: the request for AUTONOMOUS is
    blocked exactly when the phase alone, at criticality ["Routine"], is
    critical; the urgency of an accepted override follows the risk level
    passed in. *)
Lemma _handle_operator_override_spec self requested c risk phase :
  returns self (_handle_operator_override requested c risk phase) (fun d =>
    if bool_decide (requested = AUTONOMOUS) && bool_decide (Spec.base phase = CRITICAL)
    then action_type d = BLOCK /\ target_mode d = c /\ urgency d = "high"
         /\ allow_decline d = false
    else action_type d = AUTO_SWITCH /\ target_mode d = requested
         /\ allow_decline d = false
         /\ urgency d = match risk with
                        | SAFE | LOW => "low"
                        | MEDIUM => "medium"
                        | HIGH => "high"
                        | CRITICAL => "critical"
                        end).
Proof.
  unfold _handle_operator_override, PhaseRiskClassifier.is_autonomous_allowed.
  cbv zeta. rewrite get_risk_level_routine, urgency_map_get. cbn [rbind].
  destruct (bool_decide (requested = AUTONOMOUS)); cbn [andb].
  - eapply returns_bind_lift; [reflexivity |].
    destruct (bool_decide (Spec.base phase = CRITICAL)); cbn [negb].
    + hoare. repeat split.
    + hoare. repeat split.
  - hoare. repeat split.
Qed.

Lemma _handle_operator_override_returns self requested c risk phase :
  returns self (_handle_operator_override requested c risk phase) (fun _ => True).
Proof.
  eapply returns_mono; [apply _handle_operator_override_spec | intros; exact I].
Qed.

Hint Resolve _apply_phase_rules_returns _apply_safety_rules_returns
  _handle_operator_override_returns : returns.

Lemma evaluate_mode_change_returns self c bn_rec phase criticality elapsed override :
  (0 <=? elapsed)%float = true ->
  returns self (evaluate_mode_change c bn_rec phase criticality elapsed override)
    (fun _ => True).
Proof.
  intros Hpos. unfold evaluate_mode_change. cbv zeta.
  destruct (get_risk_level_total phase criticality) as [risk ->].
  eapply returns_bind_lift; [reflexivity |].
  destruct override as [requested |].
  - apply _handle_operator_override_returns.
  - eapply returns_bind; [apply _apply_safety_rules_returns | intros [d |] _].
    + hoare.
    + apply returns_bind_gets.
      destruct (elapsed <? _)%float eqn:Hlt; [| eauto with returns].
      destruct (negb _); [| eauto with returns].
      destruct (py_int_finite elapsed (nonneg_below_finite _ _ Hpos Hlt)) as [z ->].
      hoare.
Qed.

(** C7: for every current mode, recommendation with reliabilities and
    confidence in [0,1], phase, criticality, non-negative elapsed time and
    optional override, [evaluate_mode_change] raises nothing and returns an
    [AuthorityDecision], a record that holds all eight fields; the engine is
    left as it was. *)
Theorem evaluate_mode_change_total self current_mode bn_rec phase criticality
    elapsed override :
  in_range 0 1 (human_reliability bn_rec) ->
  in_range 0 1 (autonomous_reliability bn_rec) ->
  in_range 0 1 (confidence bn_rec) ->
  (0 <=? elapsed)%float = true ->
  exists decision,
    evaluate_mode_change current_mode bn_rec phase criticality elapsed override self
    = (self, Ok decision).
Proof.
  intros _ _ _ Hpos.
  destruct (evaluate_mode_change_returns self current_mode bn_rec phase criticality
              elapsed override Hpos) as (d & Hd & _).
  exists d. exact Hd.
Qed.

Lemma evaluate_mode_change_total_witness :
  in_range 0 1 0.9 /\ in_range 0 1 0.65 /\ in_range 0 1 0.7
  /\ (0 <=? 30.5)%float = true
  /\ exists decision,
       evaluate_mode_change HUMAN (docking_rec 0.7 0.9 0.65 (Some 0.6%float))
         "Undocking" "Important" 30.5 None __init__
       = (__init__, Ok decision).
Proof.
  assert (H1 : in_range 0 1 0.9) by (split; reflexivity).
  assert (H2 : in_range 0 1 0.65) by (split; reflexivity).
  assert (H3 : in_range 0 1 0.7) by (split; reflexivity).
  assert (H4 : (0 <=? 30.5)%float = true) by reflexivity.
  repeat (split; [assumption |]).
  exact (evaluate_mode_change_total __init__ HUMAN
           (docking_rec 0.7 0.9 0.65 (Some 0.6%float)) "Undocking" "Important"
           30.5 None H1 H2 H3 H4).
Defined.

(** ** The outcome depends on the configuration only *)

Lemma config_pure_ret {A} (a : A) : config_pure (ret a).
Proof. intros s1 s2 _. exists (Ok a). split; reflexivity. Qed.

Lemma config_pure_raise {A} e : config_pure (raise (A := A) e).
Proof. intros s1 s2 _. exists (Raise e). split; reflexivity. Qed.

Lemma config_pure_lift {A} (r : result A) : config_pure (lift r).
Proof. intros s1 s2 _. exists r. split; reflexivity. Qed.

Lemma config_pure_bind {A B} (m : SE AuthorityRuleEngine A)
    (k : A -> SE AuthorityRuleEngine B) :
  config_pure m -> (forall a, config_pure (k a)) -> config_pure (x <- m ;; k x).
Proof.
  intros Hm Hk s1 s2 Hs. destruct (Hm s1 s2 Hs) as (r & H1 & H2).
  unfold bind. rewrite H1, H2. destruct r as [a | e].
  - exact (Hk a s1 s2 Hs).
  - exists (Raise e). split; reflexivity.
Qed.

Lemma config_pure_CRITICAL_LOW_THRESHOLD : config_pure (gets CRITICAL_LOW_THRESHOLD).
Proof.
  intros s1 s2 (H & _). exists (Ok (CRITICAL_LOW_THRESHOLD s1)).
  split; [reflexivity | unfold gets; rewrite H; reflexivity].
Qed.

Lemma config_pure_LOW_THRESHOLD : config_pure (gets LOW_THRESHOLD).
Proof.
  intros s1 s2 (_ & H & _). exists (Ok (LOW_THRESHOLD s1)).
  split; [reflexivity | unfold gets; rewrite H; reflexivity].
Qed.

Lemma config_pure_HIGH_THRESHOLD : config_pure (gets HIGH_THRESHOLD).
Proof.
  intros s1 s2 (_ & _ & H & _). exists (Ok (HIGH_THRESHOLD s1)).
  split; [reflexivity | unfold gets; rewrite H; reflexivity].
Qed.

Lemma config_pure_minimum_mode_duration : config_pure (gets minimum_mode_duration).
Proof.
  intros s1 s2 (_ & _ & _ & H). exists (Ok (minimum_mode_duration s1)).
  split; [reflexivity | unfold gets; rewrite H; reflexivity].
Qed.

Hint Resolve config_pure_ret config_pure_raise config_pure_lift
  config_pure_CRITICAL_LOW_THRESHOLD config_pure_LOW_THRESHOLD
  config_pure_HIGH_THRESHOLD config_pure_minimum_mode_duration : config_pure.

(** Follows the structure of a method body; no condition is evaluated. *)
Ltac pure_body :=
  lazymatch goal with
  | |- config_pure (bind _ _) =>
      apply config_pure_bind; [pure_body | intros ?; pure_body]
  | |- config_pure (if ?b then _ else _) => destruct b; pure_body
  | |- config_pure (match ?x with _ => _ end) => destruct x; pure_body
  | |- config_pure _ => solve [auto with config_pure]
  end.

Lemma _reliability_label_pure x : config_pure (_reliability_label x).
Proof. unfold _reliability_label. pure_body. Qed.

Lemma _diagnose_autonomous_degradation_pure bn_rec :
  config_pure (_diagnose_autonomous_degradation bn_rec).
Proof. unfold _diagnose_autonomous_degradation. pure_body. Qed.

Hint Resolve _reliability_label_pure _diagnose_autonomous_degradation_pure
  : config_pure.

Lemma _generate_explanation_pure scenario phase bn_rec summary :
  config_pure (_generate_explanation scenario phase bn_rec summary).
Proof. unfold _generate_explanation. cbv zeta. pure_body. Qed.

Hint Resolve _generate_explanation_pure : config_pure.

Lemma _handle_critical_phase_pure c r phase bn_rec :
  config_pure (_handle_critical_phase c r phase bn_rec).
Proof. unfold _handle_critical_phase. pure_body. Qed.

Lemma _handle_high_risk_phase_pure c r phase bn_rec :
  config_pure (_handle_high_risk_phase c r phase bn_rec).
Proof. unfold _handle_high_risk_phase. pure_body. Qed.

Lemma _handle_medium_risk_phase_pure c r phase bn_rec :
  config_pure (_handle_medium_risk_phase c r phase bn_rec).
Proof. unfold _handle_medium_risk_phase. pure_body. Qed.

Lemma _handle_low_risk_phase_pure c r phase bn_rec :
  config_pure (_handle_low_risk_phase c r phase bn_rec).
Proof. unfold _handle_low_risk_phase. pure_body. Qed.

Lemma _handle_safe_phase_pure c r phase bn_rec :
  config_pure (_handle_safe_phase c r phase bn_rec).
Proof. unfold _handle_safe_phase. pure_body. Qed.

Hint Resolve _handle_critical_phase_pure _handle_high_risk_phase_pure
  _handle_medium_risk_phase_pure _handle_low_risk_phase_pure
  _handle_safe_phase_pure : config_pure.

Lemma _apply_phase_rules_pure c r risk phase bn_rec :
  config_pure (_apply_phase_rules c r risk phase bn_rec).
Proof. unfold _apply_phase_rules. pure_body. Qed.

Lemma _apply_safety_rules_pure c r risk phase bn_rec :
  config_pure (_apply_safety_rules c r risk phase bn_rec).
Proof. unfold _apply_safety_rules. pure_body. Qed.

Lemma _handle_operator_override_pure requested c risk phase :
  config_pure (_handle_operator_override requested c risk phase).
Proof. unfold _handle_operator_override. cbv zeta. pure_body. Qed.

Hint Resolve _apply_phase_rules_pure _apply_safety_rules_pure
  _handle_operator_override_pure : config_pure.

Lemma evaluate_mode_change_pure c bn_rec phase criticality elapsed override :
  config_pure (evaluate_mode_change c bn_rec phase criticality elapsed override).
Proof. unfold evaluate_mode_change. cbv zeta. pure_body. Qed.

(** C8: [evaluate_mode_change] is deterministic and mutates nothing.  On
    two engines with the same configuration (the three thresholds and the
    minimum mode duration), whatever their other attributes hold, two calls
    with the same arguments have the same outcome, decision or exception,
    and each call leaves its engine as it was. *)
Theorem evaluate_mode_change_deterministic s1 s2 current_mode bn_rec phase criticality
    elapsed override :
  same_config s1 s2 ->
  exists outcome,
    evaluate_mode_change current_mode bn_rec phase criticality elapsed override s1
    = (s1, outcome)
    /\ evaluate_mode_change current_mode bn_rec phase criticality elapsed override s2
       = (s2, outcome).
Proof.
  intros Hconfig.
  destruct (evaluate_mode_change_pure current_mode bn_rec phase criticality elapsed
              override s1 s2 Hconfig) as (outcome & H1 & H2).
  exists outcome. split; [exact H1 | exact H2].
Qed.

Lemma evaluate_mode_change_deterministic_witness :
  same_config __init__ used_engine
  /\ exists outcome,
       evaluate_mode_change AUTONOMOUS (transit_rec 0.7 0.65 None) "Inspection"
         "Routine" 150 None __init__
       = (__init__, outcome)
       /\ evaluate_mode_change AUTONOMOUS (transit_rec 0.7 0.65 None) "Inspection"
            "Routine" 150 None used_engine
          = (used_engine, outcome).
Proof.
  assert (H : same_config __init__ used_engine) by (repeat split; reflexivity).
  split; [exact H |].
  exact (evaluate_mode_change_deterministic __init__ used_engine AUTONOMOUS
           (transit_rec 0.7 0.65 None) "Inspection" "Routine" 150 None H).
Defined.

(** ** What each tier decides *)

(** What the hard safety rules return, by their two conditions. *)
Lemma _apply_safety_rules_spec self c r risk phase bn_rec :
  returns self (_apply_safety_rules c r risk phase bn_rec) (fun o =>
    if bool_decide (risk = CRITICAL) && bool_decide (c = HUMAN)
       && (human_reliability bn_rec <? CRITICAL_LOW_THRESHOLD self)%float
    then exists d, o = Some d /\ action_type d = NOTIFY /\ target_mode d = c
                   /\ urgency d = "critical"
    else if bool_decide (c = AUTONOMOUS) && bool_decide (r = HUMAN)
            && (autonomous_reliability bn_rec <? LOW_THRESHOLD self)%float
    then exists d, o = Some d /\ action_type d = AUTO_SWITCH /\ target_mode d = HUMAN
                   /\ urgency d = "high" /\ allow_decline d = false
    else o = None).
Proof.
  unfold _apply_safety_rules. apply returns_bind_gets.
  destruct (_ && _ && (_ <? CRITICAL_LOW_THRESHOLD self)%float).
  - hoare. eexists; repeat split.
  - apply returns_bind_gets.
    destruct (_ && _ && (_ <? LOW_THRESHOLD self)%float).
    + hoare. eexists; repeat split.
    + hoare. reflexivity.
Qed.

Ltac keeps :=
  unfold keeps_mode, no_transition; cbn [action_type target_mode];
  try (intros [? | [? | ?]]; first [discriminate | reflexivity]).

Lemma _handle_critical_phase_keeps self c r phase bn_rec :
  returns self (_handle_critical_phase c r phase bn_rec) (keeps_mode c).
Proof. unfold _handle_critical_phase. hoare; keeps. Qed.

Lemma _handle_high_risk_phase_keeps self c r phase bn_rec :
  returns self (_handle_high_risk_phase c r phase bn_rec) (keeps_mode c).
Proof. unfold _handle_high_risk_phase. hoare; keeps. Qed.

Lemma _handle_medium_risk_phase_keeps self c r phase bn_rec :
  returns self (_handle_medium_risk_phase c r phase bn_rec) (keeps_mode c).
Proof. unfold _handle_medium_risk_phase. hoare; keeps. Qed.

Lemma _handle_low_risk_phase_keeps self c r phase bn_rec :
  returns self (_handle_low_risk_phase c r phase bn_rec) (keeps_mode c).
Proof.
  unfold _handle_low_risk_phase. hoare; keeps.
  case_bool_decide; cbn [negb]; [auto |]. intros [? | [? | ?]]; discriminate.
Qed.

Lemma _handle_safe_phase_keeps self c r phase bn_rec :
  returns self (_handle_safe_phase c r phase bn_rec) (keeps_mode c).
Proof. unfold _handle_safe_phase. hoare; keeps. Qed.

Lemma _apply_phase_rules_keeps self c r risk phase bn_rec :
  returns self (_apply_phase_rules c r risk phase bn_rec) (keeps_mode c).
Proof.
  unfold _apply_phase_rules.
  repeat (lazymatch goal with
          | |- returns _ (if ?b then _ else _) _ => destruct b
          end);
    eauto using _handle_critical_phase_keeps, _handle_high_risk_phase_keeps,
      _handle_medium_risk_phase_keeps, _handle_low_risk_phase_keeps,
      _handle_safe_phase_keeps.
  hoare; keeps.
Qed.

Lemma _handle_critical_phase_block self phase bn_rec :
  returns self (_handle_critical_phase HUMAN AUTONOMOUS phase bn_rec)
    (fun d => action_type d = BLOCK /\ target_mode d = HUMAN).
Proof. unfold _handle_critical_phase. decide_eqs. hoare. split; reflexivity. Qed.

Lemma _handle_low_risk_phase_notify self phase bn_rec :
  returns self (_handle_low_risk_phase AUTONOMOUS HUMAN phase bn_rec)
    (fun d => action_type d = NOTIFY /\ target_mode d = AUTONOMOUS).
Proof. unfold _handle_low_risk_phase. decide_eqs. hoare. split; reflexivity. Qed.

(** ** Operator override *)

(** C1, evaluated where it fails: with phase "Inspection" and
    criticality "Critical" the gate [is_autonomous_allowed] is false, yet an
    operator override to AUTONOMOUS is accepted: the decision is AUTO_SWITCH
    to AUTONOMOUS with urgency "critical", for every engine, current mode,
    recommendation and elapsed time. *)
Theorem override_autonomous_accepted_at_critical_risk self current_mode bn_rec elapsed :
  PhaseRiskClassifier.is_autonomous_allowed "Inspection" "Critical" = Ok false
  /\ returns self
       (evaluate_mode_change current_mode bn_rec "Inspection" "Critical" elapsed
          (Some AUTONOMOUS))
       (fun d => action_type d = AUTO_SWITCH /\ target_mode d = AUTONOMOUS
                 /\ urgency d = "critical").
Proof.
  split; [reflexivity |].
  unfold evaluate_mode_change. cbv zeta.
  change (PhaseRiskClassifier.get_risk_level "Inspection" "Critical") with (Ok CRITICAL).
  eapply returns_bind_lift; [reflexivity |].
  eapply returns_mono; [apply _handle_operator_override_spec |].
  intros d. change (Spec.base "Inspection") with MEDIUM. decide_eqs. tauto.
Qed.

(** The part of the override gate that holds: in the phases "Docking" and
    "DockingApproach" an override to AUTONOMOUS is blocked, whatever the
    criticality and the reliabilities. *)
Lemma override_autonomous_blocked_in_docking self current_mode bn_rec phase criticality
    elapsed :
  phase = "Docking" \/ phase = "DockingApproach" ->
  returns self
    (evaluate_mode_change current_mode bn_rec phase criticality elapsed
       (Some AUTONOMOUS))
    (fun d => action_type d = BLOCK /\ target_mode d = current_mode
              /\ urgency d = "high" /\ allow_decline d = false).
Proof.
  intros Hphase. unfold evaluate_mode_change. cbv zeta.
  destruct (get_risk_level_total phase criticality) as [risk ->].
  eapply returns_bind_lift; [reflexivity |].
  eapply returns_mono; [apply _handle_operator_override_spec |].
  intros d.
  replace (Spec.base phase) with CRITICAL by (destruct Hphase as [-> | ->]; reflexivity).
  decide_eqs. tauto.
Qed.

(** ** Scenarios *)

(** The other two scenarios of the specification, run on the engine as
    constructed. *)
Example undocking_scenario :
  returns __init__
    (evaluate_mode_change HUMAN (docking_rec 0.7 0.5 0.9 None) "Undocking" "Routine"
       200 None)
    (fun d => action_type d = ASK /\ target_mode d = AUTONOMOUS /\ urgency d = "high"
              /\ timeout_seconds d = Some 45).
Proof. eexists. split; [vm_compute; reflexivity | repeat split]. Qed.

Example charging_scenario :
  returns __init__
    (evaluate_mode_change HUMAN (docking_rec 0.7 0.9 0.9 None) "Charging" "Routine"
       130 None)
    (fun d => action_type d = AUTO_SWITCH /\ target_mode d = AUTONOMOUS).
Proof. eexists. split; [vm_compute; reflexivity | repeat split]. Qed.

(** C2 as stated fails: at autonomous reliability 0.55 (confidence 0.7, no
    docking reliability) the transit scenario does not return NOTIFY with
    target AUTONOMOUS. *)
Lemma transit_notify_claim_fails :
  ~ returns __init__
      (evaluate_mode_change AUTONOMOUS (transit_rec 0.7 0.55 None) "Transit" "Routine"
         200 None)
      (fun d => action_type d = NOTIFY /\ target_mode d = AUTONOMOUS).
Proof.
  intros (d & Hd & Ha & _).
  vm_compute in Hd. injection Hd as Hd. subst d. discriminate Ha.
Qed.

(** C2, amended: in the transit scenario (phase "Transit", criticality
    "Routine", no override, current AUTONOMOUS, recommended HUMAN, human
    reliability 0.9, elapsed 200) the decision is AUTO_SWITCH to HUMAN with
    urgency "high" when the autonomous reliability is below 0.6, as 0.55 is,
    and NOTIFY with target AUTONOMOUS otherwise. *)
Theorem transit_scenario_decision conf ar dr :
  returns __init__
    (evaluate_mode_change AUTONOMOUS (transit_rec conf ar dr) "Transit" "Routine"
       200 None)
    (fun d =>
       if (ar <? 0.6)%float
       then action_type d = AUTO_SWITCH /\ target_mode d = HUMAN /\ urgency d = "high"
       else action_type d = NOTIFY /\ target_mode d = AUTONOMOUS).
Proof.
  unfold evaluate_mode_change. cbv zeta.
  change (PhaseRiskClassifier.get_risk_level "Transit" "Routine") with (Ok LOW).
  eapply returns_bind_lift; [reflexivity |].
  eapply returns_bind; [apply _apply_safety_rules_spec |].
  intros o. decide_eqs. cbn. destruct (ar <? 0.6)%float.
  - intros (d & -> & Ha & Ht & Hu & _). apply returns_ret. auto.
  - intros ->. apply returns_bind_gets. cbn.
    apply _handle_low_risk_phase_notify.
Qed.

(** C3 as stated fails: with human reliability 0.3, in [0,1], the docking
    approach scenario does not return BLOCK. *)
Lemma docking_approach_block_claim_fails :
  in_range 0 1 0.3 /\ in_range 0 1 0.65 /\ in_range 0 1 0.7
  /\ ~ returns __init__
        (evaluate_mode_change HUMAN (docking_rec 0.7 0.3 0.65 None) "DockingApproach"
           "Routine" 200 None)
        (fun d => action_type d = BLOCK /\ target_mode d = HUMAN).
Proof.
  repeat (split; [split; reflexivity |]).
  intros (d & Hd & Ha & _).
  vm_compute in Hd. injection Hd as Hd. subst d. discriminate Ha.
Qed.

(** C3, amended: for every human reliability in [0.5,1] and every
    autonomous reliability and confidence in [0,1], with phase
    "DockingApproach", criticality "Routine", no override, current HUMAN,
    recommended AUTONOMOUS and elapsed 200, the decision is BLOCK with
    target HUMAN. *)
Theorem docking_approach_blocks conf hr ar dr :
  in_range 0.5 1 hr -> in_range 0 1 ar -> in_range 0 1 conf ->
  returns __init__
    (evaluate_mode_change HUMAN (docking_rec conf hr ar dr) "DockingApproach"
       "Routine" 200 None)
    (fun d => action_type d = BLOCK /\ target_mode d = HUMAN).
Proof.
  intros [Hhr _] _ _. apply leb_not_ltb in Hhr.
  unfold evaluate_mode_change. cbv zeta.
  change (PhaseRiskClassifier.get_risk_level "DockingApproach" "Routine")
    with (Ok CRITICAL).
  eapply returns_bind_lift; [reflexivity |].
  eapply returns_bind; [apply _apply_safety_rules_spec |].
  intros o. decide_eqs. cbn. rewrite Hhr. intros ->.
  apply returns_bind_gets. cbn. apply _handle_critical_phase_block.
Qed.

Lemma docking_approach_blocks_witness :
  in_range 0.5 1 0.9 /\ in_range 0 1 0.65 /\ in_range 0 1 0.7
  /\ returns __init__
       (evaluate_mode_change HUMAN (docking_rec 0.7 0.9 0.65 None) "DockingApproach"
          "Routine" 200 None)
       (fun d => action_type d = BLOCK /\ target_mode d = HUMAN).
Proof.
  assert (H1 : in_range 0.5 1 0.9) by (split; reflexivity).
  assert (H2 : in_range 0 1 0.65) by (split; reflexivity).
  assert (H3 : in_range 0 1 0.7) by (split; reflexivity).
  repeat (split; [assumption |]).
  exact (docking_approach_blocks 0.7 0.9 0.65 None H1 H2 H3).
Defined.

(** ** Hard safety rule B and the hysteresis window *)

(** C4: for every phase, criticality and elapsed time (below 120 or not),
    with no override, current AUTONOMOUS, recommended HUMAN and autonomous
    reliability below 0.6, the decision is AUTO_SWITCH to HUMAN with urgency
    "high".  Rule A needs the current mode HUMAN, so it never applies
    here. *)
Theorem rule_B_ignores_hysteresis phase criticality elapsed bn_rec :
  recommended_mode bn_rec = HUMAN ->
  (autonomous_reliability bn_rec <? 0.6)%float = true ->
  returns __init__
    (evaluate_mode_change AUTONOMOUS bn_rec phase criticality elapsed None)
    (fun d => action_type d = AUTO_SWITCH /\ target_mode d = HUMAN /\ urgency d = "high").
Proof.
  intros Hrec Hlow. unfold evaluate_mode_change. cbv zeta.
  destruct (get_risk_level_total phase criticality) as [risk ->].
  eapply returns_bind_lift; [reflexivity |].
  eapply returns_bind; [apply _apply_safety_rules_spec |].
  intros o. rewrite Hrec. decide_eqs.
  change (LOW_THRESHOLD __init__) with 0.6%float. rewrite Hlow.
  intros (d & -> & Ha & Ht & Hu & _). apply returns_ret. auto.
Qed.

Lemma rule_B_ignores_hysteresis_witness :
  recommended_mode (transit_rec 0.7 0.5 None) = HUMAN
  /\ (autonomous_reliability (transit_rec 0.7 0.5 None) <? 0.6)%float = true
  /\ returns __init__
       (evaluate_mode_change AUTONOMOUS (transit_rec 0.7 0.5 None) "Transit" "Routine"
          30 None)
       (fun d => action_type d = AUTO_SWITCH /\ target_mode d = HUMAN
                 /\ urgency d = "high").
Proof.
  assert (H1 : recommended_mode (transit_rec 0.7 0.5 None) = HUMAN) by reflexivity.
  assert (H2 : (autonomous_reliability (transit_rec 0.7 0.5 None) <? 0.6)%float = true)
    by reflexivity.
  repeat (split; [assumption |]).
  exact (rule_B_ignores_hysteresis "Transit" "Routine" 30 (transit_rec 0.7 0.5 None)
           H1 H2).
Defined.

(** C5: with no override, when neither hard safety rule fires, the elapsed
    time is a finite number below 120 and the recommended mode differs from
    the current one, the decision is NONE with the current mode as target,
    and its reasons hold [120 - elapsed] under "time_remaining". *)
Theorem hysteresis_holds_mode c bn_rec phase criticality elapsed :
  no_safety_rule_fires __init__ c bn_rec phase criticality ->
  is_finite elapsed = true ->
  (elapsed <? 120)%float = true ->
  recommended_mode bn_rec <> c ->
  returns __init__ (evaluate_mode_change c bn_rec phase criticality elapsed None)
    (fun d => action_type d = NONE /\ target_mode d = c
              /\ reasons d !! "time_remaining" = Some (VFloat (120 - elapsed)%float)).
Proof.
  intros (risk & Hrisk & Hsafe) Hfin Hlt Hne.
  unfold evaluate_mode_change. cbv zeta. rewrite Hrisk.
  eapply returns_bind_lift; [reflexivity |].
  eapply returns_bind;
    [exact (returns_value _ _ _ (_apply_safety_rules_returns _ _ _ _ _ _) Hsafe) |].
  intros o ->. apply returns_bind_gets.
  change (minimum_mode_duration __init__) with 120%float. rewrite Hlt.
  rewrite (bool_decide_eq_false_2 _ Hne). cbn [negb].
  destruct (py_int_finite elapsed Hfin) as [z ->].
  eapply returns_bind_lift; [reflexivity |].
  apply returns_bind_gets, returns_ret. split; [reflexivity | split; [reflexivity |]].
  cbn [reasons]. unfold py_dict. cbn [fold_left fst snd]. apply lookup_insert_eq.
Qed.

Lemma hysteresis_holds_mode_witness :
  no_safety_rule_fires __init__ HUMAN (docking_rec 0.7 0.9 0.65 None) "Transit" "Routine"
  /\ is_finite 100.5 = true
  /\ (100.5 <? 120)%float = true
  /\ recommended_mode (docking_rec 0.7 0.9 0.65 None) <> HUMAN
  /\ returns __init__
       (evaluate_mode_change HUMAN (docking_rec 0.7 0.9 0.65 None) "Transit" "Routine"
          100.5 None)
       (fun d => action_type d = NONE /\ target_mode d = HUMAN
                 /\ reasons d !! "time_remaining" = Some (VFloat (120 - 100.5)%float)).
Proof.
  assert (H1 : no_safety_rule_fires __init__ HUMAN (docking_rec 0.7 0.9 0.65 None)
                 "Transit" "Routine")
    by (exists LOW; split; vm_compute; reflexivity).
  assert (H2 : is_finite 100.5 = true) by reflexivity.
  assert (H3 : (100.5 <? 120)%float = true) by reflexivity.
  assert (H4 : recommended_mode (docking_rec 0.7 0.9 0.65 None) <> HUMAN)
    by discriminate.
  repeat (split; [assumption |]).
  exact (hysteresis_holds_mode HUMAN (docking_rec 0.7 0.9 0.65 None) "Transit" "Routine"
           100.5 H1 H2 H3 H4).
Defined.

(** ** No-transition actions keep the current mode *)

(** C10: for every engine and every input, override or not, a returned
    decision whose action is NONE, NOTIFY or BLOCK has the current mode as
    its target. *)
Theorem no_transition_keeps_current_mode self c bn_rec phase criticality elapsed
    override d :
  run (evaluate_mode_change c bn_rec phase criticality elapsed override) self = Ok d ->
  no_transition (action_type d) ->
  target_mode d = c.
Proof.
  intros Hrun. change (keeps_mode c d). revert Hrun. apply ensures_run.
  unfold evaluate_mode_change. cbv zeta.
  apply ensures_bind_lift. intros risk _. destruct override as [requested |].
  - apply returns_ensures. eapply returns_mono; [apply _handle_operator_override_spec |].
    intros d'. destruct (_ && _).
    + intros (Ha & Ht & _) _. exact Ht.
    + intros (Ha & _) [H | [H | H]]; rewrite Ha in H; discriminate H.
  - eapply ensures_bind; [apply returns_ensures, _apply_safety_rules_spec |].
    intros o. destruct (_ && _ && _).
    { intros (d' & -> & Ha & Ht & _). apply ensures_ret. intros _. exact Ht. }
    destruct (_ && _ && _).
    { intros (d' & -> & Ha & _). apply ensures_ret.
      intros [H | [H | H]]; rewrite Ha in H; discriminate H. }
    intros ->. apply ensures_bind_gets.
    destruct (_ <? _)%float; [| apply returns_ensures, _apply_phase_rules_keeps].
    destruct (negb _); [| apply returns_ensures, _apply_phase_rules_keeps].
    apply ensures_bind_lift. intros z _.
    apply ensures_bind_gets, ensures_ret. intros _. reflexivity.
Qed.

Lemma no_transition_keeps_current_mode_witness :
  exists d,
    run (evaluate_mode_change HUMAN (docking_rec 0.7 0.9 0.65 None) "Docking" "Routine"
           200 None) __init__ = Ok d
    /\ no_transition (action_type d)
    /\ target_mode d = HUMAN.
Proof.
  assert (H : exists d,
    run (evaluate_mode_change HUMAN (docking_rec 0.7 0.9 0.65 None) "Docking" "Routine"
           200 None) __init__ = Ok d
    /\ no_transition (action_type d)).
  { vm_compute. eexists. split; [reflexivity | right; right; reflexivity]. }
  destruct H as (d & Hd & Hn). exists d.
  split; [exact Hd | split; [exact Hn |]].
  exact (no_transition_keeps_current_mode __init__ HUMAN (docking_rec 0.7 0.9 0.65 None)
           "Docking" "Routine" 200 None d Hd Hn).
Defined.
End Engine.

(** * The node's token handling *)

Section Node.
Import AuthorityRules ModeArbitrator.

(** The arbitration loop hands the stored recommendation to the engine as
    the recommended mode. *)
Lemma arbitration_loop_recommendation now self mode :
  latest_bn_recommendation self = Some mode ->
  arbitration_loop now self
  = (decision <- call_engine
       (evaluate_mode_change (current_mode self)
          {| recommended_mode := mode;
             confidence := bn_confidence self;
             AuthorityRules.human_reliability := human_reliability self;
             AuthorityRules.autonomous_reliability := autonomous_reliability self;
             AuthorityRules.docking_reliability := docking_reliability self |}
          (current_phase self) (current_task_criticality self)
          (float_of_Z (now - last_mode_change_time self) / 1e9)%float None) ;;
     _execute_decision now decision) self.
Proof. intros H. unfold arbitration_loop, bind at 1, gets at 1. rewrite H. reflexivity. Qed.

(** C9 as stated fails for override tokens: the token "foo" maps to no
    mode, and the override callback leaves the node as it was, where the
    token "shared" switches the node to SHARED. *)
Lemma unmapped_override_not_defaulted :
  mode_map !! lower "foo" = None
  /\ operator_override_callback 1 "foo" (ModeArbitrator.__init__ 0)
     = (ModeArbitrator.__init__ 0, Ok tt)
  /\ current_mode (exec (operator_override_callback 1 "shared") (ModeArbitrator.__init__ 0))
     = SHARED
  /\ operator_override_callback 1 "foo" (ModeArbitrator.__init__ 0)
     <> operator_override_callback 1 "shared" (ModeArbitrator.__init__ 0).
Proof.
  split; [reflexivity |]. split; [reflexivity |]. split; [vm_compute; reflexivity |].
  intros H. apply (f_equal (fun p => current_mode (fst p))) in H.
  vm_compute in H. discriminate H.
Qed.

(** C9, amended: a recommendation token that maps to none of autonomous,
    human, shared (after lower-casing) is stored as SHARED, which is what
    the arbitration loop then passes to the engine; an override token that
    maps to none of them is dropped: the callback returns with the node as
    it was, and nothing reaches the engine. *)
Theorem unmapped_tokens now self msg :
  mode_map !! lower msg = None ->
  latest_bn_recommendation (exec (bn_recommendation_callback msg) self) = Some SHARED
  /\ operator_override_callback now msg self = (self, Ok tt).
Proof.
  intros H. unfold bn_recommendation_callback, operator_override_callback, exec, modify.
  rewrite H. split; reflexivity.
Qed.

Lemma unmapped_tokens_witness :
  mode_map !! lower "Manual" = None
  /\ latest_bn_recommendation
       (exec (bn_recommendation_callback "Manual") (ModeArbitrator.__init__ 0))
     = Some SHARED
  /\ operator_override_callback 5 "Manual" (ModeArbitrator.__init__ 0)
     = (ModeArbitrator.__init__ 0, Ok tt).
Proof.
  assert (H : mode_map !! lower "Manual" = None) by reflexivity.
  split; [exact H |].
  exact (unmapped_tokens 5 (ModeArbitrator.__init__ 0) "Manual" H).
Defined.
End Node.

(** * The decision table of the engine *)

(** As [hoare], keeping the value of a pair chosen by a condition and
    leaving every final obligation. *)
Ltac hoare_values :=
  lazymatch goal with
  | |- returns _ (bind (gets _) _) _ => apply returns_bind_gets; hoare_values
  | |- returns _ (bind (ret _) _) _ => apply returns_bind_ret; hoare_values
  | |- returns _ (bind (lift (Ok _)) _) _ =>
      eapply returns_bind_lift; [reflexivity | hoare_values]
  | |- returns _ (bind _ _) _ =>
      eapply returns_bind with (Q := fun _ => True);
      [ first [ solve [eauto with returns] | hoare ] | intros ? _; hoare_values ]
  | |- returns _ (ret _) _ => apply returns_ret
  | |- returns _ (if ?b then _ else _) _ => destruct b; hoare_values
  | |- returns _ (match (if ?b then _ else _) with _ => _ end) _ =>
      destruct b; cbv beta iota; hoare_values
  | |- returns _ (match ?x with _ => _ end) _ => destruct x; hoare_values
  | |- _ => idtac
  end.

(** Splits the equation [H] between a decision core and an entry of the
    phase table into its field equations, for every entry. *)
Ltac by_phase_table H c r risk :=
  unfold phase_core, core in H; revert H; destruct c, r, risk; decide_eqs;
  try match goal with
    | |- context [if (?x <? ?y)%float then _ else _] => destruct (x <? y)%float
    end;
  intros [= ? ? ? ? ?].

(** Splits the equation [H] between a decision core and a given core. *)
Ltac by_core H := unfold core in H; injection H as ? ? ? ? ?.

Section EngineTable.
Import AuthorityRules.
Implicit Types (self : AuthorityRuleEngine) (bn_rec : ModeRecommendation).

Hint Resolve _reliability_label_returns _diagnose_autonomous_degradation_returns
  _generate_explanation_returns : returns.

Lemma _apply_phase_rules_core self c r risk phase bn_rec :
  returns self (_apply_phase_rules c r risk phase bn_rec) (fun d =>
    core d = phase_core c r risk (human_reliability bn_rec <? LOW_THRESHOLD self)%float).
Proof.
  unfold _apply_phase_rules, phase_core, core.
  destruct c, r, risk; decide_eqs;
    first [ apply returns_ret; reflexivity
          | unfold _handle_critical_phase, _handle_high_risk_phase,
              _handle_medium_risk_phase, _handle_low_risk_phase, _handle_safe_phase;
            decide_eqs; hoare_values; reflexivity ].
Qed.

Lemma _handle_operator_override_core self requested c risk phase :
  returns self (_handle_operator_override requested c risk phase) (fun d =>
    core d = if bool_decide (requested = AUTONOMOUS)
                && bool_decide (Spec.base phase = CRITICAL)
             then (BLOCK, c, "high", false, None)
             else (AUTO_SWITCH, requested, urgency_of_risk risk, false, None)).
Proof.
  unfold _handle_operator_override, PhaseRiskClassifier.is_autonomous_allowed, core.
  cbv zeta. rewrite get_risk_level_routine, urgency_map_get. cbn [rbind].
  destruct (bool_decide (requested = AUTONOMOUS)); cbn [andb].
  - eapply returns_bind_lift; [reflexivity |].
    destruct (bool_decide (Spec.base phase = CRITICAL)); cbn [negb];
      hoare_values; reflexivity.
  - hoare_values. reflexivity.
Qed.

Lemma _apply_safety_rules_core self c r risk phase bn_rec :
  returns self (_apply_safety_rules c r risk phase bn_rec) (fun o =>
    if bool_decide (risk = CRITICAL) && bool_decide (c = HUMAN)
       && (human_reliability bn_rec <? CRITICAL_LOW_THRESHOLD self)%float
    then exists d, o = Some d /\ core d = (NOTIFY, c, "critical", false, None)
    else if bool_decide (c = AUTONOMOUS) && bool_decide (r = HUMAN)
            && (autonomous_reliability bn_rec <? LOW_THRESHOLD self)%float
    then exists d, o = Some d /\ core d = (AUTO_SWITCH, HUMAN, "high", false, None)
    else o = None).
Proof.
  unfold _apply_safety_rules. apply returns_bind_gets.
  destruct (_ && _ && (_ <? CRITICAL_LOW_THRESHOLD self)%float).
  - hoare. eexists; split; reflexivity.
  - apply returns_bind_gets.
    destruct (_ && _ && (_ <? LOW_THRESHOLD self)%float).
    + hoare. eexists; split; reflexivity.
    + hoare. reflexivity.
Qed.


(** Where a returned decision comes from: the tier that produced it, with
    the decision core of that tier. *)
Lemma evaluate_mode_change_tiers self c bn_rec phase criticality elapsed override risk :
  PhaseRiskClassifier.get_risk_level phase criticality = Ok risk ->
  ensures self (evaluate_mode_change c bn_rec phase criticality elapsed override)
    (fun d =>
       (override = Some AUTONOMOUS /\ core d = (BLOCK, c, "high", false, None))
       \/ (exists requested, override = Some requested
             /\ core d = (AUTO_SWITCH, requested, urgency_of_risk risk, false, None))
       \/ (override = None /\ risk = CRITICAL /\ c = HUMAN
           /\ core d = (NOTIFY, c, "critical", false, None))
       \/ (override = None /\ c = AUTONOMOUS /\ recommended_mode bn_rec = HUMAN
           /\ core d = (AUTO_SWITCH, HUMAN, "high", false, None))
       \/ (override = None
           /\ (elapsed <? minimum_mode_duration self)%float = true
           /\ recommended_mode bn_rec <> c
           /\ core d = (NONE, c, "low", false, None))
       \/ (override = None
           /\ ((elapsed <? minimum_mode_duration self)%float = false
               \/ recommended_mode bn_rec = c)
           /\ core d = phase_core c (recommended_mode bn_rec) risk
                         (human_reliability bn_rec <? LOW_THRESHOLD self)%float)).
Proof.
  intros Hrisk. unfold evaluate_mode_change. cbv zeta.
  rewrite Hrisk. apply ensures_bind_lift. intros ? [= <-].
  destruct override as [requested |].
  - apply returns_ensures.
    eapply returns_mono; [apply _handle_operator_override_core |]. intros d.
    destruct (bool_decide_reflect (requested = AUTONOMOUS)) as [-> | ?]; cbn [andb];
      [destruct (bool_decide _) |]; intros H; eauto 6.
  - eapply ensures_bind; [apply returns_ensures, _apply_safety_rules_core |].
    intros o. destruct (_ && _ && (_ <? CRITICAL_LOW_THRESHOLD self)%float) eqn:Ea.
    { intros (d & -> & Hd). apply ensures_ret.
      apply andb_prop in Ea as [Ea _]. apply andb_prop in Ea as [E1 E2].
      apply bool_decide_eq_true in E1, E2. right; right; left. auto. }
    destruct (_ && _ && (_ <? LOW_THRESHOLD self)%float) eqn:Eb.
    { intros (d & -> & Hd). apply ensures_ret.
      apply andb_prop in Eb as [Eb _]. apply andb_prop in Eb as [E1 E2].
      apply bool_decide_eq_true in E1, E2. right; right; right; left. auto. }
    intros ->. apply ensures_bind_gets.
    assert (Hphase : forall w,
      w = false \/ recommended_mode bn_rec = c ->
      ensures self
        (_apply_phase_rules c (recommended_mode bn_rec) risk phase bn_rec)
        (fun d =>
           (None = Some AUTONOMOUS /\ core d = (BLOCK, c, "high", false, None))
           \/ (exists requested, None = Some requested
                 /\ core d = (AUTO_SWITCH, requested, urgency_of_risk risk, false, None))
           \/ (None = (None : option ControlMode) /\ risk = CRITICAL /\ c = HUMAN
               /\ core d = (NOTIFY, c, "critical", false, None))
           \/ (None = (None : option ControlMode) /\ c = AUTONOMOUS
               /\ recommended_mode bn_rec = HUMAN
               /\ core d = (AUTO_SWITCH, HUMAN, "high", false, None))
           \/ (None = (None : option ControlMode) /\ w = true
               /\ recommended_mode bn_rec <> c
               /\ core d = (NONE, c, "low", false, None))
           \/ (None = (None : option ControlMode)
               /\ (w = false \/ recommended_mode bn_rec = c)
               /\ core d = phase_core c (recommended_mode bn_rec) risk
                             (human_reliability bn_rec <? LOW_THRESHOLD self)%float))).
    { intros w Hw. apply returns_ensures.
      eapply returns_mono; [apply _apply_phase_rules_core |].
      intros d Hd. do 5 right. auto. }
    destruct (elapsed <? _)%float; [| apply Hphase; auto].
    destruct (bool_decide_reflect (recommended_mode bn_rec = c)); cbn [negb];
      [apply Hphase; auto |].
    apply ensures_bind_lift. intros z _.
    apply ensures_bind_gets, ensures_ret. do 4 right. left. auto.
Qed.

Lemma run_tiers self c bn_rec phase criticality elapsed override d :
  run (evaluate_mode_change c bn_rec phase criticality elapsed override) self = Ok d ->
  exists risk,
    PhaseRiskClassifier.get_risk_level phase criticality = Ok risk
    /\ ((override = Some AUTONOMOUS /\ core d = (BLOCK, c, "high", false, None))
        \/ (exists requested, override = Some requested
              /\ core d = (AUTO_SWITCH, requested, urgency_of_risk risk, false, None))
        \/ (override = None /\ risk = CRITICAL /\ c = HUMAN
            /\ core d = (NOTIFY, c, "critical", false, None))
        \/ (override = None /\ c = AUTONOMOUS /\ recommended_mode bn_rec = HUMAN
            /\ core d = (AUTO_SWITCH, HUMAN, "high", false, None))
        \/ (override = None
            /\ (elapsed <? minimum_mode_duration self)%float = true
            /\ recommended_mode bn_rec <> c
            /\ core d = (NONE, c, "low", false, None))
        \/ (override = None
            /\ ((elapsed <? minimum_mode_duration self)%float = false
                \/ recommended_mode bn_rec = c)
            /\ core d = phase_core c (recommended_mode bn_rec) risk
                          (human_reliability bn_rec <? LOW_THRESHOLD self)%float)).
Proof.
  intros Hrun. destruct (get_risk_level_total phase criticality) as [risk Hrisk].
  exists risk. split; [exact Hrisk |].
  exact (ensures_run _ _ _ _ (evaluate_mode_change_tiers self c bn_rec phase criticality
                                elapsed override risk Hrisk) Hrun).
Qed.

(** ** The risk classifier *)

(** X1: the effective risk level is never below the level of the phase
    (MEDIUM for a phase the table does not have) and never above
    CRITICAL, for every phase and criticality string. *)
Theorem get_risk_level_between_base_and_critical phase criticality :
  exists risk,
    PhaseRiskClassifier.get_risk_level phase criticality = Ok risk
    /\ PhaseRiskLevel_.value
         (default MEDIUM (PhaseRiskClassifier.PHASE_RISK_MAP !! phase))
       <= PhaseRiskLevel_.value risk <= PhaseRiskLevel_.value CRITICAL.
Proof.
  unfold PhaseRiskClassifier.get_risk_level.
  rewrite PHASE_RISK_MAP_get, CRITICALITY_MODIFIER_get.
  destruct (modifier_cases criticality) as [-> | [-> | ->]];
    destruct (Spec.base phase); eexists; (split; [reflexivity | cbn; lia]).
Qed.

(** X2: [is_autonomous_allowed] never raises, and it is true exactly
    when the value of the phase's level plus the criticality modifier stays
    below the value of CRITICAL. *)
Theorem is_autonomous_allowed_closed_form phase criticality :
  PhaseRiskClassifier.is_autonomous_allowed phase criticality
  = Ok (PhaseRiskLevel_.value
          (default MEDIUM (PhaseRiskClassifier.PHASE_RISK_MAP !! phase))
        + default 0 (PhaseRiskClassifier.CRITICALITY_MODIFIER !! criticality)
        <? PhaseRiskLevel_.value CRITICAL).
Proof.
  unfold PhaseRiskClassifier.is_autonomous_allowed, PhaseRiskClassifier.get_risk_level.
  rewrite PHASE_RISK_MAP_get, CRITICALITY_MODIFIER_get.
  destruct (modifier_cases criticality) as [-> | [-> | ->]];
    destruct (Spec.base phase); reflexivity.
Qed.

(** ** Invariants of the returned decision *)

(** X3: the operator can decline exactly the decisions that ask or
    suggest: a returned decision has [allow_decline] true if and only if
    its action is ASK or SUGGEST, with or without an override. *)
Theorem allow_decline_iff_ask_or_suggest self c bn_rec phase criticality elapsed
    override d :
  run (evaluate_mode_change c bn_rec phase criticality elapsed override) self = Ok d ->
  allow_decline d = true <-> action_type d = ASK \/ action_type d = SUGGEST.
Proof.
  intros Hrun.
  destruct (run_tiers _ _ _ _ _ _ _ _ Hrun)
    as (risk & _ & [(_ & H) | [(? & _ & H) | [(_ & _ & _ & H) | [(_ & _ & _ & H)
          | [(_ & _ & _ & H) | (_ & _ & H)]]]]]).
  1-5: by_core H; split; [congruence | intros [|]; congruence].
  by_phase_table H c (recommended_mode bn_rec) risk;
    (split; [intros; first [congruence | left; congruence | right; congruence]
            | intros [|]; congruence]).
Qed.

Lemma allow_decline_iff_ask_or_suggest_witness :
  exists d,
    run (evaluate_mode_change HUMAN (docking_rec 0.7 0.9 0.65 None) "Undocking"
           "Routine" 200 None) __init__ = Ok d
    /\ (allow_decline d = true <-> action_type d = ASK \/ action_type d = SUGGEST).
Proof.
  assert (H : exists d,
    run (evaluate_mode_change HUMAN (docking_rec 0.7 0.9 0.65 None) "Undocking"
           "Routine" 200 None) __init__ = Ok d)
    by (vm_compute; eexists; reflexivity).
  destruct H as [d Hd]. exists d. split; [exact Hd |].
  exact (allow_decline_iff_ask_or_suggest __init__ HUMAN (docking_rec 0.7 0.9 0.65 None)
           "Undocking" "Routine" 200 None d Hd).
Defined.

(** X4: every decision that asks carries a timeout of 30, 45 or 60
    seconds, and only decisions that ask or suggest carry a timeout. *)
Theorem timeout_only_when_asked self c bn_rec phase criticality elapsed override d :
  run (evaluate_mode_change c bn_rec phase criticality elapsed override) self = Ok d ->
  (action_type d = ASK ->
   timeout_seconds d = Some 30 \/ timeout_seconds d = Some 45
   \/ timeout_seconds d = Some 60)
  /\ (timeout_seconds d <> None -> action_type d = ASK \/ action_type d = SUGGEST).
Proof.
  intros Hrun.
  destruct (run_tiers _ _ _ _ _ _ _ _ Hrun)
    as (risk & _ & [(_ & H) | [(? & _ & H) | [(_ & _ & _ & H) | [(_ & _ & _ & H)
          | [(_ & _ & _ & H) | (_ & _ & H)]]]]]).
  1-5: by_core H; split; intros; congruence.
  by_phase_table H c (recommended_mode bn_rec) risk;
    (split; intros;
     first [ congruence | left; congruence | right; left; congruence
           | right; right; congruence | right; congruence ]).
Qed.

Lemma timeout_only_when_asked_witness :
  exists d,
    run (evaluate_mode_change HUMAN (docking_rec 0.7 0.9 0.65 None) "Inspection"
           "Important" 200 None) __init__ = Ok d
    /\ (action_type d = ASK ->
        timeout_seconds d = Some 30 \/ timeout_seconds d = Some 45
        \/ timeout_seconds d = Some 60)
    /\ (timeout_seconds d <> None -> action_type d = ASK \/ action_type d = SUGGEST).
Proof.
  assert (H : exists d,
    run (evaluate_mode_change HUMAN (docking_rec 0.7 0.9 0.65 None) "Inspection"
           "Important" 200 None) __init__ = Ok d)
    by (vm_compute; eexists; reflexivity).
  destruct H as [d Hd]. exists d. split; [exact Hd |].
  exact (timeout_only_when_asked __init__ HUMAN (docking_rec 0.7 0.9 0.65 None)
           "Inspection" "Important" 200 None d Hd).
Defined.

(** X5: the urgency of a returned decision is one of "low", "medium",
    "high" and "critical". *)
Theorem urgency_is_a_level self c bn_rec phase criticality elapsed override d :
  run (evaluate_mode_change c bn_rec phase criticality elapsed override) self = Ok d ->
  urgency d = "low" \/ urgency d = "medium" \/ urgency d = "high"
  \/ urgency d = "critical".
Proof.
  intros Hrun.
  destruct (run_tiers _ _ _ _ _ _ _ _ Hrun)
    as (risk & _ & [(_ & H) | [(? & _ & H) | [(_ & _ & _ & H) | [(_ & _ & _ & H)
          | [(_ & _ & _ & H) | (_ & _ & H)]]]]]).
  1, 3-5: by_core H; tauto.
  - by_core H. destruct risk; cbn [urgency_of_risk] in *; tauto.
  - by_phase_table H c (recommended_mode bn_rec) risk; tauto.
Qed.

Lemma urgency_is_a_level_witness :
  exists d,
    run (evaluate_mode_change SHARED (docking_rec 0.7 0.9 0.65 None) "Transit"
           "Critical" 500 (Some HUMAN)) __init__ = Ok d
    /\ (urgency d = "low" \/ urgency d = "medium" \/ urgency d = "high"
        \/ urgency d = "critical").
Proof.
  assert (H : exists d,
    run (evaluate_mode_change SHARED (docking_rec 0.7 0.9 0.65 None) "Transit"
           "Critical" 500 (Some HUMAN)) __init__ = Ok d)
    by (vm_compute; eexists; reflexivity).
  destruct H as [d Hd]. exists d. split; [exact Hd |].
  exact (urgency_is_a_level __init__ SHARED (docking_rec 0.7 0.9 0.65 None)
           "Transit" "Critical" 500 (Some HUMAN) d Hd).
Defined.

(** X6: at effective risk CRITICAL and without an override, no returned
    decision asks for a transition (AUTO_SWITCH, ASK, SUGGEST) to
    AUTONOMOUS. *)
Theorem no_transition_to_autonomous_at_critical_risk self c bn_rec phase criticality
    elapsed d :
  PhaseRiskClassifier.get_risk_level phase criticality = Ok CRITICAL ->
  run (evaluate_mode_change c bn_rec phase criticality elapsed None) self = Ok d ->
  requests_transition (action_type d) ->
  target_mode d <> AUTONOMOUS.
Proof.
  intros Hrisk Hrun. unfold requests_transition.
  destruct (run_tiers _ _ _ _ _ _ _ _ Hrun)
    as (risk & Hrisk' & [(? & H) | [(? & ? & H) | [(_ & _ & _ & H) | [(_ & _ & _ & H)
          | [(_ & _ & _ & H) | (_ & _ & H)]]]]]); try discriminate.
  1-3: by_core H; intros [|[|]]; congruence.
  assert (risk = CRITICAL) as -> by congruence.
  unfold phase_core, core in H. revert H.
  destruct c, (recommended_mode bn_rec); decide_eqs; intros [= ? ? ? ? ?];
    intros [|[|]]; congruence.
Qed.

Lemma no_transition_to_autonomous_at_critical_risk_witness :
  exists d,
    PhaseRiskClassifier.get_risk_level "Docking" "Routine" = Ok CRITICAL
    /\ run (evaluate_mode_change HUMAN shared_rec "Docking" "Routine" 200 None) __init__
       = Ok d
    /\ requests_transition (action_type d)
    /\ target_mode d <> AUTONOMOUS.
Proof.
  assert (H1 : PhaseRiskClassifier.get_risk_level "Docking" "Routine" = Ok CRITICAL)
    by reflexivity.
  assert (H : exists d,
    run (evaluate_mode_change HUMAN shared_rec "Docking" "Routine" 200 None) __init__
    = Ok d /\ requests_transition (action_type d))
    by (vm_compute; eexists; split; [reflexivity | right; left; reflexivity]).
  destruct H as (d & Hd & Ht). exists d.
  split; [exact H1 |]. split; [exact Hd |]. split; [exact Ht |].
  exact (no_transition_to_autonomous_at_critical_risk __init__ HUMAN shared_rec
           "Docking" "Routine" 200 d H1 Hd Ht).
Defined.

(** X7: without an override, the engine switches on its own only to
    HUMAN, or to AUTONOMOUS when the effective risk is SAFE. *)
Theorem auto_switch_targets self c bn_rec phase criticality elapsed d :
  run (evaluate_mode_change c bn_rec phase criticality elapsed None) self = Ok d ->
  action_type d = AUTO_SWITCH ->
  target_mode d = HUMAN
  \/ (target_mode d = AUTONOMOUS
      /\ PhaseRiskClassifier.get_risk_level phase criticality = Ok SAFE).
Proof.
  intros Hrun.
  destruct (run_tiers _ _ _ _ _ _ _ _ Hrun)
    as (risk & Hrisk & [(? & H) | [(? & ? & H) | [(_ & _ & _ & H) | [(_ & _ & _ & H)
          | [(_ & _ & _ & H) | (_ & _ & H)]]]]]); try discriminate.
  1-3: by_core H; intros; first [congruence | left; congruence].
  by_phase_table H c (recommended_mode bn_rec) risk; intros;
    first [congruence | left; congruence | right; split; congruence].
Qed.

Lemma auto_switch_targets_witness :
  exists d,
    run (evaluate_mode_change HUMAN (docking_rec 0.7 0.9 0.65 None) "Charging"
           "Routine" 130 None) __init__ = Ok d
    /\ action_type d = AUTO_SWITCH
    /\ (target_mode d = HUMAN
        \/ (target_mode d = AUTONOMOUS
            /\ PhaseRiskClassifier.get_risk_level "Charging" "Routine" = Ok SAFE)).
Proof.
  assert (H : exists d,
    run (evaluate_mode_change HUMAN (docking_rec 0.7 0.9 0.65 None) "Charging"
           "Routine" 130 None) __init__ = Ok d /\ action_type d = AUTO_SWITCH)
    by (vm_compute; eexists; split; reflexivity).
  destruct H as (d & Hd & Ha). exists d.
  split; [exact Hd |]. split; [exact Ha |].
  exact (auto_switch_targets __init__ HUMAN (docking_rec 0.7 0.9 0.65 None)
           "Charging" "Routine" 130 d Hd Ha).
Defined.

(** X8: inside the minimum mode duration and without an override, the
    only decisions are NONE and NOTIFY, both keeping the current mode, and
    AUTO_SWITCH to HUMAN. *)
Theorem inside_window_decisions self c bn_rec phase criticality elapsed d :
  run (evaluate_mode_change c bn_rec phase criticality elapsed None) self = Ok d ->
  (elapsed <? minimum_mode_duration self)%float = true ->
  (action_type d = NONE /\ target_mode d = c)
  \/ (action_type d = NOTIFY /\ target_mode d = c)
  \/ (action_type d = AUTO_SWITCH /\ target_mode d = HUMAN).
Proof.
  intros Hrun Hwin.
  destruct (run_tiers _ _ _ _ _ _ _ _ Hrun)
    as (risk & Hrisk & [(? & H) | [(? & ? & H) | [(_ & _ & _ & H) | [(_ & _ & _ & H)
          | [(_ & _ & _ & H) | (_ & [Hw | Hw] & H)]]]]]); try discriminate;
    try congruence.
  1-3: by_core H; auto.
  rewrite Hw in H. unfold phase_core in H.
  rewrite (bool_decide_eq_true_2 (c = c)) in H by reflexivity.
  by_core H. auto.
Qed.

Lemma inside_window_decisions_witness :
  exists d,
    run (evaluate_mode_change HUMAN (docking_rec 0.7 0.9 0.65 None) "Transit"
           "Routine" 30 None) __init__ = Ok d
    /\ (30 <? minimum_mode_duration __init__)%float = true
    /\ ((action_type d = NONE /\ target_mode d = HUMAN)
        \/ (action_type d = NOTIFY /\ target_mode d = HUMAN)
        \/ (action_type d = AUTO_SWITCH /\ target_mode d = HUMAN)).
Proof.
  assert (H : exists d,
    run (evaluate_mode_change HUMAN (docking_rec 0.7 0.9 0.65 None) "Transit"
           "Routine" 30 None) __init__ = Ok d)
    by (vm_compute; eexists; reflexivity).
  assert (Hw : (30 <? minimum_mode_duration __init__)%float = true) by reflexivity.
  destruct H as [d Hd]. exists d. split; [exact Hd |]. split; [exact Hw |].
  exact (inside_window_decisions __init__ HUMAN (docking_rec 0.7 0.9 0.65 None)
           "Transit" "Routine" 30 d Hd Hw).
Defined.

(** X9: a returned BLOCK keeps the current mode, and it comes either from
    an override to AUTONOMOUS or, without an override, from a
    recommendation of AUTONOMOUS to a human operator at effective risk
    CRITICAL. *)
Theorem block_only_for_autonomous self c bn_rec phase criticality elapsed override d :
  run (evaluate_mode_change c bn_rec phase criticality elapsed override) self = Ok d ->
  action_type d = BLOCK ->
  target_mode d = c
  /\ (override = Some AUTONOMOUS
      \/ (override = None /\ recommended_mode bn_rec = AUTONOMOUS /\ c = HUMAN
          /\ PhaseRiskClassifier.get_risk_level phase criticality = Ok CRITICAL)).
Proof.
  intros Hrun.
  destruct (run_tiers _ _ _ _ _ _ _ _ Hrun)
    as (risk & Hrisk & [(? & H) | [(? & ? & H) | [(_ & _ & _ & H) | [(_ & _ & _ & H)
          | [(_ & _ & _ & H) | (Ho & _ & H)]]]]]).
  1-5: by_core H; intros; first [congruence | split; [congruence | left; assumption]].
  unfold phase_core, core in H. revert H.
  destruct (recommended_mode bn_rec) eqn:Hrec, c, risk; decide_eqs;
    try match goal with
      | |- context [if (?x <? ?y)%float then _ else _] => destruct (x <? y)%float
      end;
    intros [= ? ? ? ? ?]; intros; first [congruence | split; [congruence | right; auto]].
Qed.

Lemma block_only_for_autonomous_witness :
  exists d,
    run (evaluate_mode_change HUMAN (docking_rec 0.7 0.9 0.65 None) "Docking"
           "Routine" 200 None) __init__ = Ok d
    /\ action_type d = BLOCK
    /\ target_mode d = HUMAN
    /\ ((None : option ControlMode) = Some AUTONOMOUS
        \/ ((None : option ControlMode) = None
            /\ recommended_mode (docking_rec 0.7 0.9 0.65 None) = AUTONOMOUS
            /\ HUMAN = HUMAN
            /\ PhaseRiskClassifier.get_risk_level "Docking" "Routine" = Ok CRITICAL)).
Proof.
  assert (H : exists d,
    run (evaluate_mode_change HUMAN (docking_rec 0.7 0.9 0.65 None) "Docking"
           "Routine" 200 None) __init__ = Ok d /\ action_type d = BLOCK)
    by (vm_compute; eexists; split; reflexivity).
  destruct H as (d & Hd & Ha). exists d.
  split; [exact Hd |]. split; [exact Ha |].
  exact (block_only_for_autonomous __init__ HUMAN (docking_rec 0.7 0.9 0.65 None)
           "Docking" "Routine" 200 None d Hd Ha).
Defined.

(** ** Single tiers *)

(** X10: a recommendation equal to the current mode never changes the
    mode: without an override the call returns, for every elapsed time, a
    decision whose target is the current mode and whose action is NONE or
    NOTIFY. *)
Theorem same_recommendation_keeps_mode self c bn_rec phase criticality elapsed :
  recommended_mode bn_rec = c ->
  returns self (evaluate_mode_change c bn_rec phase criticality elapsed None)
    (fun d => target_mode d = c /\ (action_type d = NONE \/ action_type d = NOTIFY)).
Proof.
  intros Hrec. unfold evaluate_mode_change. cbv zeta. rewrite Hrec.
  destruct (get_risk_level_total phase criticality) as [risk ->].
  eapply returns_bind_lift; [reflexivity |].
  eapply returns_bind; [apply _apply_safety_rules_core |]. intros o.
  destruct (_ && _ && (_ <? CRITICAL_LOW_THRESHOLD self)%float).
  { intros (d & -> & H). apply returns_ret. by_core H. auto. }
  replace (bool_decide (c = AUTONOMOUS) && bool_decide (c = HUMAN)) with false
    by (destruct c; reflexivity).
  cbn [andb]. intros ->. apply returns_bind_gets.
  rewrite (bool_decide_eq_true_2 (c = c)) by reflexivity. cbn [negb].
  assert (Hphase : returns self (_apply_phase_rules c c risk phase bn_rec)
            (fun d => target_mode d = c
                      /\ (action_type d = NONE \/ action_type d = NOTIFY))).
  { eapply returns_mono; [apply _apply_phase_rules_core |]. intros d H.
    unfold phase_core in H. rewrite (bool_decide_eq_true_2 (c = c)) in H by reflexivity.
    by_core H. auto. }
  destruct (elapsed <? _)%float; exact Hphase.
Qed.

Lemma same_recommendation_keeps_mode_witness :
  recommended_mode (docking_rec 0.7 0.9 0.65 None) = AUTONOMOUS
  /\ returns __init__
       (evaluate_mode_change AUTONOMOUS (docking_rec 0.7 0.9 0.65 None) "Inspection"
          "Important" 12 None)
       (fun d => target_mode d = AUTONOMOUS
                 /\ (action_type d = NONE \/ action_type d = NOTIFY)).
Proof.
  assert (H : recommended_mode (docking_rec 0.7 0.9 0.65 None) = AUTONOMOUS)
    by reflexivity.
  split; [exact H |].
  exact (same_recommendation_keeps_mode __init__ AUTONOMOUS
           (docking_rec 0.7 0.9 0.65 None) "Inspection" "Important" 12 H).
Defined.

Lemma _apply_safety_rules_rule_A self r phase bn_rec :
  (human_reliability bn_rec <? CRITICAL_LOW_THRESHOLD self)%float = true ->
  returns self (_apply_safety_rules HUMAN r CRITICAL phase bn_rec) (fun o =>
    exists d, o = Some d
      /\ action_type d = NOTIFY /\ target_mode d = HUMAN
      /\ urgency d = "critical" /\ allow_decline d = false
      /\ reasons d !! "human_reliability" = Some (VFloat (human_reliability bn_rec))
      /\ reasons d !! "threshold" = Some (VFloat (CRITICAL_LOW_THRESHOLD self))).
Proof.
  intros Hlow. unfold _apply_safety_rules. apply returns_bind_gets.
  decide_eqs. rewrite Hlow.
  apply returns_bind_gets, returns_ret. eexists. repeat split; reflexivity.
Qed.

(** X11: hard safety rule A.  On the engine as constructed, at effective
    risk CRITICAL with the current mode HUMAN and human reliability below
    0.5, the call without an override returns NOTIFY for the current mode
    with urgency "critical", whatever the recommended mode and the elapsed
    time; its reasons hold the measured reliability and the threshold
    0.5. *)
Theorem rule_A_notifies bn_rec phase criticality elapsed :
  PhaseRiskClassifier.get_risk_level phase criticality = Ok CRITICAL ->
  (human_reliability bn_rec <? 0.5)%float = true ->
  returns __init__ (evaluate_mode_change HUMAN bn_rec phase criticality elapsed None)
    (fun d => action_type d = NOTIFY /\ target_mode d = HUMAN
              /\ urgency d = "critical" /\ allow_decline d = false
              /\ reasons d !! "human_reliability"
                 = Some (VFloat (human_reliability bn_rec))
              /\ reasons d !! "threshold" = Some (VFloat 0.5)).
Proof.
  intros Hrisk Hlow. unfold evaluate_mode_change. cbv zeta. rewrite Hrisk.
  eapply returns_bind_lift; [reflexivity |].
  eapply returns_bind; [exact (_apply_safety_rules_rule_A __init__ _ _ _ Hlow) |].
  intros o (d & -> & H). apply returns_ret. exact H.
Qed.

Lemma rule_A_notifies_witness :
  PhaseRiskClassifier.get_risk_level "Inspection" "Critical" = Ok CRITICAL
  /\ (human_reliability (docking_rec 0.7 0.3 0.65 None) <? 0.5)%float = true
  /\ returns __init__
       (evaluate_mode_change HUMAN (docking_rec 0.7 0.3 0.65 None) "Inspection"
          "Critical" 10 None)
       (fun d => action_type d = NOTIFY /\ target_mode d = HUMAN
                 /\ urgency d = "critical" /\ allow_decline d = false
                 /\ reasons d !! "human_reliability"
                    = Some (VFloat (human_reliability (docking_rec 0.7 0.3 0.65 None)))
                 /\ reasons d !! "threshold" = Some (VFloat 0.5)).
Proof.
  assert (H1 : PhaseRiskClassifier.get_risk_level "Inspection" "Critical" = Ok CRITICAL)
    by reflexivity.
  assert (H2 : (human_reliability (docking_rec 0.7 0.3 0.65 None) <? 0.5)%float = true)
    by reflexivity.
  split; [exact H1 |]. split; [exact H2 |].
  exact (rule_A_notifies (docking_rec 0.7 0.3 0.65 None) "Inspection" "Critical" 10
           H1 H2).
Defined.

Lemma _handle_high_risk_phase_ask self phase bn_rec :
  returns self (_handle_high_risk_phase HUMAN AUTONOMOUS phase bn_rec) (fun d =>
    action_type d = ASK /\ target_mode d = AUTONOMOUS /\ allow_decline d = true
    /\ timeout_seconds d = Some 45
    /\ urgency d = (if (human_reliability bn_rec <? LOW_THRESHOLD self)%float
                    then "high" else "medium")
    /\ reasons d !! "fatigue_warning"
       = Some (VBool (human_reliability bn_rec <? LOW_THRESHOLD self)%float)).
Proof.
  unfold _handle_high_risk_phase. decide_eqs. apply returns_bind_gets.
  destruct (human_reliability bn_rec <? LOW_THRESHOLD self)%float eqn:Hf;
    cbv beta iota;
    (eapply returns_bind; [apply _generate_explanation_returns | intros ? _]);
    apply returns_bind_gets, returns_ret; rewrite Hf; repeat split; reflexivity.
Qed.

(** X12: the HIGH-risk row for a human operator.  On the engine as
    constructed, at effective risk HIGH, outside the 120 s window, with the
    current mode HUMAN and AUTONOMOUS recommended, the decision is ASK for
    AUTONOMOUS with a 45 s timeout, declinable; its urgency is "high" and
    its reasons flag fatigue exactly when the human reliability is below
    0.6, otherwise the urgency is "medium". *)
Theorem high_risk_asks_the_operator bn_rec phase criticality elapsed :
  PhaseRiskClassifier.get_risk_level phase criticality = Ok HIGH ->
  recommended_mode bn_rec = AUTONOMOUS ->
  (elapsed <? 120)%float = false ->
  returns __init__ (evaluate_mode_change HUMAN bn_rec phase criticality elapsed None)
    (fun d =>
       action_type d = ASK /\ target_mode d = AUTONOMOUS /\ allow_decline d = true
       /\ timeout_seconds d = Some 45
       /\ urgency d = (if (human_reliability bn_rec <? 0.6)%float
                       then "high" else "medium")
       /\ reasons d !! "fatigue_warning"
          = Some (VBool (human_reliability bn_rec <? 0.6)%float)).
Proof.
  intros Hrisk Hrec Hwin. unfold evaluate_mode_change. cbv zeta. rewrite Hrisk, Hrec.
  eapply returns_bind_lift; [reflexivity |].
  eapply returns_bind; [apply _apply_safety_rules_core |]. intros o.
  decide_eqs. intros ->. apply returns_bind_gets.
  change (minimum_mode_duration __init__) with 120%float. rewrite Hwin.
  unfold _apply_phase_rules. decide_eqs.
  exact (_handle_high_risk_phase_ask __init__ phase bn_rec).
Qed.

Lemma high_risk_asks_the_operator_witness :
  PhaseRiskClassifier.get_risk_level "Undocking" "Routine" = Ok HIGH
  /\ recommended_mode (docking_rec 0.7 0.5 0.9 None) = AUTONOMOUS
  /\ (200 <? 120)%float = false
  /\ returns __init__
       (evaluate_mode_change HUMAN (docking_rec 0.7 0.5 0.9 None) "Undocking" "Routine"
          200 None)
       (fun d =>
          action_type d = ASK /\ target_mode d = AUTONOMOUS /\ allow_decline d = true
          /\ timeout_seconds d = Some 45
          /\ urgency d = (if (human_reliability (docking_rec 0.7 0.5 0.9 None) <? 0.6)%float
                          then "high" else "medium")
          /\ reasons d !! "fatigue_warning"
             = Some (VBool (human_reliability (docking_rec 0.7 0.5 0.9 None) <? 0.6)%float)).
Proof.
  assert (H1 : PhaseRiskClassifier.get_risk_level "Undocking" "Routine" = Ok HIGH)
    by reflexivity.
  assert (H2 : recommended_mode (docking_rec 0.7 0.5 0.9 None) = AUTONOMOUS)
    by reflexivity.
  assert (H3 : (200 <? 120)%float = false) by reflexivity.
  repeat (split; [assumption |]).
  exact (high_risk_asks_the_operator (docking_rec 0.7 0.5 0.9 None) "Undocking"
           "Routine" 200 H1 H2 H3).
Defined.



(** X14: the diagnosis is never empty, and it holds the generic factor
    exactly when neither specific condition applies (autonomous reliability
    below 0.6, docking reliability present and below 0.7). *)
Theorem diagnosis_never_empty self bn_rec :
  returns self (_diagnose_autonomous_degradation bn_rec) (fun factors =>
    factors <> []
    /\ (In "Minor performance degradation detected" factors
        <-> (autonomous_reliability bn_rec <? 0.6)%float = false
            /\ match docking_reliability bn_rec with
               | Some dr => (dr <? 0.7)%float = false
               | None => True
               end)).
Proof.
  unfold _diagnose_autonomous_degradation. cbv zeta. apply returns_ret.
  destruct (autonomous_reliability bn_rec <? 0.6)%float;
    destruct (docking_reliability bn_rec) as [dr |];
    try destruct (dr <? 0.7)%float;
    (split; [discriminate |]); cbn [app In String.append];
    (split; [intros H | intros [H1 H2]]);
    try discriminate; try (split; [reflexivity | trivial; reflexivity]); auto;
    repeat match type of H with
      | _ \/ _ => destruct H as [H | H]
      | False => destruct H
      | _ = _ => discriminate H
      end.
Qed.

(** X15: an operator override to HUMAN or to SHARED is always accepted:
    for every engine, phase, criticality, recommendation and elapsed time
    the decision is AUTO_SWITCH to the requested mode, not declinable and
    with no timeout. *)
Theorem override_away_from_autonomous_is_accepted self c bn_rec phase criticality
    elapsed requested :
  requested <> AUTONOMOUS ->
  returns self
    (evaluate_mode_change c bn_rec phase criticality elapsed (Some requested))
    (fun d => action_type d = AUTO_SWITCH /\ target_mode d = requested
              /\ allow_decline d = false /\ timeout_seconds d = None).
Proof.
  intros Hreq. unfold evaluate_mode_change. cbv zeta.
  destruct (get_risk_level_total phase criticality) as [risk ->].
  eapply returns_bind_lift; [reflexivity |].
  eapply returns_mono; [apply _handle_operator_override_core |]. intros d.
  rewrite (bool_decide_eq_false_2 _ Hreq). cbn [andb]. intros H. by_core H. auto.
Qed.

Lemma override_away_from_autonomous_is_accepted_witness :
  SHARED <> AUTONOMOUS
  /\ returns __init__
       (evaluate_mode_change HUMAN (docking_rec 0.7 0.3 0.65 None) "Docking" "Critical"
          3 (Some SHARED))
       (fun d => action_type d = AUTO_SWITCH /\ target_mode d = SHARED
                 /\ allow_decline d = false /\ timeout_seconds d = None).
Proof.
  assert (H : SHARED <> AUTONOMOUS) by discriminate.
  split; [exact H |].
  exact (override_away_from_autonomous_is_accepted __init__ HUMAN
           (docking_rec 0.7 0.3 0.65 None) "Docking" "Critical" 3 SHARED H).
Defined.
End EngineTable.

(** * The node *)

Section NodeEffects.
Import AuthorityRules ModeArbitrator.
Implicit Types (self after : ModeArbitratorNode) (d : AuthorityDecision).

Lemma set_rule_engine_same self : set_rule_engine (rule_engine self) self = self.
Proof. destruct self; reflexivity. Qed.

(** A call into an engine that the call leaves as it was. *)
Lemma call_engine_unchanged {A} (m : SE AuthorityRuleEngine A) self r :
  m (rule_engine self) = (rule_engine self, r) -> call_engine m self = (self, r).
Proof. intros H. unfold call_engine. rewrite H, set_rule_engine_same. reflexivity. Qed.

Lemma same_config_refl (s : AuthorityRuleEngine) : same_config s s.
Proof. repeat split. Qed.

(** ** What each helper of the node changes *)

Lemma _log_decision_effect decision_type d self :
  exists out,
    _log_decision decision_type d self
    = (set_outbox out
         (set_decision_log (decision_log self ++ [decision_entry decision_type d self])
            self), Ok tt).
Proof.
  unfold _log_decision, _save_logs, emit, bind, gets, modify, ret. cbn [fst snd].
  match goal with
  | |- context [if (?x =? ?y)%Z then _ else _] => destruct (x =? y)%Z
  end; eexists; destruct self; reflexivity.
Qed.

Lemma _execute_mode_change_effect now new_mode reason self :
  exists out,
    _execute_mode_change now new_mode reason self
    = (set_outbox out
         (set_mode_change_log
            (mode_change_log self ++ [mode_change_entry self new_mode reason])
            (set_last_mode_change_time now (set_current_mode new_mode self))), Ok tt).
Proof.
  unfold _execute_mode_change, emit, bind, gets, modify, ret.
  eexists. destruct self; reflexivity.
Qed.

Lemma _request_operator_decision_effect now d self :
  exists out,
    _request_operator_decision now d self
    = (set_outbox out (set_pending (Some d) (Some now) self), Ok tt).
Proof.
  unfold _request_operator_decision, emit, bind, gets, modify, ret.
  eexists. destruct self; reflexivity.
Qed.

Lemma _send_ui_message_effect message urgency self :
  _send_ui_message message urgency self
  = (set_outbox (outbox self ++ [PublishInfoMessage message urgency]) self, Ok tt).
Proof. reflexivity. Qed.

Lemma _send_ui_request_effect d self :
  exists out, _send_ui_request d self = (set_outbox out self, Ok tt).
Proof. unfold _send_ui_request, emit, bind, gets, modify. eexists. reflexivity. Qed.

End NodeEffects.

(** Rewrites the next call of [_log_decision] to its effect. *)
Ltac log_effect :=
  match goal with
  | |- context [ModeArbitrator._log_decision ?t ?x ?s] =>
      let out := fresh "out" in destruct (_log_decision_effect t x s) as (out & ->)
  end.

Section NodeDecisions.
Import AuthorityRules ModeArbitrator.
Implicit Types (self after : ModeArbitratorNode) (d : AuthorityDecision).

(** What executing a decision changes, attribute by attribute. *)
Lemma _execute_decision_effect now d self :
  exists after, _execute_decision now d self = (after, Ok tt) /\ executed now d self after.
Proof.
  unfold _execute_decision, executed.
  destruct (action_type d) eqn:E; decide_eqs; unfold bind.
  - destruct (_execute_mode_change_effect now (target_mode d) (message d) self)
      as (o1 & ->).
    rewrite _send_ui_message_effect. log_effect.
    eexists. split; [reflexivity |]. repeat split.
  - destruct (_request_operator_decision_effect now d self) as (o1 & ->). log_effect.
    eexists. split; [reflexivity |]. repeat split.
  - destruct (_send_ui_request_effect d self) as (o1 & ->). log_effect.
    eexists. split; [reflexivity |]. repeat split.
  - rewrite _send_ui_message_effect. log_effect.
    eexists. split; [reflexivity |]. repeat split.
  - rewrite _send_ui_message_effect. log_effect.
    eexists. split; [reflexivity |]. repeat split.
  - exists self. split; [reflexivity |]. repeat split.
Qed.

(** The outbox of the node a decision is executed on does not matter. *)
Lemma executed_outbox now d out self after :
  executed now d (set_outbox out self) after -> executed now d self after.
Proof. intros H. exact H. Qed.

(** The engine's call in the arbitration loop leaves the engine as it was;
    the loop then executes the decision, or passes on what the engine
    raised. *)
Lemma arbitration_loop_unfold now self mode :
  latest_bn_recommendation self = Some mode ->
  exists r,
    evaluate_mode_change (current_mode self) (loop_recommendation mode self)
      (current_phase self) (current_task_criticality self)
      (seconds_since_change now self) None (rule_engine self)
    = (rule_engine self, r)
    /\ arbitration_loop now self
       = match r with
         | Ok d => _execute_decision now d self
         | Raise e => (self, Raise e)
         end.
Proof.
  intros H. rewrite (arbitration_loop_recommendation now self mode H).
  destruct (evaluate_mode_change_pure (current_mode self) (loop_recommendation mode self)
              (current_phase self) (current_task_criticality self)
              (seconds_since_change now self) None
              (rule_engine self) (rule_engine self) (same_config_refl _))
    as (r & Hr & _).
  exists r. split; [exact Hr |].
  unfold bind. fold (loop_recommendation mode self). fold (seconds_since_change now self).
  rewrite (call_engine_unchanged _ _ _ Hr). destruct r; reflexivity.
Qed.

(** One run of the arbitration loop either leaves the node as it was (no
    recommendation yet, or the engine raised) or executes the decision the
    engine returned for the node's inputs. *)
Lemma arbitration_loop_cases now self :
  (exists r, arbitration_loop now self = (self, r))
  \/ (exists mode d after,
        latest_bn_recommendation self = Some mode
        /\ run (evaluate_mode_change (current_mode self) (loop_recommendation mode self)
                  (current_phase self) (current_task_criticality self)
                  (seconds_since_change now self) None) (rule_engine self) = Ok d
        /\ arbitration_loop now self = (after, Ok tt)
        /\ executed now d self after).
Proof.
  destruct (latest_bn_recommendation self) as [mode |] eqn:Hl.
  - destruct (arbitration_loop_unfold now self mode Hl) as ([d | e] & Hr & Hloop).
    + right. destruct (_execute_decision_effect now d self) as (after & Hex & Heff).
      exists mode, d, after. unfold run. rewrite Hr, Hloop. auto.
    + left. eauto.
  - left. exists (Ok tt). unfold arbitration_loop, bind, gets. rewrite Hl. reflexivity.
Qed.

Lemma is_autonomous_allowed_routine phase :
  PhaseRiskClassifier.is_autonomous_allowed phase "Routine"
  = Ok (negb (bool_decide (Spec.base phase = CRITICAL))).
Proof.
  unfold PhaseRiskClassifier.is_autonomous_allowed.
  rewrite get_risk_level_routine. reflexivity.
Qed.

(** A mapped override token: the engine's override handler decides from
    the requested mode and the phase alone, and the node executes that
    decision. *)
Lemma operator_override_callback_mapped now msg self requested :
  mode_map !! lower msg = Some requested ->
  exists risk d after,
    PhaseRiskClassifier.get_risk_level (current_phase self)
      (current_task_criticality self) = Ok risk
    /\ core d = (if bool_decide (requested = AUTONOMOUS)
                    && bool_decide (Spec.base (current_phase self) = CRITICAL)
                 then (BLOCK, current_mode self, "high", false, None)
                 else (AUTO_SWITCH, requested, urgency_of_risk risk, false, None))
    /\ operator_override_callback now msg self = (after, Ok tt)
    /\ executed now d self after.
Proof.
  intros Hm. unfold operator_override_callback. rewrite Hm.
  unfold bind at 1, emit at 1, modify at 1.
  set (s1 := set_outbox _ self).
  unfold _process_operator_override, bind, gets, lift.
  destruct (get_risk_level_total (current_phase s1) (current_task_criticality s1))
    as [risk Hrisk].
  rewrite Hrisk.
  destruct (_handle_operator_override_core (rule_engine s1) requested (current_mode s1)
              risk (current_phase s1)) as (d & Hd & Hcore).
  rewrite (call_engine_unchanged _ _ _ Hd).
  destruct (_execute_decision_effect now d s1) as (after & Hex & Heff).
  exists risk, d, after. split; [exact Hrisk |]. split; [exact Hcore |].
  split; [exact Hex |]. exact (executed_outbox _ _ _ _ _ Heff).
Qed.
End NodeDecisions.

Section NodeBehaviour.
Import AuthorityRules ModeArbitrator.
Implicit Types (self after : ModeArbitratorNode) (d : AuthorityDecision).

(** ** Executing a decision *)

(** X16: executing a decision never raises, and it changes the mode only
    on AUTO_SWITCH: then the mode becomes the target, the time stamp of the
    last change becomes the clock reading, and one entry with the old mode,
    the new mode and the decision's message joins the mode change log; on
    every other action the three are left as they were. *)
Theorem execute_decision_changes_mode_on_auto_switch now d self :
  run (_execute_decision now d) self = Ok tt
  /\ current_mode (exec (_execute_decision now d) self)
     = (if bool_decide (action_type d = AUTO_SWITCH)
        then target_mode d else current_mode self)
  /\ last_mode_change_time (exec (_execute_decision now d) self)
     = (if bool_decide (action_type d = AUTO_SWITCH)
        then now else last_mode_change_time self)
  /\ mode_change_log (exec (_execute_decision now d) self)
     = (if bool_decide (action_type d = AUTO_SWITCH)
        then mode_change_log self
             ++ [mode_change_entry self (target_mode d) (message d)]
        else mode_change_log self).
Proof.
  destruct (_execute_decision_effect now d self) as (after & Hex & Hm & Ht & Hl & _).
  unfold run, exec. rewrite Hex. cbn [fst snd]. auto.
Qed.

(** X17: executing a decision replaces the pending request exactly on
    ASK: then the decision becomes the pending one and the clock reading
    its request time; every other action leaves both as they were, so a
    request that is still pending survives them. *)
Theorem execute_decision_replaces_pending_on_ask now d self :
  pending_decision (exec (_execute_decision now d) self)
  = (if bool_decide (action_type d = ASK) then Some d else pending_decision self)
  /\ decision_request_time (exec (_execute_decision now d) self)
     = (if bool_decide (action_type d = ASK)
        then Some now else decision_request_time self).
Proof.
  destruct (_execute_decision_effect now d self)
    as (after & Hex & _ & _ & _ & Hp & Ht & _).
  unfold exec. rewrite Hex. cbn [fst]. auto.
Qed.

(** X18: a decision with action NONE leaves the whole node as it was,
    outbox included; every other action appends exactly one entry to the
    decision log, tagged by the action, and the entry's current mode is the
    mode after the execution (for AUTO_SWITCH the new mode, not the one the
    decision was taken in). *)
Theorem execute_decision_logs_every_action now d self :
  if bool_decide (action_type d = NONE)
  then _execute_decision now d self = (self, Ok tt)
  else decision_log (exec (_execute_decision now d) self)
       = decision_log self
         ++ [decision_entry (decision_type_of (action_type d)) d
               (exec (_execute_decision now d) self)]
       /\ de_current_mode
            (decision_entry (decision_type_of (action_type d)) d
               (exec (_execute_decision now d) self))
          = ControlMode_.name
              (if bool_decide (action_type d = AUTO_SWITCH)
               then target_mode d else current_mode self).
Proof.
  destruct (bool_decide_reflect (action_type d = NONE)) as [E | E].
  - unfold _execute_decision. rewrite E. reflexivity.
  - destruct (_execute_decision_effect now d self)
      as (after & Hex & Hm & _ & _ & _ & _ & Hl & _).
    unfold exec. rewrite Hex. cbn [fst].
    rewrite (bool_decide_eq_false_2 _ E) in Hl.
    split; [exact Hl |]. cbn [decision_entry de_current_mode]. rewrite Hm. reflexivity.
Qed.

(** ** Operator overrides *)

(** X19: an override token that maps to HUMAN or SHARED, or to AUTONOMOUS
    in a phase where [is_autonomous_allowed] holds at criticality
    "Routine", switches the node: the callback returns, the mode is the
    requested one, the time stamp is the clock reading, the mode change log
    and the decision log grow by one entry each, and a pending request is
    left as it was.  The task criticality of the node plays no part. *)
Theorem operator_override_switches now msg self requested :
  mode_map !! lower msg = Some requested ->
  requested <> AUTONOMOUS
  \/ PhaseRiskClassifier.is_autonomous_allowed (current_phase self) "Routine" = Ok true ->
  run (operator_override_callback now msg) self = Ok tt
  /\ current_mode (exec (operator_override_callback now msg) self) = requested
  /\ last_mode_change_time (exec (operator_override_callback now msg) self) = now
  /\ (exists reason,
        mode_change_log (exec (operator_override_callback now msg) self)
        = mode_change_log self ++ [mode_change_entry self requested reason])
  /\ length (decision_log (exec (operator_override_callback now msg) self))
     = S (length (decision_log self))
  /\ pending_decision (exec (operator_override_callback now msg) self)
     = pending_decision self.
Proof.
  intros Hm Hallowed.
  destruct (operator_override_callback_mapped now msg self requested Hm)
    as (risk & d & after & _ & Hcore & Hex & Hmode & Htime & Hlog & Hp & _ & Hdl & _).
  assert (Hgate : bool_decide (requested = AUTONOMOUS)
                  && bool_decide (Spec.base (current_phase self) = CRITICAL) = false).
  { destruct Hallowed as [Hreq | Hphase].
    - rewrite (bool_decide_eq_false_2 _ Hreq). reflexivity.
    - rewrite is_autonomous_allowed_routine in Hphase. injection Hphase as Hphase.
      apply negb_true_iff in Hphase. rewrite Hphase. apply andb_false_r. }
  rewrite Hgate in Hcore. by_core Hcore.
  unfold run, exec. rewrite Hex. cbn [fst snd].
  repeat match goal with
    | E : action_type d = _ |- _ => rewrite E in *
    | E : target_mode d = _ |- _ => rewrite E in *
    end.
  revert Hmode Htime Hlog Hp Hdl. decide_eqs. intros Hmode Htime Hlog Hp Hdl.
  split; [reflexivity |]. split; [exact Hmode |]. split; [exact Htime |].
  split; [eexists; exact Hlog |]. split; [| exact Hp].
  rewrite Hdl, length_app. cbn [length]. lia.
Qed.

Lemma operator_override_switches_witness :
  mode_map !! lower "Autonomous" = Some AUTONOMOUS
  /\ (AUTONOMOUS <> AUTONOMOUS
      \/ PhaseRiskClassifier.is_autonomous_allowed
           (current_phase
              (exec (task_criticality_callback "Critical") (ModeArbitrator.__init__ 0)))
           "Routine" = Ok true)
  /\ current_mode
       (exec (operator_override_callback 9 "Autonomous")
          (exec (task_criticality_callback "Critical") (ModeArbitrator.__init__ 0)))
     = AUTONOMOUS.
Proof.
  assert (H1 : mode_map !! lower "Autonomous" = Some AUTONOMOUS) by reflexivity.
  assert (H2 : AUTONOMOUS <> AUTONOMOUS
               \/ PhaseRiskClassifier.is_autonomous_allowed
                    (current_phase
                       (exec (task_criticality_callback "Critical")
                          (ModeArbitrator.__init__ 0)))
                    "Routine" = Ok true) by (right; reflexivity).
  split; [exact H1 |]. split; [exact H2 |].
  exact (proj1 (proj2 (operator_override_switches 9 "Autonomous"
                         (exec (task_criticality_callback "Critical")
                            (ModeArbitrator.__init__ 0)) AUTONOMOUS H1 H2))).
Defined.

(** X20: an override token that maps to AUTONOMOUS in a phase where
    [is_autonomous_allowed] fails at criticality "Routine" (the phases
    "Docking" and "DockingApproach") is refused: the callback returns, the
    mode, its time stamp, the mode change log and the pending request are
    left as they were, and the decision log records one blocked
    decision. *)
Theorem operator_override_to_autonomous_refused now msg self :
  mode_map !! lower msg = Some AUTONOMOUS ->
  PhaseRiskClassifier.is_autonomous_allowed (current_phase self) "Routine" = Ok false ->
  run (operator_override_callback now msg) self = Ok tt
  /\ current_mode (exec (operator_override_callback now msg) self) = current_mode self
  /\ last_mode_change_time (exec (operator_override_callback now msg) self)
     = last_mode_change_time self
  /\ mode_change_log (exec (operator_override_callback now msg) self)
     = mode_change_log self
  /\ pending_decision (exec (operator_override_callback now msg) self)
     = pending_decision self
  /\ (exists entry,
        decision_log (exec (operator_override_callback now msg) self)
        = decision_log self ++ [entry]
        /\ de_decision_type entry = "blocked"
        /\ de_current_mode entry = ControlMode_.name (current_mode self)
        /\ de_target_mode entry = ControlMode_.name (current_mode self)).
Proof.
  intros Hm Hphase.
  destruct (operator_override_callback_mapped now msg self AUTONOMOUS Hm)
    as (risk & d & after & _ & Hcore & Hex & Hmode & Htime & Hlog & Hp & _ & Hdl & _).
  rewrite is_autonomous_allowed_routine in Hphase. injection Hphase as Hphase.
  apply negb_false_iff in Hphase. rewrite Hphase in Hcore.
  rewrite (bool_decide_eq_true_2 (AUTONOMOUS = AUTONOMOUS)) in Hcore by reflexivity.
  cbn [andb] in Hcore. by_core Hcore.
  unfold run, exec. rewrite Hex. cbn [fst snd].
  repeat match goal with
    | E : action_type d = _ |- _ => rewrite E in *
    | E : target_mode d = _ |- _ => rewrite E in *
    end.
  revert Hmode Htime Hlog Hp Hdl. decide_eqs. intros Hmode Htime Hlog Hp Hdl.
  split; [reflexivity |]. split; [exact Hmode |]. split; [exact Htime |].
  split; [exact Hlog |]. split; [exact Hp |].
  eexists. split; [exact Hdl |].
  cbn [decision_entry de_decision_type de_current_mode de_target_mode decision_type_of].
  rewrite Hmode. match goal with E : target_mode d = _ |- _ => rewrite E end.
  auto.
Qed.

Lemma operator_override_to_autonomous_refused_witness :
  mode_map !! lower "AUTONOMOUS" = Some AUTONOMOUS
  /\ PhaseRiskClassifier.is_autonomous_allowed
       (current_phase (exec (mission_phase_callback "Docking") (ModeArbitrator.__init__ 0)))
       "Routine" = Ok false
  /\ current_mode
       (exec (operator_override_callback 9 "AUTONOMOUS")
          (exec (mission_phase_callback "Docking") (ModeArbitrator.__init__ 0)))
     = current_mode (exec (mission_phase_callback "Docking") (ModeArbitrator.__init__ 0)).
Proof.
  assert (H1 : mode_map !! lower "AUTONOMOUS" = Some AUTONOMOUS) by reflexivity.
  assert (H2 : PhaseRiskClassifier.is_autonomous_allowed
                 (current_phase
                    (exec (mission_phase_callback "Docking") (ModeArbitrator.__init__ 0)))
                 "Routine" = Ok false) by reflexivity.
  split; [exact H1 |]. split; [exact H2 |].
  exact (proj1 (proj2 (operator_override_to_autonomous_refused 9 "AUTONOMOUS"
                         (exec (mission_phase_callback "Docking")
                            (ModeArbitrator.__init__ 0)) H1 H2))).
Defined.
(** ** Pending requests *)

(** The node once the operator has answered the pending request [d]. *)
Lemma operator_decision_response_callback_effect now accepted self d :
  pending_decision self = Some d ->
  exists out,
    operator_decision_response_callback now accepted self
    = (set_outbox out
         (set_pending None None
            (if accepted
             then set_mode_change_log
                    (mode_change_log self
                     ++ [mode_change_entry self (target_mode d)
                           ("Operator accepted: " +:+ message d)])
                    (set_last_mode_change_time now
                       (set_current_mode (target_mode d) self))
             else set_decision_log
                    (decision_log self ++ [decision_entry "operator_declined" d self])
                    self)), Ok tt).
Proof.
  intros Hp. unfold operator_decision_response_callback.
  unfold bind at 1, gets at 1. rewrite Hp.
  unfold bind at 1, emit at 1, modify at 1. set (s1 := set_outbox _ self).
  unfold bind at 1. destruct accepted.
  - destruct (_execute_mode_change_effect now (target_mode d)
                ("Operator accepted: " +:+ message d) s1) as (o1 & ->).
    unfold modify. eexists. destruct self; reflexivity.
  - unfold bind, gets. rewrite _send_ui_message_effect. log_effect.
    unfold modify. eexists. destruct self; reflexivity.
Qed.

(** The node once the pending request [d], made at [requested] with a
    timeout, has been checked at [now]. *)
Lemma check_pending_decisions_effect now self d requested timeout :
  pending_decision self = Some d ->
  decision_request_time self = Some requested ->
  timeout_seconds d = Some timeout ->
  if float_gt_Z (float_of_Z (now - requested) / 1e9) timeout
  then exists out,
         check_pending_decisions now self
         = (set_outbox out
              (set_pending None None
                 (set_decision_log
                    (decision_log self ++ [decision_entry "timeout" d self]) self)),
            Ok tt)
  else check_pending_decisions now self = (self, Ok tt).
Proof.
  intros Hp Ht Hs.
  assert (Hbody : check_pending_decisions now self
                  = (if float_gt_Z (float_of_Z (now - requested) / 1e9) timeout
                     then
                       current <- gets current_mode ;;
                       _ <- _send_ui_message
                              ("Decision timeout. Maintaining "
                               +:+ ControlMode_.name current +:+ " mode.") "medium" ;;
                       _ <- _log_decision "timeout" d ;;
                       modify (set_pending None None)
                     else ret tt) self).
  { unfold check_pending_decisions. unfold bind at 1, gets at 1. rewrite Hp.
    unfold bind at 1, gets at 1. rewrite Ht, Hs. reflexivity. }
  rewrite Hbody. destruct (float_gt_Z _ _); [| reflexivity].
  unfold bind, gets. rewrite _send_ui_message_effect. log_effect.
  unfold modify. eexists. destruct self; reflexivity.
Qed.

Lemma check_pending_decisions_idle now self :
  timed_out now self = false -> check_pending_decisions now self = (self, Ok tt).
Proof.
  unfold timed_out, check_pending_decisions, bind, gets.
  destruct (pending_decision self) as [d |]; [| reflexivity].
  destruct (decision_request_time self) as [requested |]; [| reflexivity].
  destruct (timeout_seconds d) as [timeout |]; [| reflexivity].
  intros ->. reflexivity.
Qed.

Lemma check_pending_decisions_fires now self :
  timed_out now self = true ->
  exists d out,
    pending_decision self = Some d
    /\ check_pending_decisions now self
       = (set_outbox out
            (set_pending None None
               (set_decision_log
                  (decision_log self ++ [decision_entry "timeout" d self]) self)),
          Ok tt).
Proof.
  unfold timed_out.
  destruct (pending_decision self) as [d |] eqn:Hp; [| discriminate].
  destruct (decision_request_time self) as [requested |] eqn:Ht; [| discriminate].
  destruct (timeout_seconds d) as [timeout |] eqn:Hs; [| discriminate].
  intros Hgt.
  pose proof (check_pending_decisions_effect now self d requested timeout Hp Ht Hs)
    as Heff.
  rewrite Hgt in Heff. destruct Heff as (out & Heff). eauto.
Qed.

(** X21: the operator's answer.  With no request pending the callback
    leaves the node as it was.  With the request [d] pending it returns
    and clears the request and its time; on acceptance the mode becomes the
    request's target at the clock reading, with one entry in the mode
    change log and none in the decision log, whatever the phase and the
    risk are by then; on refusal the mode stays and the decision log gets
    one entry tagged "operator_declined". *)
Theorem operator_response_resolves_pending now accepted self :
  match pending_decision self with
  | None => operator_decision_response_callback now accepted self = (self, Ok tt)
  | Some d =>
      run (operator_decision_response_callback now accepted) self = Ok tt
      /\ pending_decision (exec (operator_decision_response_callback now accepted) self)
         = None
      /\ decision_request_time
           (exec (operator_decision_response_callback now accepted) self) = None
      /\ current_mode (exec (operator_decision_response_callback now accepted) self)
         = (if accepted then target_mode d else current_mode self)
      /\ last_mode_change_time
           (exec (operator_decision_response_callback now accepted) self)
         = (if accepted then now else last_mode_change_time self)
      /\ mode_change_log (exec (operator_decision_response_callback now accepted) self)
         = (if accepted
            then mode_change_log self
                 ++ [mode_change_entry self (target_mode d)
                       ("Operator accepted: " +:+ message d)]
            else mode_change_log self)
      /\ decision_log (exec (operator_decision_response_callback now accepted) self)
         = (if accepted then decision_log self
            else decision_log self ++ [decision_entry "operator_declined" d self])
  end.
Proof.
  destruct (pending_decision self) as [d |] eqn:Hp.
  - destruct (operator_decision_response_callback_effect now accepted self d Hp)
      as (out & Heff).
    unfold run, exec. rewrite Heff. cbn [fst snd].
    destruct accepted; repeat split.
  - unfold operator_decision_response_callback, bind, gets. rewrite Hp. reflexivity.
Qed.

(** X22: the timeout check never raises and never touches the mode, its
    time stamp or the mode change log.  It clears the pending request and
    its time, and logs one entry tagged "timeout", exactly when the request
    has a timeout and the seconds since the request exceed it; otherwise
    the whole node is left as it was. *)
Theorem check_pending_decisions_expires now self :
  run (check_pending_decisions now) self = Ok tt
  /\ current_mode (exec (check_pending_decisions now) self) = current_mode self
  /\ last_mode_change_time (exec (check_pending_decisions now) self)
     = last_mode_change_time self
  /\ mode_change_log (exec (check_pending_decisions now) self) = mode_change_log self
  /\ if timed_out now self
     then pending_decision (exec (check_pending_decisions now) self) = None
          /\ decision_request_time (exec (check_pending_decisions now) self) = None
          /\ exists d,
               pending_decision self = Some d
               /\ decision_log (exec (check_pending_decisions now) self)
                  = decision_log self ++ [decision_entry "timeout" d self]
     else check_pending_decisions now self = (self, Ok tt).
Proof.
  destruct (timed_out now self) eqn:Hout.
  - destruct (check_pending_decisions_fires now self Hout) as (d & out & Hp & Heff).
    unfold run, exec. rewrite Heff. cbn [fst snd].
    repeat split. exists d. split; [exact Hp | reflexivity].
  - unfold run, exec. rewrite (check_pending_decisions_idle now self Hout).
    repeat split.
Qed.

(** ** What the node keeps *)

(** X23: neither the arbitration loop, nor an operator override, nor the
    operator's answer, nor the timeout check changes the rule engine or
    any input the engine reads (phase, criticality, stored recommendation,
    the three reliabilities, the confidence): only the sensor callbacks
    write them. *)
Theorem decisions_keep_the_inputs now msg accepted self :
  same_inputs self (exec (arbitration_loop now) self)
  /\ same_inputs self (exec (operator_override_callback now msg) self)
  /\ same_inputs self (exec (operator_decision_response_callback now accepted) self)
  /\ same_inputs self (exec (check_pending_decisions now) self).
Proof.
  unfold same_inputs. repeat apply conj.
  all: try match goal with
    | |- context [arbitration_loop] =>
        destruct (arbitration_loop_cases now self)
          as [(r & Hex) | (mode & d & after & _ & _ & Hex & Heff)];
        unfold exec; rewrite Hex; cbn [fst];
        [reflexivity | unfold executed in Heff; tauto]
    | |- context [operator_override_callback] =>
        destruct (mode_map !! lower msg) as [requested |] eqn:Hm;
        [ destruct (operator_override_callback_mapped now msg self requested Hm)
            as (risk & d & after & _ & _ & Hex & Heff);
          unfold exec; rewrite Hex; cbn [fst]; unfold executed in Heff; tauto
        | unfold operator_override_callback, exec; rewrite Hm; reflexivity ]
    | |- context [operator_decision_response_callback] =>
        destruct (pending_decision self) as [d |] eqn:Hp;
        [ destruct (operator_decision_response_callback_effect now accepted self d Hp)
            as (out & Hex);
          unfold exec; rewrite Hex; cbn [fst]; destruct accepted; reflexivity
        | unfold operator_decision_response_callback, exec, bind, gets; rewrite Hp;
          reflexivity ]
    end.
  all: destruct (timed_out now self) eqn:Hout;
    [ destruct (check_pending_decisions_fires now self Hout) as (d & out & _ & Hex)
    | pose proof (check_pending_decisions_idle now self Hout) as Hex ];
    unfold exec; rewrite Hex; reflexivity.
Qed.

(** ** The arbitration loop *)

(** X24: one run of the arbitration loop leaves the mode as it was, or
    hands control to HUMAN, or switches to AUTONOMOUS at effective risk
    SAFE; it never moves the node into SHARED by itself, and into
    AUTONOMOUS at no other risk level. *)
Theorem arbitration_loop_mode_change now self :
  current_mode (exec (arbitration_loop now) self) = current_mode self
  \/ current_mode (exec (arbitration_loop now) self) = HUMAN
  \/ (current_mode (exec (arbitration_loop now) self) = AUTONOMOUS
      /\ PhaseRiskClassifier.get_risk_level (current_phase self)
           (current_task_criticality self) = Ok SAFE).
Proof.
  destruct (arbitration_loop_cases now self)
    as [(r & Hex) | (mode & d & after & _ & Hrun & Hex & Hmode & _)];
    unfold exec; rewrite Hex; cbn [fst]; [left; reflexivity |].
  rewrite Hmode.
  destruct (bool_decide_reflect (action_type d = AUTO_SWITCH)) as [Ha | _];
    [| left; reflexivity].
  right.
  destruct (run_tiers _ _ _ _ _ _ _ _ Hrun)
    as (risk & Hrisk & [(? & H) | [(? & ? & H) | [(_ & _ & _ & H) | [(_ & _ & _ & H)
          | [(_ & _ & _ & H) | (_ & _ & H)]]]]]); try discriminate.
  1-3: by_core H; first [congruence | left; congruence].
  revert Ha.
  by_phase_table H (current_mode self) (recommended_mode (loop_recommendation mode self))
    risk; intros;
    first [congruence | left; congruence | right; split; congruence].
Qed.

(** X25: inside the minimum mode duration the loop creates no request,
    and the only mode change it makes is the hand-over from AUTONOMOUS to
    a recommended HUMAN (hard safety rule B). *)
Theorem arbitration_loop_inside_window now self :
  (seconds_since_change now self <? minimum_mode_duration (rule_engine self))%float
  = true ->
  pending_decision (exec (arbitration_loop now) self) = pending_decision self
  /\ (current_mode (exec (arbitration_loop now) self) = current_mode self
      \/ (current_mode self = AUTONOMOUS
          /\ latest_bn_recommendation self = Some HUMAN
          /\ current_mode (exec (arbitration_loop now) self) = HUMAN)).
Proof.
  intros Hwin.
  destruct (arbitration_loop_cases now self)
    as [(r & Hex) | (mode & d & after & Hl & Hrun & Hex & Hmode & _ & _ & Hp & _)];
    unfold exec; rewrite Hex; cbn [fst]; [auto |].
  rewrite Hmode, Hp.
  destruct (run_tiers _ _ _ _ _ _ _ _ Hrun)
    as (risk & Hrisk & [(? & H) | [(? & ? & H) | [(_ & _ & _ & H) | [(_ & Hc & Hr & H)
          | [(_ & _ & _ & H) | (_ & [Hw | Hw] & H)]]]]]); try discriminate;
    try congruence.
  - by_core H. repeat match goal with E : action_type d = _ |- _ => rewrite E end.
    decide_eqs. auto.
  - by_core H. repeat match goal with
      | E : action_type d = _ |- _ => rewrite E
      | E : target_mode d = _ |- _ => rewrite E
      end.
    decide_eqs. split; [reflexivity |]. right. cbn in Hr. subst mode. auto.
  - by_core H. repeat match goal with E : action_type d = _ |- _ => rewrite E end.
    decide_eqs. auto.
  - rewrite Hw in H. unfold phase_core in H.
    rewrite (bool_decide_eq_true_2 (current_mode self = current_mode self)) in H
      by reflexivity.
    by_core H. repeat match goal with E : action_type d = _ |- _ => rewrite E end.
    destruct risk; decide_eqs; auto.
Qed.

Lemma arbitration_loop_inside_window_witness :
  (seconds_since_change 5
     (exec (bn_recommendation_callback "Autonomous") (ModeArbitrator.__init__ 0))
   <? minimum_mode_duration
        (rule_engine
           (exec (bn_recommendation_callback "Autonomous") (ModeArbitrator.__init__ 0))))%float
  = true
  /\ pending_decision
       (exec (arbitration_loop 5)
          (exec (bn_recommendation_callback "Autonomous") (ModeArbitrator.__init__ 0)))
     = pending_decision
         (exec (bn_recommendation_callback "Autonomous") (ModeArbitrator.__init__ 0)).
Proof.
  assert (H : (seconds_since_change 5
                 (exec (bn_recommendation_callback "Autonomous")
                    (ModeArbitrator.__init__ 0))
               <? minimum_mode_duration
                    (rule_engine
                       (exec (bn_recommendation_callback "Autonomous")
                          (ModeArbitrator.__init__ 0))))%float = true)
    by (vm_compute; reflexivity).
  split; [exact H |].
  exact (proj1 (arbitration_loop_inside_window 5
                  (exec (bn_recommendation_callback "Autonomous")
                     (ModeArbitrator.__init__ 0)) H)).
Defined.

(** X26: a request made by the loop.  One run of the loop either leaves
    the pending request and its time as they were, or replaces them by a
    decision made at this clock reading that asks, can be declined, has a
    timeout of 30, 45 or 60 seconds and targets a mode other than the
    current one; the mode is not changed by that run, and a timeout check
    at the same clock reading leaves the request pending. *)
Theorem arbitration_loop_requests now self :
  (pending_decision (exec (arbitration_loop now) self) = pending_decision self
   /\ decision_request_time (exec (arbitration_loop now) self)
      = decision_request_time self)
  \/ (exists d,
        pending_decision (exec (arbitration_loop now) self) = Some d
        /\ decision_request_time (exec (arbitration_loop now) self) = Some now
        /\ action_type d = ASK /\ allow_decline d = true
        /\ (timeout_seconds d = Some 30 \/ timeout_seconds d = Some 45
            \/ timeout_seconds d = Some 60)
        /\ target_mode d <> current_mode self
        /\ current_mode (exec (arbitration_loop now) self) = current_mode self
        /\ check_pending_decisions now (exec (arbitration_loop now) self)
           = (exec (arbitration_loop now) self, Ok tt)).
Proof.
  destruct (arbitration_loop_cases now self)
    as [(r & Hex) | (mode & d & after & _ & Hrun & Hex & Hmode & _ & _ & Hp & Ht & _)];
    unfold exec; rewrite Hex; cbn [fst]; [left; auto |].
  destruct (bool_decide_reflect (action_type d = ASK)) as [Ha | _];
    [| left; auto].
  right. exists d. rewrite Ha in Hmode. revert Hmode. decide_eqs. intros Hmode.
  assert (Hd : allow_decline d = true
               /\ (timeout_seconds d = Some 30 \/ timeout_seconds d = Some 45
                   \/ timeout_seconds d = Some 60)
               /\ target_mode d <> current_mode self).
  { destruct (run_tiers _ _ _ _ _ _ _ _ Hrun)
      as (risk & Hrisk & [(? & H) | [(? & ? & H) | [(_ & _ & _ & H) | [(_ & _ & _ & H)
            | [(_ & _ & _ & H) | (_ & _ & H)]]]]]); try discriminate.
    1-3: by_core H; congruence.
    revert Ha.
    by_phase_table H (current_mode self)
      (recommended_mode (loop_recommendation mode self)) risk; intros;
      try congruence;
      (split; [congruence |]); (split; [| congruence]);
      first [left; congruence | right; left; congruence | right; right; congruence]. }
  destruct Hd as (Hdecl & Htimeout & Htarget).
  repeat (split; [assumption |]).
  apply check_pending_decisions_idle. unfold timed_out.
  rewrite Hp, Ht, Z.sub_diag.
  destruct Htimeout as [-> | [-> | ->]]; vm_compute; reflexivity.
Qed.

(** ** The sensor callbacks *)

(** X27: what the sensors deliver is what the engine gets.  After the
    callbacks for phase, criticality, the three reliabilities, the
    confidence and a recommendation token, the mode, the pending request
    and both logs are as before, and the next run of the loop calls the
    engine with the current mode, the delivered values (the docking
    reliability as a present value, the token lower-cased and looked up,
    SHARED when unknown), the seconds since the last change and no
    override. *)
Theorem sensor_updates_reach_the_engine now phase criticality hr ar dr conf token self :
  same_authority self
    (exec (sensor_updates phase criticality hr ar dr conf token) self)
  /\ arbitration_loop now
       (exec (sensor_updates phase criticality hr ar dr conf token) self)
     = (decision <- call_engine
          (evaluate_mode_change (current_mode self)
             {| recommended_mode := default SHARED (mode_map !! lower token);
                confidence := conf;
                AuthorityRules.human_reliability := hr;
                AuthorityRules.autonomous_reliability := ar;
                AuthorityRules.docking_reliability := Some dr |}
             phase criticality (seconds_since_change now self) None) ;;
        _execute_decision now decision)
       (exec (sensor_updates phase criticality hr ar dr conf token) self).
Proof.
  split; [repeat split |].
  apply (arbitration_loop_recommendation now
           (exec (sensor_updates phase criticality hr ar dr conf token) self)
           (default SHARED (mode_map !! lower token))).
  reflexivity.
Qed.

(** ** The decision log *)

(** X28: logging a decision never raises; it appends one entry that
    holds the node's mode, phase, criticality, reliabilities and confidence
    at that moment, and it hands both logs, the new entry included, to
    [_save_logs] exactly when the decision log reaches a multiple of 50
    entries (the file write is taken to succeed, as in [_save_logs]). *)
Theorem log_decision_saves_every_fiftieth decision_type d self :
  run (_log_decision decision_type d) self = Ok tt
  /\ decision_log (exec (_log_decision decision_type d) self)
     = decision_log self ++ [decision_entry decision_type d self]
  /\ outbox (exec (_log_decision decision_type d) self)
     = outbox self
       ++ (if (Z.of_nat (S (length (decision_log self))) mod 50 =? 0)%Z
           then [SaveLogs (mode_change_log self)
                   (decision_log self ++ [decision_entry decision_type d self]);
                 LogInfo ("Saved "
                          +:+ str_of_Z (Z.of_nat (S (length (decision_log self))))
                          +:+ " decisions to log file")]
           else []).
Proof.
  assert (Hlen : forall e : DecisionEntry,
            length (decision_log self ++ [e]) = S (length (decision_log self))).
  { intros e. rewrite length_app. cbn [length]. lia. }
  unfold _log_decision, _save_logs, emit, run, exec, bind, gets, modify, ret.
  cbn [fst snd set_decision_log set_outbox decision_log outbox mode_change_log].
  fold (decision_entry decision_type d self). rewrite Hlen.
  destruct (Z.of_nat (S (length (decision_log self))) mod 50 =? 0)%Z;
    cbn [fst snd set_decision_log set_outbox decision_log outbox mode_change_log].
  - rewrite Hlen, <- app_assoc. repeat split.
  - rewrite app_nil_r. repeat split.
Qed.
End NodeBehaviour.
